(** * useFormBuilder: the record editing hook of xams

    A shallow embedding of the hook [useFormBuilder] (load, snapshot
    assignment, synthesis of the edit buffer, validation, save) and the
    properties of it that the specification states.

    One call of the hook is one render: [props], [state] and
    [snapshotQueue] are constants of that render, and the functions the hook
    returns close over them.  They are Section variables below.  A function
    of the hook does not change them: it dispatches actions to the reducer
    and posts updates of the queue, which take effect for the next render.
    What a function does is therefore its trace: the actions it dispatches,
    the queue updates it posts and the collaborators it calls, in order. *)

From Stdlib Require Import ZArith.
From stdpp Require Import gmap strings list fin_maps.

#[local] Set Warnings "-register-all".
#[local] Open Scope string_scope.
#[local] Open Scope list_scope.

(** ** JavaScript values *)

(** The values the hook handles are untyped ([any]).  Numbers are only
    stored and compared here, never computed with. *)
Inductive any : Type :=
| Undefined
| Null
| Bool (b : bool)
| Num (n : Z)
| Str (s : string)
| Obj (o : gmap string any).

(** A record (row, edit buffer, parameter bag): string keys to values. *)
Abbreviation obj := (gmap string any).

(** [{...a, ...b}]: the keys of [b] win. *)
Definition spread (a b : obj) : obj := b ∪ a.

(** [o[k]] on a record: a key that is not there reads [undefined]. *)
Definition get (o : obj) (k : string) : any := default Undefined (o !! k).

(** [v === null] *)
Definition is_null (v : any) : bool :=
  match v with Null => true | _ => false end.

(** [v == null]: [null] or [undefined]. *)
Definition is_nullish (v : any) : bool :=
  match v with Null | Undefined => true | _ => false end.

(** A snapshot ([props.snapshot], [state.snapshot], the argument of
    [setSnapshot]) is [undefined], [null] or a record. *)
Inductive Snapshot : Type :=
| SUndefined
| SNull
| SRecord (o : obj).

(** [snapshot === undefined] *)
Definition isUndefined (s : Snapshot) : bool :=
  match s with SUndefined => true | _ => false end.

(** [snapshot != null] *)
Definition present (s : Snapshot) : bool :=
  match s with SRecord _ => true | _ => false end.

(** ** Schema

    The fields of [MetadataResponse] (api/MetadataResponse is not among the
    sources) are those the hook reads. *)

Module Field.
Record t : Type := mk {
  name : string;
  type : string;
  isNullable : bool;
  isRequired : bool;
  displayName : string;
  lookupTable : string;
  lookupTableNameField : string
}.
End Field.

Module Metadata.
Record t : Type := mk {
  tableName : string;
  fields : list Field.t
}.
End Metadata.

Abbreviation MetadataResponse := Metadata.t.

Module FieldValue.
Record t : Type := mk {
  field : string;
  value : any
}.
End FieldValue.

(** The key of the per-record permission flags. *)
Definition ui_info : string := "_ui_info_".

Definition numericTypes : list string :=
  ["Single"; "Int32"; "Int64"; "Double"; "Decimal"].

Definition includes (l : list string) (s : string) : bool :=
  bool_decide (s ∈ l).

Definition isNumeric (f : Field.t) : bool :=
  String.eqb (Field.type f) "Single" || String.eqb (Field.type f) "Int32"
  || String.eqb (Field.type f) "Int64" || String.eqb (Field.type f) "Double"
  || String.eqb (Field.type f) "Decimal".
Definition isString (f : Field.t) : bool :=
  String.eqb (Field.type f) "String" || String.eqb (Field.type f) "Guid".
Definition isBoolean (f : Field.t) : bool := String.eqb (Field.type f) "Boolean".
Definition isDateTime (f : Field.t) : bool := String.eqb (Field.type f) "DateTime".
Definition isLookup (f : Field.t) : bool := String.eqb (Field.type f) "Lookup".

(** [l.reduce((a, b) => ({...a, [b.field]: b.value}), {})] *)
Definition toObject (l : list FieldValue.t) : obj :=
  foldl (fun a b => <[FieldValue.field b := FieldValue.value b]> a) ∅ l.

(** [defaults?.find((x) => x.field === name)?.value ?? null] *)
Definition findDefault (defaults : option (list FieldValue.t)) (name : string) : any :=
  match defaults with
  | None => Null
  | Some l =>
      match List.find (fun x => String.eqb (FieldValue.field x) name) l with
      | Some x => if is_nullish (FieldValue.value x) then Null else FieldValue.value x
      | None => Null
      end
  end.

(** [d.setUTCHours(0, 0, 0, 0)] on a time in milliseconds. *)
Definition msPerDay : Z := 86400000.
Definition setUTCHours0 (ms : Z) : Z := (ms - ms mod msPerDay)%Z.

(** ** Requests, responses and callbacks *)

Module ReadRequest.
Record t : Type := mk {
  tableName : string;
  fields : list string;
  maxResults : Z;
  page : Z;
  id : any
}.
End ReadRequest.

(** The answer of [authRequest.read]; [results] is [data.results]
    ([None]: null). *)
Module ReadResponse.
Record t : Type := mk {
  succeeded : bool;
  results : option (list obj)
}.
End ReadResponse.

Module ExecuteRequest.
Record t : Type := mk {
  url : string;
  method : string;
  tableName : option string;
  fields : option obj;
  parameters : option obj
}.
End ExecuteRequest.

Module ExecuteResponse.
Record t : Type := mk {
  succeeded : bool;
  data : any
}.
End ExecuteResponse.

Module SaveEventResponse.
Record t : Type := mk {
  continue : bool;
  parameters : option obj
}.
End SaveEventResponse.

(** A callback is modelled by the value it returns for the arguments it
    is handed. *)
Definition PreSaveEvent : Type := obj -> SaveEventResponse.t.

Module FBEvent.
Record t : Type := mk {
  eventName : string;
  callback : list any -> any
}.
End FBEvent.

Module DataTableRef.
Record t : Type := mk {
  dataTableId : string
}.
End DataTableRef.

Module ValidationMessage.
Record t : Type := mk {
  field : string;
  message : string
}.
End ValidationMessage.

Module CanRead.
Record t : Type := mk {
  canRead : bool;
  message : string
}.
End CanRead.

Module OnLoadOptions.
Record t : Type := mk {
  id : option string;
  refresh : bool;
  refreshDatatables : bool;
  forceShowLoading : option bool
}.
End OnLoadOptions.

Module Props.
Record t : Type := mk {
  tableName : string;
  id : option string;
  metadata : option MetadataResponse;
  defaults : option (list FieldValue.t);
  snapshot : Snapshot;
  canUpdate : option bool;
  canCreate : option bool;
  onPreSave : option PreSaveEvent;
  onPostSave : bool;
  forceShowLoading : option bool
}.
End Props.

(** ** Actions of the state container

    The actions are those the hook dispatches in the functions modelled
    here, with the payloads it builds. *)

Module LoadComplete.
Record t : Type := mk {
  metadata : option MetadataResponse;
  snapshot : Snapshot;
  data : option obj;
  canUpdate : any;
  canCreate : bool;
  canRead : CanRead.t
}.
End LoadComplete.

Module DataToEdit.
Record t : Type := mk {
  data : option obj;
  snapshot : Snapshot;
  canUpdate : option bool;
  forceIsLoading : bool
}.
End DataToEdit.

Inductive Action : Type :=
| START_INITIAL_LOAD (tableName : string) (data : option obj) (forceIsLoading : bool)
| INITIAL_LOAD_COMPLETE (payload : LoadComplete.t)
| SET_DATA_TO_EDIT (payload : DataToEdit.t)
| SET_FIELD_VALUE (field : string) (value : any)
| SET_IS_LOADING
| SUBMIT_CANCELLED
| SUBMIT_COMPLETE
| SET_VALIDATION_MESSAGES (payload : list ValidationMessage.t)
| SET_VALIDATION_MESSAGE (payload : ValidationMessage.t).

(** ** Traces *)

Inductive Callee : Type :=
| PreValidateHook
| OnPreSave
| Listener (i : nat)
| PreSaveHook
| OnPostSave
| PostSaveHook.

(** What a function of the hook does to the outside, in order. *)
Inductive Event : Type :=
| Dispatch (a : Action)
| QueuePop
| QueueAppend (s : Snapshot)
| QueueReset
| FetchMetadata (tableName : string)
| Read (r : ReadRequest.t)
| Execute (r : ExecuteRequest.t)
| GetTablePermissions (tableName : string)
| GetLookupLabel (fieldName lookupTable lookupTableNameField : string) (value : any)
| Refresh (dataTableId : string)
| Call (c : Callee) (args : list any).

(** An asynchronous function resolves with a value or rejects. *)
Inductive outcome (A : Type) : Type :=
| Resolved (a : A)
| Rejected (e : string).
Arguments Resolved {A} a.
Arguments Rejected {A} e.

(** A computation: the trace it leaves and how it ends. *)
Definition M (A : Type) : Type := list Event * outcome A.

Definition ret {A} (a : A) : M A := ([], Resolved a).

Definition bind {A B} (m : M A) (k : A -> M B) : M B :=
  match m with
  | (t, Resolved a) => let '(t', r) := k a in (t ++ t', r)
  | (t, Rejected e) => (t, Rejected e)
  end.

Definition emit (e : Event) : M unit := ([e], Resolved tt).
Definition throw {A} (e : string) : M A := ([], Rejected e).
Definition dispatch (a : Action) : M unit := emit (Dispatch a).

Notation "'let*' x ':=' m 'in' k" := (bind m (fun x => k))
  (at level 10, x name, m at level 100, k at level 200).
Notation "'do' m 'in' k" := (bind m (fun _ => k))
  (at level 10, m at level 100, k at level 200).

Definition trace {A} (m : M A) : list Event := fst m.
Definition result {A} (m : M A) : outcome A := snd m.

(** The actions dispatched in a trace, in order. *)
Definition dispatched (t : list Event) : list Action :=
  omap (fun e => match e with Dispatch a => Some a | _ => None end) t.

(** [v[k]] on an untyped value: a [TypeError] on [undefined] and [null],
    [undefined] on the other primitives (for the keys read here). *)
Definition member (v : any) (k : string) : M any :=
  match v with
  | Undefined | Null => throw "TypeError"
  | Obj o => ret (get o k)
  | _ => ret Undefined
  end.

(** [s[k]] on a snapshot. *)
Definition snapshotMember (s : Snapshot) (k : string) : M any :=
  match s with
  | SRecord o => ret (get o k)
  | _ => throw "TypeError"
  end.

(** [for (const x of l) { body }] *)
Fixpoint forEach {A} (l : list A) (body : A -> M unit) : M unit :=
  match l with
  | [] => ret tt
  | x :: l' => do body x in forEach l' body
  end.

(** ** The state container *)

Module Phase.
Inductive t : Type :=
| UNINITIALIZED
| LOADING
| READY
| SUBMITTING
| SUBMIT_CANCELLED.
End Phase.

(** Modelled from the spec: the state of the reducer
    (reducers/formbuilderReducer is not among the sources).  The fields are
    those the hook reads; the lifecycle phase of section 3 stands for
    [state.type]. *)
Module State.
Record t : Type := mk {
  phase : Phase.t;
  metadata : option MetadataResponse;
  snapshot : Snapshot;
  data : option obj;
  dirtyFields : list string;
  validationMessages : list ValidationMessage.t;
  canUpdate : any;
  canCreate : bool;
  canRead : CanRead.t;
  forceIsLoading : bool
}.

Definition setPhase (p : Phase.t) (s : t) : t :=
  mk p (metadata s) (snapshot s) (data s) (dirtyFields s)
     (validationMessages s) (canUpdate s) (canCreate s) (canRead s)
     (forceIsLoading s).

Definition setValidationMessages (m : list ValidationMessage.t) (s : t) : t :=
  mk (phase s) (metadata s) (snapshot s) (data s) (dirtyFields s)
     m (canUpdate s) (canCreate s) (canRead s) (forceIsLoading s).
End State.

(** Modelled from the spec: [formbuilderReducer] (reducers/formbuilderReducer)
    is not among the sources.  The transitions are those of sections 3 and 4
    of the specification: a load that is not a refresh enters [LOADING] with
    a provisional buffer; a completed load enters [READY] and publishes its
    payload; a snapshot assignment replaces buffer and snapshot, fixes
    [canUpdate] when the caller did, enters [READY] and resets the dirty set
    and the validation messages; [setField] writes the key and marks it
    dirty once; save enters [SUBMITTING], then [SUBMIT_CANCELLED] or
    [READY]; a failed validation publishes its messages; [setFieldError]
    appends one. *)
Definition formbuilderReducer (s : State.t) (a : Action) : State.t :=
  match a with
  | START_INITIAL_LOAD _ data force =>
      State.mk Phase.LOADING (State.metadata s) (State.snapshot s) data
        (State.dirtyFields s) (State.validationMessages s)
        (State.canUpdate s) (State.canCreate s) (State.canRead s) force
  | INITIAL_LOAD_COMPLETE p =>
      State.mk Phase.READY (LoadComplete.metadata p) (LoadComplete.snapshot p)
        (LoadComplete.data p) [] (State.validationMessages s)
        (LoadComplete.canUpdate p) (LoadComplete.canCreate p)
        (LoadComplete.canRead p) (State.forceIsLoading s)
  | SET_DATA_TO_EDIT p =>
      State.mk Phase.READY (State.metadata s) (DataToEdit.snapshot p)
        (DataToEdit.data p) [] []
        (match DataToEdit.canUpdate p with
         | Some b => Bool b
         | None => State.canUpdate s
         end)
        (State.canCreate s) (State.canRead s) (DataToEdit.forceIsLoading p)
  | SET_FIELD_VALUE field value =>
      State.mk (State.phase s) (State.metadata s) (State.snapshot s)
        (Some (<[field := value]> (default ∅ (State.data s))))
        (if bool_decide (field ∈ State.dirtyFields s)
         then State.dirtyFields s
         else State.dirtyFields s ++ [field])
        (State.validationMessages s)
        (State.canUpdate s) (State.canCreate s) (State.canRead s)
        (State.forceIsLoading s)
  | SET_IS_LOADING => State.setPhase Phase.SUBMITTING s
  | SUBMIT_CANCELLED => State.setPhase Phase.SUBMIT_CANCELLED s
  | SUBMIT_COMPLETE => State.setPhase Phase.READY s
  | SET_VALIDATION_MESSAGES m => State.setValidationMessages m s
  | SET_VALIDATION_MESSAGE m =>
      State.setValidationMessages (State.validationMessages s ++ [m]) s
  end.

(** The state the next render sees: the reducer run over the actions of a
    trace. *)
Definition reduce (s : State.t) (t : list Event) : State.t :=
  foldl formbuilderReducer s (dispatched t).

(** The queue the next render sees: [pop] takes the last entry of the
    array, the updates of [setSnapshotQueue] apply in the order posted. *)
Definition queueStep (q : list Snapshot) (e : Event) : list Snapshot :=
  match e with
  | QueuePop => removelast q
  | QueueAppend s => q ++ [s]
  | QueueReset => []
  | _ => q
  end.

Definition queueAfter (q : list Snapshot) (t : list Event) : list Snapshot :=
  foldl queueStep q t.

(** ** Collaborators *)

Module AuthRequest.
Record t : Type := mk {
  metadata : string -> option MetadataResponse;
  read : ReadRequest.t -> option ReadResponse.t;
  execute : ExecuteRequest.t -> option ExecuteResponse.t
}.
End AuthRequest.

Module TablePermissions.
Record t : Type := mk {
  create : string
}.
End TablePermissions.

(** ** The hook *)

Definition dquote : string := String (Ascii.ascii_of_nat 34) EmptyString.

(** [v === s] for a string literal [s]. *)
Definition isStr (s : string) (v : any) : bool :=
  match v with Str s' => String.eqb s' s | _ => false end.

(** [v === false] *)
Definition isFalse (v : any) : bool :=
  match v with Bool false => true | _ => false end.

(** The listeners paired with their position in the list. *)
Definition indexed {A} (l : list A) : list (nat * A) := zip (seq 0 (length l)) l.

Section Hook.

(** The constants of one render. *)
Variable props : Props.t.
Variable state : State.t.
Variable snapshotQueue : list Snapshot.

(** The registries, as they stand when a function is called. *)
Variable childDataTables : list DataTableRef.t.
Variable eventListeners : list FBEvent.t.
Variable requiredFields : list string.

(** The collaborators and the runtime: requests, permissions, the
    identifier check, the clock and the formatting of dates, the two
    endpoint constants of [apiurls]. *)
Variable authRequest : AuthRequest.t.
Variable getTablePermissions : string -> TablePermissions.t.
Variable guid_validate : any -> bool.
Variable now : Z.
Variable toISOString : Z -> string.
Variable API_DATA_CREATE API_DATA_UPDATE : string.

(** [fields.filter(p).map((field) => ({field: field.name, value: v(field)}))] *)
Definition fieldDefaults (p : Field.t -> bool) (v : Field.t -> any)
    (metadata : MetadataResponse) : list FieldValue.t :=
  map (fun field => FieldValue.mk (Field.name field) (v field))
      (List.filter p (Metadata.fields metadata)).

Definition uiInfoDefault : any :=
  Obj (<["canUpdate" := Bool true]> (<["canDelete" := Bool true]> ∅)).

(** The labels of the default lookups are fetched before the buffer is
    returned. *)
Definition lookupLabels (metadata : MetadataResponse) : M unit :=
  forEach (Metadata.fields metadata) (fun field =>
    if isLookup field then
      match Props.defaults props with
      | Some defaults =>
          forEach defaults (fun lookupDefault =>
            if String.eqb (FieldValue.field lookupDefault) (Field.name field)
            then emit (GetLookupLabel (Field.name field) (Field.lookupTable field)
                         (Field.lookupTableNameField field)
                         (FieldValue.value lookupDefault))
            else ret tt)
      | None => ret tt
      end
    else ret tt).

(** The object literal [getClearedValues] returns. *)
Definition clearedObject (metadata : MetadataResponse) : obj :=
  let numericDefaults :=
    fieldDefaults isNumeric
      (fun field => if Field.isNullable field then Str "" else Num 0) metadata in
  let stringDefaults := fieldDefaults isString (fun _ => Str "") metadata in
  let booleanDefaults := fieldDefaults isBoolean (fun _ => Bool false) metadata in
  let defaultDate := setUTCHours0 now in
  let dateDefaults :=
    fieldDefaults isDateTime
      (fun field => if Field.isNullable field then Null
                    else Str (toISOString defaultDate)) metadata in
  let nullableLookupDefaults :=
    fieldDefaults isLookup
      (fun field => findDefault (Props.defaults props) (Field.name field)) metadata in
  <[ui_info := uiInfoDefault]>
    (spread (spread (spread (spread (toObject numericDefaults)
                                    (toObject stringDefaults))
                            (toObject booleanDefaults))
                    (toObject dateDefaults))
            (toObject nullableLookupDefaults)).

Definition getClearedValues (metadata : MetadataResponse) : M obj :=
  do lookupLabels metadata in
  ret (clearedObject metadata).

(** The test of the reduce over [Object.keys(snapshot)]. *)
Definition keepKey (metadata : MetadataResponse) (kv : string * any) : bool :=
  negb (is_null kv.2)
  && (bool_decide (is_Some (List.find (fun x => String.eqb (Field.name x) kv.1)
                                      (Metadata.fields metadata)))
      || includes [ui_info] kv.1
      || String.eqb kv.1 (Props.tableName props +:+ "Id")).

Definition getInitialData (metadata : option MetadataResponse)
    (snapshot : Snapshot) : M (option obj) :=
  match metadata with
  | None => ret None
  | Some metadata =>
      match snapshot with
      | SUndefined =>
          let* cleared := getClearedValues metadata in
          ret (Some (spread cleared
                       (match Props.defaults props with
                        | Some defaults => toObject defaults
                        | None => ∅
                        end)))
      | SRecord snapshot =>
          let dataToUpdate : obj :=
            filter (fun kv => keepKey metadata kv = true) snapshot in
          let* cleared := getClearedValues metadata in
          ret (Some (spread cleared dataToUpdate))
      | SNull => ret None
      end
  end.

Definition setSnapshot (snapshot : Snapshot) (forceShowLoading : option bool) : M unit :=
  match State.metadata state with
  | Some _ =>
      let* data := getInitialData (State.metadata state) snapshot in
      dispatch (SET_DATA_TO_EDIT
                  (DataToEdit.mk data snapshot (Props.canUpdate props)
                     (default false forceShowLoading)))
  | None => emit (QueueAppend snapshot)
  end.

Definition reloadDataTables : M unit :=
  forEach childDataTables (fun dataTable =>
    emit (Refresh (DataTableRef.dataTableId dataTable))).

(** [setSnapshot(snapshotQueue.pop()); setSnapshotQueue([])].  The call
    of [setSnapshot] is not awaited.  Its branch that queues has no [await]
    and runs before the reset, as listed.  Its other branch dispatches after
    the awaited synthesis, that is after the reset; the trace lists the
    dispatch first, which is the same to the state and to the queue since
    the two events act on one each. *)
Definition drainQueue : M unit :=
  do emit QueuePop in
  do setSnapshot (List.last snapshotQueue SUndefined) None in
  emit QueueReset.

Definition missingRecordMessage : string :=
  "This record doesn't exist or you are missing the required permissions to access "
    +:+ Props.tableName props.

(** The record fetch of a load: [None] when the load returns at the
    failed fetch, otherwise the snapshot, [missingRecord] and
    [canUpdate]. *)
Definition fetchRecord (options : OnLoadOptions.t) : M (option (Snapshot * bool * any)) :=
  if (negb (present (Props.snapshot props)) && bool_decide (is_Some (OnLoadOptions.id options)))
     || OnLoadOptions.refresh options
  then
    let* id :=
      if OnLoadOptions.refresh options
      then snapshotMember (State.snapshot state) (Props.tableName props +:+ "Id")
      else ret (match OnLoadOptions.id options with
                | Some id => Str id
                | None => Undefined
                end) in
    let request := ReadRequest.mk (Props.tableName props) ["*"] 1 1 id in
    do emit (Read request) in
    match AuthRequest.read authRequest request with
    | None => ret None
    | Some dataResp =>
        if negb (ReadResponse.succeeded dataResp) then ret None
        else
          match ReadResponse.results dataResp with
          | None | Some [] => ret (Some (Props.snapshot props, true, Bool false))
          | Some (row :: _) =>
              let* canUpdate := member (get row ui_info) "canUpdate" in
              ret (Some (SRecord row, false, canUpdate))
          end
    end
  else ret (Some (Props.snapshot props, false, Bool false)).

(** The first step of a load that is not a refresh. *)
Definition startInitialLoad (options : OnLoadOptions.t) : M unit :=
  if negb (OnLoadOptions.refresh options)
  then
    let* data :=
      match State.metadata state with
      | Some _ => getInitialData (State.metadata state) SUndefined
      | None => ret None
      end in
    dispatch (START_INITIAL_LOAD (Props.tableName props) data
                (match OnLoadOptions.forceShowLoading options with
                 | Some b => b
                 | None => default false (Props.forceShowLoading props)
                 end))
  else ret tt.

(** The schema of the caller, or else the one fetched by table name. *)
Definition resolveMetadata : M (option MetadataResponse) :=
  match Props.metadata props with
  | Some metadata => ret (Some metadata)
  | None =>
      do emit (FetchMetadata (Props.tableName props)) in
      ret (AuthRequest.metadata authRequest (Props.tableName props))
  end.

(** The load after the record fetch. *)
Definition completeLoad (options : OnLoadOptions.t) (metadata : option MetadataResponse)
    (snapshot : Snapshot) (missingRecord : bool) (canUpdate : any) : M unit :=
  let* canUpdate :=
    match Props.snapshot props with
    | SRecord o => member (get o ui_info) "canUpdate"
    | _ => ret canUpdate
    end in
  let* initialData := getInitialData metadata snapshot in
  do emit (GetTablePermissions (Props.tableName props)) in
  let tablePermissions := getTablePermissions (Props.tableName props) in
  let canCreate := negb (String.eqb (TablePermissions.create tablePermissions) "NONE") in
  let canUpdate :=
    match Props.canUpdate props with
    | Some false => Bool false
    | _ => canUpdate
    end in
  let canCreate :=
    match Props.canCreate props with
    | Some false => false
    | _ => canCreate
    end in
  do (if OnLoadOptions.refreshDatatables options then reloadDataTables else ret tt) in
  do dispatch (INITIAL_LOAD_COMPLETE
                 (LoadComplete.mk metadata snapshot initialData canUpdate canCreate
                    (CanRead.mk (negb missingRecord)
                       (if missingRecord then missingRecordMessage else "")))) in
  if bool_decide (0 < length snapshotQueue)%nat then drainQueue else ret tt.

Definition onLoad (options : OnLoadOptions.t) : M unit :=
  if String.eqb (Props.tableName props) "" then ret tt
  else
    do startInitialLoad options in
    let* metadata := resolveMetadata in
    let* fetched := fetchRecord options in
    match fetched with
    | None => ret tt
    | Some (snapshot, missingRecord, canUpdate) =>
        completeLoad options metadata snapshot missingRecord canUpdate
    end.

(** The effect on [state.type] and [snapshotQueue], run after a render:
    the same drain.  [loadComplete] stands for the test
    [state.type === "INITIAL_LOAD_COMPLETE"]. *)
Definition snapshotQueueEffect (loadComplete : bool) : M unit :=
  if bool_decide (0 < length snapshotQueue)%nat && loadComplete
  then drainQueue
  else ret tt.

Definition loadRecord (id : string) (setForceShowLoading : option bool) : M unit :=
  onLoad (OnLoadOptions.mk (Some id) false true setForceShowLoading).

(** The operation kind the hook reports. *)
Definition operation : string :=
  if present (Props.snapshot props) || present (State.snapshot state)
  then "UPDATE" else "CREATE".

(** *** Field edits and registries *)

Definition setField (field : string) (value : any) : M unit :=
  dispatch (SET_FIELD_VALUE field value).

Definition isDirty (field : option string) : bool :=
  match field with
  | None => bool_decide (0 < length (State.dirtyFields state))%nat
  | Some field => includes (State.dirtyFields state) field
  end.

Definition setFieldError (field message : string) : M unit :=
  dispatch (SET_VALIDATION_MESSAGE (ValidationMessage.mk field message)).

(** [on] pushes at the end of the list. *)
Definition on (eventName : string) (callback : list any -> any) : list FBEvent.t :=
  eventListeners ++ [FBEvent.mk eventName callback].

Definition addDataTable (dataTable : DataTableRef.t) : list DataTableRef.t :=
  List.filter (fun x => negb (String.eqb (DataTableRef.dataTableId x)
                                      (DataTableRef.dataTableId dataTable)))
              childDataTables
  ++ [dataTable].

Definition addRequiredField (fieldName : string) : list string :=
  if includes requiredFields fieldName then requiredFields
  else requiredFields ++ [fieldName].

Definition removeRequiredField (fieldName : string) : list string :=
  List.filter (fun x => negb (String.eqb x fieldName)) requiredFields.

(** *** Validation *)

Definition required (field : Field.t) : bool :=
  Field.isRequired field || includes requiredFields (Field.name field).

Definition isRequiredMessage (field : Field.t) : ValidationMessage.t :=
  ValidationMessage.mk (Field.name field)
    (Field.displayName field ++ " is required")%string.

(** The messages one pass of the loop of [onValidate] pushes. *)
Definition fieldMessages (field : Field.t) (fieldValue : any) : list ValidationMessage.t :=
  if includes ["CreatedById"; "UpdatedById"] (Field.name field) then []
  else
    (if includes numericTypes (Field.type field)
        && (isStr "-" fieldValue || isStr "." fieldValue)
     then [ValidationMessage.mk (Field.name field)
             (dquote ++ match fieldValue with Str s => s | _ => "" end
                ++ dquote ++ " is not a valid number")%string]
     else [])
    ++ (if (isLookup field || isDateTime field)
           && (negb (Field.isNullable field) || required field)
           && is_nullish fieldValue
        then [isRequiredMessage field]
        else [])
    ++ (if required field && (is_nullish fieldValue || isStr "" fieldValue)
        then [isRequiredMessage field]
        else [])
    ++ (if String.eqb (Field.type field) "Guid" && negb (isStr "" fieldValue)
           && negb (guid_validate fieldValue)
        then [ValidationMessage.mk (Field.name field)
                (Field.displayName field ++ " is not a valid Id")%string]
        else []).

(** The loop of [onValidate]: every pass first reads
    [state.data[field.name]]. *)
Fixpoint validateFields (fields : list Field.t) (messages : list ValidationMessage.t)
    : M (list ValidationMessage.t) :=
  match fields with
  | [] => ret messages
  | field :: fields' =>
      match State.data state with
      | None => throw "TypeError"
      | Some data =>
          validateFields fields'
            (messages ++ fieldMessages field (get data (Field.name field)))
      end
  end.

Definition onValidate : M bool :=
  let* messages :=
    validateFields (match State.metadata state with
                    | Some metadata => Metadata.fields metadata
                    | None => []
                    end) [] in
  if bool_decide (0 < length messages)%nat
  then do dispatch (SET_VALIDATION_MESSAGES messages) in ret false
  else ret true.

(** *** Save *)

(** One of the three pre-save hooks: [None] when it answers
    [continue: false], otherwise the parameter bag with the parameters of
    the hook spread over it.  A hook that is not given leaves the bag. *)
Definition runHook (who : Callee) (hook : option PreSaveEvent)
    (submissionData parameters : obj) : M (option obj) :=
  match hook with
  | None => ret (Some parameters)
  | Some hook =>
      do emit (Call who [Obj submissionData]) in
      let preResult := hook submissionData in
      if negb (SaveEventResponse.continue preResult) then ret None
      else ret (Some (spread parameters
                        (default ∅ (SaveEventResponse.parameters preResult))))
  end.

(** The loop over the [PRE_SAVE] listeners, [i] the position of the head
    of [events] in [eventListeners]: [false] when a listener returned
    [false], after the dispatch of [SUBMIT_CANCELLED]. *)
Fixpoint preSaveListeners (i : nat) (events : list FBEvent.t)
    (submissionData parameters : obj) : M bool :=
  match events with
  | [] => ret true
  | event :: events' =>
      if String.eqb (FBEvent.eventName event) "PRE_SAVE"
      then
        do emit (Call (Listener i) [Obj submissionData; Obj parameters]) in
        if isFalse (FBEvent.callback event [Obj submissionData; Obj parameters])
        then do dispatch SUBMIT_CANCELLED in ret false
        else preSaveListeners (S i) events' submissionData parameters
      else preSaveListeners (S i) events' submissionData parameters
  end.

(** The three channels of the post-save notification; the arguments
    are evaluated at each call. *)
Definition notify (postSaveEvent : bool) (args : M (list any)) : M unit :=
  do (if Props.onPostSave props
      then let* a := args in emit (Call OnPostSave a)
      else ret tt) in
  do forEach (indexed eventListeners) (fun ie =>
       if String.eqb (FBEvent.eventName ie.2) "POST_SAVE"
       then let* a := args in emit (Call (Listener ie.1) a)
       else ret tt) in
  if postSaveEvent
  then let* a := args in emit (Call PostSaveHook a)
  else ret tt.

(** The request of [save] and [saveSilent]. *)
Definition persistRequest (fields parameters : option obj) : ExecuteRequest.t :=
  ExecuteRequest.mk
    (if isUndefined (State.snapshot state) then API_DATA_CREATE else API_DATA_UPDATE)
    (if isUndefined (State.snapshot state) then "POST" else "PATCH")
    (Metadata.tableName <$> State.metadata state)
    fields parameters.

Definition savedOperation : string :=
  if isUndefined (State.snapshot state) then "CREATE" else "UPDATE".

Definition onSave (preValidate preSaveEvent : option PreSaveEvent)
    (postSaveEvent : bool) : M unit :=
  let submissionData : obj := default ∅ (State.data state) in
  let* parameters := runHook PreValidateHook preValidate submissionData ∅ in
  match parameters with
  | None => ret tt
  | Some parameters =>
      let* valid := onValidate in
      if negb valid then ret tt
      else
        do dispatch SET_IS_LOADING in
        let* parameters :=
          runHook OnPreSave (Props.onPreSave props) submissionData parameters in
        match parameters with
        | None => dispatch SUBMIT_CANCELLED
        | Some parameters =>
            let* go :=
              preSaveListeners 0 eventListeners submissionData parameters in
            if negb go then ret tt
            else
              let* parameters :=
                runHook PreSaveHook preSaveEvent submissionData parameters in
              match parameters with
              | None => dispatch SUBMIT_CANCELLED
              | Some parameters =>
                  let request :=
                    persistRequest (Some submissionData) (Some parameters) in
                  do emit (Execute request) in
                  let resp := AuthRequest.execute authRequest request in
                  do (match resp with
                      | Some (ExecuteResponse.mk true data) =>
                          notify postSaveEvent
                            (let* id := member data (Props.tableName props +:+ "Id") in
                             ret [Str savedOperation; id; data])
                      | _ =>
                          notify postSaveEvent (ret [Str "FAILED"; Str ""; Obj ∅])
                      end) in
                  do dispatch SUBMIT_COMPLETE in
                  reloadDataTables
              end
        end
  end.


End Hook.

(** * What the specification speaks of *)

(** No caller defaults: [props.defaults] is undefined or empty. *)
Definition noDefaults (props : Props.t) : Prop :=
  Props.defaults props = None \/ Props.defaults props = Some [].

Definition knownTypes : list string :=
  numericTypes ++ ["String"; "Guid"; "Boolean"; "DateTime"; "Lookup"].

(** A schema as the data model has it: a set of field descriptors (no
    name twice), none named by the reserved key, each of a type the
    synthesis knows. *)
Definition wellFormed (md : MetadataResponse) : Prop :=
  NoDup (map Field.name (Metadata.fields md))
  /\ (ui_info ∉ map Field.name (Metadata.fields md))
  /\ Forall (fun f => Field.type f ∈ knownTypes) (Metadata.fields md).

(** The condition under which a key of the snapshot is carried over. *)
Definition overlaid (props : Props.t) (md : MetadataResponse) (k : string) (v : any) : Prop :=
  v ≠ Null
  /\ (k ∈ map Field.name (Metadata.fields md)
      \/ k = ui_info
      \/ k = (Props.tableName props +:+ "Id")).

(** The requests sent to the data service in a trace, in order. *)
Definition executed (t : list Event) : list ExecuteRequest.t :=
  omap (fun e => match e with Execute r => Some r | _ => None end) t.

(** The parameters a pre-save hook hands back; none for a hook that is
    not given. *)
Definition hookParameters (hook : option PreSaveEvent) (submissionData : obj) : obj :=
  match hook with
  | Some hook => default ∅ (SaveEventResponse.parameters (hook submissionData))
  | None => ∅
  end.

(** The parameter bag accumulated over the three hooks of a save. *)
Definition parameterBag (props : Props.t) (preValidate preSaveEvent : option PreSaveEvent)
    (submissionData : obj) : obj :=
  spread (spread (spread ∅ (hookParameters preValidate submissionData))
                 (hookParameters (Props.onPreSave props) submissionData))
         (hookParameters preSaveEvent submissionData).

(** The calls of the [PRE_SAVE] listeners among [events], the first of
    them at position [i] of the list of listeners. *)
Fixpoint preSaveCalls (i : nat) (events : list FBEvent.t)
    (submissionData parameters : obj) : list Event :=
  match events with
  | [] => []
  | event :: events' =>
      (if String.eqb (FBEvent.eventName event) "PRE_SAVE"
       then [Call (Listener i) [Obj submissionData; Obj parameters]]
       else [])
      ++ preSaveCalls (S i) events' submissionData parameters
  end.

(** The identifier a load reads the record by: the one of the snapshot
    of the state on a refresh, the one asked for otherwise. *)
Definition readId (props : Props.t) (state : State.t) (options : OnLoadOptions.t) : any :=
  if OnLoadOptions.refresh options
  then match State.snapshot state with
       | SRecord o => get o (Props.tableName props +:+ "Id")
       | _ => Undefined
       end
  else match OnLoadOptions.id options with
       | Some id => Str id
       | None => Undefined
       end.

Definition readRequest (props : Props.t) (state : State.t) (options : OnLoadOptions.t)
    : ReadRequest.t :=
  ReadRequest.mk (Props.tableName props) ["*"] 1 1 (readId props state options).

(** The load fetches the record: no snapshot from the caller and an
    identifier to load, or a refresh (of the record of the state). *)
Definition fetches (props : Props.t) (state : State.t) (options : OnLoadOptions.t) : Prop :=
  (OnLoadOptions.refresh options = false
   /\ present (Props.snapshot props) = false
   /\ is_Some (OnLoadOptions.id options))
  \/ (OnLoadOptions.refresh options = true
      /\ present (State.snapshot state) = true).

(** The record fetch fails at transport level: no response, or one that
    did not succeed. *)
Definition fetchFails (props : Props.t) (state : State.t) (authRequest : AuthRequest.t)
    (options : OnLoadOptions.t) : Prop :=
  match AuthRequest.read authRequest (readRequest props state options) with
  | None => True
  | Some dataResp => ReadResponse.succeeded dataResp = false
  end.

(** The record fetch succeeds with zero rows. *)
Definition fetchFindsNothing (props : Props.t) (state : State.t)
    (authRequest : AuthRequest.t) (options : OnLoadOptions.t) : Prop :=
  exists dataResp,
    AuthRequest.read authRequest (readRequest props state options) = Some dataResp
    /\ ReadResponse.succeeded dataResp = true
    /\ (ReadResponse.results dataResp = None \/ ReadResponse.results dataResp = Some []).

(** The actions that assign a snapshot. *)
Definition assigns (a : Action) : bool :=
  match a with SET_DATA_TO_EDIT _ => true | _ => false end.

(** * Inputs to run the hook on *)

Definition exampleField (name type : string) (isNullable isRequired : bool) : Field.t :=
  Field.mk name type isNullable isRequired name "" "".

Definition widgetMetadata : MetadataResponse :=
  Metadata.mk "Widget"
    [exampleField "Name" "String" false true;
     exampleField "Price" "Decimal" false false;
     exampleField "Stock" "Int32" true false;
     exampleField "IsActive" "Boolean" false false;
     exampleField "Released" "DateTime" false false;
     exampleField "Retired" "DateTime" true false;
     exampleField "OwnerId" "Lookup" true false].

Definition exampleProps (tableName : string) (snapshot : Snapshot) : Props.t :=
  Props.mk tableName None None None snapshot None None None false None.

Definition exampleToISOString (ms : Z) : string :=
  if (ms =? 1700006400000)%Z then "2023-11-15T00:00:00.000Z" else "".

Definition exampleNow : Z := 1700040000000.

(** The defaults of the Widget schema on 2023-11-15. *)
Definition widgetDefaults : obj :=
  clearedObject (exampleProps "Widget" SUndefined) exampleNow exampleToISOString
    widgetMetadata.

(** A Widget row as the data service returns it. *)
Definition widgetRow : obj :=
  <["WidgetId" := Str "w1"]>
    (<["Name" := Str "A"]>
       (<["Stock" := Null]>
          (<["Legacy" := Str "x"]>
             (<[ui_info := Obj (<["canUpdate" := Bool true]> ∅)]> ∅)))).

(** The state before the first load. *)
Definition initialState : State.t :=
  State.mk Phase.UNINITIALIZED None SUndefined None [] [] (Bool false) false
    (CanRead.mk true "") false.

(** A loaded Widget form. *)
Definition readyState (snapshot : Snapshot) (data : obj)
    (validationMessages : list ValidationMessage.t) : State.t :=
  State.mk Phase.READY (Some widgetMetadata) snapshot (Some data) []
    validationMessages (Bool true) true (CanRead.mk true "") false.

(** A data service that knows the Widget schema and answers reads and
    writes as given. *)
Definition exampleService (read : option ReadResponse.t)
    (execute : option ExecuteResponse.t) : AuthRequest.t :=
  AuthRequest.mk (fun _ => Some widgetMetadata) (fun _ => read) (fun _ => execute).

Definition examplePermissions (tableName : string) : TablePermissions.t :=
  TablePermissions.mk "TEAM".

Definition exampleGuid (v : any) : bool := true.

(** The options of the load of the mount. *)
Definition mountOptions (id : option string) : OnLoadOptions.t :=
  OnLoadOptions.mk id false false None.

(** The options of [reload()]. *)
Definition refreshOptions : OnLoadOptions.t :=
  OnLoadOptions.mk None true true None.

Definition stop : PreSaveEvent := fun _ => SaveEventResponse.mk false None.

Definition proceedWith (parameters : obj) : PreSaveEvent :=
  fun _ => SaveEventResponse.mk true (Some parameters).

(** Three [PRE_SAVE] listeners, the second of which returns false, and a
    [POST_SAVE] listener. *)
Definition exampleListeners : list FBEvent.t :=
  [FBEvent.mk "PRE_SAVE" (fun _ => Undefined);
   FBEvent.mk "POST_SAVE" (fun _ => Undefined);
   FBEvent.mk "PRE_SAVE" (fun _ => Bool false);
   FBEvent.mk "PRE_SAVE" (fun _ => Bool true)].

Definition nameRequired : ValidationMessage.t :=
  ValidationMessage.mk "Name" "Name is required".

(** A read that succeeds with zero rows. *)
Definition noRows : ReadResponse.t := ReadResponse.mk true (Some []).

(** * More of the hook *)

Section HookCallers.

Variable props : Props.t.
Variable state : State.t.
Variable snapshotQueue : list Snapshot.
Variable childDataTables : list DataTableRef.t.
Variable authRequest : AuthRequest.t.
Variable getTablePermissions : string -> TablePermissions.t.
Variable now : Z.
Variable toISOString : Z -> string.

(** [reload(reloadDataTables)]: the identifier is read off the snapshot of
    the state when the options are built, then the load runs as a refresh
    (which reads it again for the request and does not look at
    [options.id]). *)
Definition reload (reloadDataTables : bool) : M unit :=
  let* _ := snapshotMember (State.snapshot state) (Props.tableName props +:+ "Id") in
  onLoad props state snapshotQueue childDataTables authRequest getTablePermissions
    now toISOString (OnLoadOptions.mk None true reloadDataTables None).

(** The effect on [props.tableName] and [props.id]: the load of the
    mount. *)
Definition loadEffect : M unit :=
  if negb (String.eqb (Props.tableName props) "")
  then onLoad props state snapshotQueue childDataTables authRequest getTablePermissions
         now toISOString (OnLoadOptions.mk (Props.id props) false false None)
  else ret tt.

End HookCallers.

(** The refreshes of the dependent views, in the order of the registry. *)
Definition refreshes (childDataTables : list DataTableRef.t) : list Event :=
  map (fun dataTable => Refresh (DataTableRef.dataTableId dataTable)) childDataTables.

(** The calls of the [POST_SAVE] listeners among [events], the first of
    them at position [i] of the list of listeners. *)
Fixpoint postSaveListenerCalls (i : nat) (events : list FBEvent.t) (args : list any)
    : list Event :=
  match events with
  | [] => []
  | event :: events' =>
      (if String.eqb (FBEvent.eventName event) "POST_SAVE"
       then [Call (Listener i) args]
       else [])
      ++ postSaveListenerCalls (S i) events' args
  end.

(** The three channels of the post-save notification, called with
    [args]. *)
Definition postSaveCalls (props : Props.t) (eventListeners : list FBEvent.t)
    (postSaveEvent : bool) (args : list any) : list Event :=
  (if Props.onPostSave props then [Call OnPostSave args] else [])
  ++ postSaveListenerCalls 0 eventListeners args
  ++ (if postSaveEvent then [Call PostSaveHook args] else []).

(** The arguments of the post-save notification for a response of the
    data service: the operation, the identifier of the saved record and its
    data, or FAILED with an empty identifier and an empty record. *)
Definition postSaveArgs (props : Props.t) (state : State.t)
    (resp : option ExecuteResponse.t) : list any :=
  match resp with
  | Some (ExecuteResponse.mk true data) =>
      [Str (savedOperation state);
       match data with
       | Obj o => get o (Props.tableName props +:+ "Id")
       | _ => Undefined
       end;
       data]
  | _ => [Str "FAILED"; Str ""; Obj ∅]
  end.

(** The response carries data the identifier can be read off: none when
    the save succeeded with [null] or [undefined] data. *)
Definition readableResponse (resp : option ExecuteResponse.t) : bool :=
  match resp with
  | Some (ExecuteResponse.mk true data) => negb (is_nullish data)
  | _ => true
  end.

(** The system audit fields, which validation skips. *)
Definition auditFields : list string := ["CreatedById"; "UpdatedById"].

(** The registry of dependent views after a series of registrations. *)
Definition registerAll (dataTables : list DataTableRef.t) : list DataTableRef.t :=
  foldl addDataTable [] dataTables.

(** A pre-save hook lets the save go on; one that is not given does. *)
Definition hookContinues (hook : option PreSaveEvent) (submissionData : obj) : Prop :=
  match hook with
  | Some hook => SaveEventResponse.continue (hook submissionData) = true
  | None => True
  end.

(** The call of a pre-save hook, when it is given. *)
Definition hookCall (who : Callee) (hook : option PreSaveEvent) (submissionData : obj)
    : list Event :=
  match hook with
  | Some _ => [Call who [Obj submissionData]]
  | None => []
  end.

(** The parameter bag the [PRE_SAVE] listeners are handed: the parameters
    of the pre-validate hook and of the hook of the instance. *)
Definition listenerBag (props : Props.t) (preValidate : option PreSaveEvent)
    (submissionData : obj) : obj :=
  spread (spread ∅ (hookParameters preValidate submissionData))
         (hookParameters (Props.onPreSave props) submissionData).

(** No [PRE_SAVE] listener returns false. *)
Definition listenersPass (props : Props.t) (eventListeners : list FBEvent.t)
    (preValidate : option PreSaveEvent) (submissionData : obj) : Prop :=
  forall e, e ∈ eventListeners ->
    FBEvent.eventName e = "PRE_SAVE" ->
    FBEvent.callback e [Obj submissionData; Obj (listenerBag props preValidate submissionData)]
    ≠ Bool false.

(** Some channel of the post-save notification is there. *)
Definition hasPostSaveChannel (props : Props.t) (eventListeners : list FBEvent.t)
    (postSaveEvent : bool) : bool :=
  Props.onPostSave props
  || existsb (fun e => String.eqb (FBEvent.eventName e) "POST_SAVE") eventListeners
  || postSaveEvent.

(** * Properties *)

(** ** Computations *)

Lemma result_bind {A B} (m : M A) (k : A -> M B) a :
  result m = Resolved a -> result (bind m k) = result (k a).
Proof.
  destruct m as [t r]; simpl; intros ->; simpl.
  by destruct (k a).
Qed.

Lemma trace_bind {A B} (m : M A) (k : A -> M B) a :
  result m = Resolved a -> trace (bind m k) = trace m ++ trace (k a).
Proof.
  destruct m as [t r]; simpl; intros ->; simpl.
  by destruct (k a).
Qed.

Lemma bind_rejected {A B} (m : M A) (k : A -> M B) e :
  result m = Rejected e -> bind m k = (trace m, Rejected e).
Proof. destruct m as [t r]; simpl; by intros ->. Qed.

Lemma bind_ret {A B} (a : A) (k : A -> M B) : bind (ret a) k = k a.
Proof. unfold bind, ret. by destruct (k a). Qed.

Lemma forEach_resolved {A} (l : list A) (body : A -> M unit) :
  (forall x, result (body x) = Resolved tt) ->
  result (forEach l body) = Resolved tt.
Proof.
  intros Hbody; induction l as [|x l IH]; simpl; [done|].
  by rewrite (result_bind _ _ tt).
Qed.

Lemma forEach_silent {A} (l : list A) (body : A -> M unit) :
  (forall x, body x = ret tt) -> forEach l body = ret tt.
Proof.
  intros Hbody; induction l as [|x l IH]; simpl; [done|].
  by rewrite Hbody, bind_ret.
Qed.

Lemma dispatched_app (t1 t2 : list Event) :
  dispatched (t1 ++ t2) = dispatched t1 ++ dispatched t2.
Proof. apply omap_app. Qed.

(** ** Synthesis of the edit buffer *)

Lemma toObject_snoc l b :
  toObject (l ++ [b]) = <[FieldValue.field b := FieldValue.value b]> (toObject l).
Proof. unfold toObject. by rewrite foldl_snoc. Qed.

Lemma dom_toObject l :
  dom (toObject l) = list_to_set (map FieldValue.field l).
Proof.
  induction l as [|b l IH] using rev_ind; [done|].
  rewrite toObject_snoc, dom_insert_L, IH, map_app, list_to_set_app_L.
  simpl. rewrite union_empty_r_L. apply (comm_L _).
Qed.

Lemma lookup_toObject_None l k :
  k ∉ map FieldValue.field l -> toObject l !! k = None.
Proof.
  intros Hk. apply not_elem_of_dom. rewrite dom_toObject. set_solver.
Qed.

Lemma fieldDefaults_app p v tn fs1 fs2 :
  fieldDefaults p v (Metadata.mk tn (fs1 ++ fs2))
  = fieldDefaults p v (Metadata.mk tn fs1) ++ fieldDefaults p v (Metadata.mk tn fs2).
Proof. unfold fieldDefaults; simpl. by rewrite List.filter_app, map_app. Qed.

Lemma fieldDefaults_fields p v md :
  map FieldValue.field (fieldDefaults p v md)
  = map Field.name (List.filter p (Metadata.fields md)).
Proof. unfold fieldDefaults. by rewrite map_map. Qed.

Lemma fieldDefaults_names p v md k :
  k ∈ map FieldValue.field (fieldDefaults p v md) <->
  exists f, f ∈ Metadata.fields md /\ p f = true /\ Field.name f = k.
Proof.
  rewrite fieldDefaults_fields, list_elem_of_In, in_map_iff.
  split.
  - intros (f & <- & Hf). apply filter_In in Hf as [Hf Hp].
    exists f. by rewrite list_elem_of_In.
  - intros (f & Hf & Hp & <-). exists f. split; [done|].
    apply filter_In. by rewrite <- list_elem_of_In.
Qed.

(** In a schema without repeated names, a group of defaults holds the
    value of a field exactly when the field is in the group. *)
Lemma lookup_fieldDefaults p v md f :
  NoDup (map Field.name (Metadata.fields md)) ->
  f ∈ Metadata.fields md ->
  toObject (fieldDefaults p v md) !! Field.name f
  = if p f then Some (v f) else None.
Proof.
  destruct md as [tn fs]; simpl.
  induction fs as [|f0 fs IH] using rev_ind; [by intros _ ?%elem_of_nil|].
  rewrite map_app; simpl. intros [Hnd [Hnot _]]%NoDup_app Hin.
  rewrite fieldDefaults_app.
  assert (Hlast : fieldDefaults p v (Metadata.mk tn [f0])
                  = if p f0 then [FieldValue.mk (Field.name f0) (v f0)] else []).
  { unfold fieldDefaults; simpl. by destruct (p f0). }
  rewrite Hlast.
  apply elem_of_app in Hin as [Hin|Hin%list_elem_of_singleton].
  - assert (Field.name f ≠ Field.name f0) as Hne.
    { intros Heq. apply (Hnot (Field.name f)); [|rewrite Heq; left].
      apply list_elem_of_In, in_map, list_elem_of_In, Hin. }
    destruct (p f0).
    + rewrite toObject_snoc; simpl. rewrite lookup_insert_ne by done. by apply IH.
    + rewrite app_nil_r. by apply IH.
  - subst f0. destruct (p f).
    + rewrite toObject_snoc; simpl. by rewrite lookup_insert_eq.
    + rewrite app_nil_r. apply lookup_toObject_None.
      rewrite fieldDefaults_names; simpl. intros (f' & Hf' & _ & Heq).
      apply (Hnot (Field.name f)); [|left].
      rewrite <- Heq. apply list_elem_of_In, in_map, list_elem_of_In, Hf'.
Qed.

Lemma getClearedValues_resolved props now toISOString md :
  result (getClearedValues props now toISOString md)
  = Resolved (clearedObject props now toISOString md).
Proof.
  unfold getClearedValues. rewrite (result_bind _ _ tt); [done|].
  apply forEach_resolved. intros field.
  destruct (isLookup field); [|done].
  destruct (Props.defaults props); [|done].
  apply forEach_resolved. intros d. by case_match.
Qed.

Lemma getClearedValues_noDefaults props now toISOString md :
  noDefaults props ->
  getClearedValues props now toISOString md
  = ret (clearedObject props now toISOString md).
Proof.
  intros Hd. unfold getClearedValues, lookupLabels.
  rewrite forEach_silent; [by rewrite bind_ret|].
  intros field. destruct (isLookup field); [|done].
  by destruct Hd as [-> | ->].
Qed.

Ltac type_cases H :=
  unfold knownTypes, numericTypes in H; simpl in H;
  repeat (apply elem_of_cons in H as [H|H]);
  [.. | by apply elem_of_nil in H].

Ltac by_type H :=
  unfold isNumeric, isString, isBoolean, isDateTime, isLookup;
  rewrite H; simpl.

Lemma setUTCHours0_start_of_day now :
  (setUTCHours0 now mod msPerDay = 0
   /\ setUTCHours0 now <= now < setUTCHours0 now + msPerDay)%Z.
Proof.
  unfold setUTCHours0, msPerDay.
  pose proof (Z.mod_pos_bound now 86400000 eq_refl) as Hb.
  split; [|lia].
  rewrite Zminus_mod, Zmod_mod, Z.sub_diag. done.
Qed.

Lemma lookup_clearedObject props now toISOString md f :
  NoDup (map Field.name (Metadata.fields md)) ->
  f ∈ Metadata.fields md ->
  Field.name f ≠ ui_info ->
  clearedObject props now toISOString md !! Field.name f
  = if isLookup f then Some (findDefault (Props.defaults props) (Field.name f))
    else if isDateTime f
         then Some (if Field.isNullable f then Null
                    else Str (toISOString (setUTCHours0 now)))
    else if isBoolean f then Some (Bool false)
    else if isString f then Some (Str "")
    else if isNumeric f
         then Some (if Field.isNullable f then Str "" else Num 0)
    else None.
Proof.
  intros Hnd Hf Hne. unfold clearedObject, spread.
  rewrite lookup_insert_ne by done.
  rewrite !lookup_union, !lookup_fieldDefaults by done.
  destruct (isLookup f), (isDateTime f), (isBoolean f), (isString f), (isNumeric f);
    done.
Qed.

Lemma dom_clearedObject props now toISOString md :
  Forall (fun f => Field.type f ∈ knownTypes) (Metadata.fields md) ->
  dom (clearedObject props now toISOString md)
  = list_to_set (map Field.name (Metadata.fields md)) ∪ {[ui_info]}.
Proof.
  intros Hk. unfold clearedObject, spread.
  rewrite dom_insert_L, !dom_union_L, !dom_toObject.
  apply set_eq. intros k.
  rewrite !elem_of_union, !elem_of_list_to_set, !fieldDefaults_names, elem_of_singleton.
  split.
  - intros [->|H]; [by right|left].
    assert (exists f, f ∈ Metadata.fields md /\ Field.name f = k) as (f & Hf & <-)
      by (destruct H as [H|[H|[H|[H|H]]]]; destruct H as (f & ? & ? & ?); eauto).
    apply list_elem_of_In, in_map, list_elem_of_In, Hf.
  - intros [H| ->]; [right|by left].
    apply list_elem_of_In, in_map_iff in H as (f & <- & Hf%list_elem_of_In).
    pose proof (proj1 (Forall_forall _ _) Hk f Hf) as Hty. simpl in Hty.
    type_cases Hty.
    1-5: do 4 right; exists f; by by_type Hty.
    1-2: do 3 right; left; exists f; by by_type Hty.
    + do 2 right; left; exists f; by by_type Hty.
    + right; left; exists f; by by_type Hty.
    + left; exists f; by by_type Hty.
Qed.

(** C3. For every schema, the buffer synthesized on the create path
    (absent snapshot) with no caller-supplied defaults has as keys exactly
    the field names of the schema and the reserved metadata key; a numeric
    field holds 0, or the empty string when nullable; a string or Guid
    field the empty string; a boolean field false; a DateTime field the
    start of the current day, or null when nullable; a lookup field null;
    the reserved key holds canUpdate and canDelete, both true.  Nothing is
    asked of the lookup collaborator. *)
Theorem C3_create_buffer_defaults props now toISOString md :
  wellFormed md ->
  noDefaults props ->
  exists buffer : obj,
    getInitialData props now toISOString (Some md) SUndefined
    = ([], Resolved (Some buffer))
    /\ dom buffer = list_to_set (map Field.name (Metadata.fields md)) ∪ {[ui_info]}
    /\ buffer !! ui_info
       = Some (Obj (<["canUpdate" := Bool true]> (<["canDelete" := Bool true]> ∅)))
    /\ (forall f, f ∈ Metadata.fields md ->
         (Field.type f ∈ numericTypes ->
            buffer !! Field.name f
            = Some (if Field.isNullable f then Str "" else Num 0))
         /\ (Field.type f = "String" \/ Field.type f = "Guid" ->
            buffer !! Field.name f = Some (Str ""))
         /\ (Field.type f = "Boolean" ->
            buffer !! Field.name f = Some (Bool false))
         /\ (Field.type f = "DateTime" ->
            buffer !! Field.name f
            = Some (if Field.isNullable f then Null
                    else Str (toISOString (setUTCHours0 now))))
         /\ (Field.type f = "Lookup" ->
            buffer !! Field.name f = Some Null))
    /\ (setUTCHours0 now mod msPerDay = 0
        /\ setUTCHours0 now <= now < setUTCHours0 now + msPerDay)%Z.
Proof.
  intros (Hnd & Hui & Hk) Hd.
  exists (clearedObject props now toISOString md).
  split.
  { unfold getInitialData. rewrite getClearedValues_noDefaults, bind_ret by done.
    unfold spread, toObject. destruct Hd as [-> | ->]; simpl;
      by rewrite map_empty_union. }
  split; [by apply dom_clearedObject|].
  split; [unfold clearedObject; by rewrite lookup_insert_eq|].
  split; [|apply setUTCHours0_start_of_day].
  intros f Hf.
  assert (Field.name f ≠ ui_info) as Hne.
  { intros Heq. apply Hui. rewrite <- Heq.
    apply list_elem_of_In, in_map, list_elem_of_In, Hf. }
  rewrite lookup_clearedObject by done.
  assert (findDefault (Props.defaults props) (Field.name f) = Null) as ->
    by (by destruct Hd as [-> | ->]).
  repeat split.
  - intros Hty. unfold numericTypes in Hty.
    repeat (apply elem_of_cons in Hty as [Hty|Hty]);
      [.. | by apply elem_of_nil in Hty]; by by_type Hty.
  - intros [Hty|Hty]; by by_type Hty.
  - intros Hty; by by_type Hty.
  - intros Hty; by by_type Hty.
  - intros Hty; by by_type Hty.
Qed.

Lemma is_null_false v : is_null v = false <-> v ≠ Null.
Proof. by destruct v. Qed.

Lemma find_name_is_Some (fs : list Field.t) k :
  is_Some (List.find (fun x => String.eqb (Field.name x) k) fs)
  <-> k ∈ map Field.name fs.
Proof.
  rewrite list_elem_of_In, in_map_iff. split.
  - intros [f Hf]. apply find_some in Hf as [Hin Heq].
    exists f. by apply String.eqb_eq in Heq.
  - intros (f & <- & Hin).
    destruct (List.find _ fs) eqn:Hfind; [done|].
    apply (find_none _ _ Hfind) in Hin. by rewrite String.eqb_refl in Hin.
Qed.

Lemma keepKey_overlaid props md k v :
  keepKey props md (k, v) = true <-> overlaid props md k v.
Proof.
  unfold keepKey, overlaid, includes; simpl.
  rewrite andb_true_iff, !orb_true_iff, negb_true_iff, is_null_false.
  rewrite !bool_decide_eq_true, find_name_is_Some, list_elem_of_singleton.
  rewrite String.eqb_eq. tauto.
Qed.

(** C4. For every schema and every present snapshot, the buffer synthesized
    on the update path takes the value of a snapshot key exactly when that
    value is not null and the key is a field of the schema, the reserved
    metadata key or the identifier field (table name followed by Id).  Every
    other key, among them the null-valued and the unknown ones of the
    snapshot, reads its computed default: a numeric field 0, or the empty
    string when nullable; a string or Guid field the empty string; a
    boolean field false; a DateTime field the start of the current day, or
    null when nullable; a lookup field the default of the caller for it
    (null when there is none); the reserved key canUpdate and canDelete,
    both true; a key that is neither is not in the buffer. *)
Theorem C4_update_buffer_overlay props now toISOString md (snapshot : obj) :
  wellFormed md ->
  exists buffer : obj,
    result (getInitialData props now toISOString (Some md) (SRecord snapshot))
    = Resolved (Some buffer)
    /\ (forall k v, snapshot !! k = Some v -> overlaid props md k v ->
                    buffer !! k = Some v)
    /\ (forall k,
          (forall v, snapshot !! k = Some v -> ~ overlaid props md k v) ->
          (k = ui_info ->
           buffer !! k
           = Some (Obj (<["canUpdate" := Bool true]> (<["canDelete" := Bool true]> ∅))))
          /\ (forall f, f ∈ Metadata.fields md -> Field.name f = k ->
                (Field.type f ∈ numericTypes ->
                   buffer !! k = Some (if Field.isNullable f then Str "" else Num 0))
                /\ (Field.type f = "String" \/ Field.type f = "Guid" ->
                   buffer !! k = Some (Str ""))
                /\ (Field.type f = "Boolean" -> buffer !! k = Some (Bool false))
                /\ (Field.type f = "DateTime" ->
                   buffer !! k
                   = Some (if Field.isNullable f then Null
                           else Str (toISOString (setUTCHours0 now))))
                /\ (Field.type f = "Lookup" ->
                   buffer !! k = Some (findDefault (Props.defaults props) k)))
          /\ (k ≠ ui_info -> k ∉ map Field.name (Metadata.fields md) ->
              buffer !! k = None)).
Proof.
  intros (Hnd & Hui & Hk).
  eexists. split.
  { unfold getInitialData.
    rewrite (result_bind _ _ _ (getClearedValues_resolved _ _ _ _)). done. }
  unfold spread. split.
  { intros k v Hkv Hov. apply lookup_union_Some_l, map_lookup_filter_Some.
    split; [done|]. by apply keepKey_overlaid. }
  intros k Hno.
  assert (forall cleared : obj,
            (filter (fun kv => keepKey props md kv = true) snapshot ∪ cleared) !! k
            = cleared !! k) as Hframe.
  { intros cleared. apply lookup_union_r, map_lookup_filter_None.
    destruct (snapshot !! k) as [v|] eqn:Hkv; [right|by left].
    intros v' [= <-] Hkeep%keepKey_overlaid. by apply (Hno v). }
  rewrite Hframe. split; [|split].
  - intros ->. unfold clearedObject. by rewrite lookup_insert_eq.
  - intros f Hf <-.
    assert (Field.name f ≠ ui_info) as Hne.
    { intros Heq. apply Hui. rewrite <- Heq.
      apply list_elem_of_In, in_map, list_elem_of_In, Hf. }
    rewrite lookup_clearedObject by done.
    repeat split.
    + intros Hty. unfold numericTypes in Hty.
      repeat (apply elem_of_cons in Hty as [Hty|Hty]);
        [.. | by apply elem_of_nil in Hty]; by by_type Hty.
    + intros [Hty|Hty]; by by_type Hty.
    + intros Hty; by by_type Hty.
    + intros Hty; by by_type Hty.
    + intros Hty; by by_type Hty.
  - intros Hne Hnot. apply not_elem_of_dom.
    rewrite dom_clearedObject by done.
    rewrite elem_of_union, elem_of_list_to_set, elem_of_singleton. tauto.
Qed.

Lemma widgetMetadata_wellFormed : wellFormed widgetMetadata.
Proof.
  unfold wellFormed. repeat split.
  - compute_done.
  - compute_done.
  - compute_done.
Qed.

Lemma C3_create_buffer_defaults_witness :
  exists buffer : obj,
    getInitialData (exampleProps "Widget" SUndefined) 1700040000000 exampleToISOString
      (Some widgetMetadata) SUndefined
    = ([], Resolved (Some buffer))
    /\ dom buffer
       = list_to_set ["Name"; "Price"; "Stock"; "IsActive"; "Released"; "Retired";
                      "OwnerId"] ∪ {[ui_info]}
    /\ buffer !! "Released" = Some (Str "2023-11-15T00:00:00.000Z")
    /\ buffer !! "Stock" = Some (Str "").
Proof.
  destruct (C3_create_buffer_defaults (exampleProps "Widget" SUndefined)
              1700040000000 exampleToISOString widgetMetadata
              widgetMetadata_wellFormed (or_introl eq_refl))
    as (buffer & Hrun & Hdom & _ & Hfields & _).
  assert (forall f, In f (Metadata.fields widgetMetadata) ->
                    f ∈ Metadata.fields widgetMetadata) as Hin
    by (intros f; apply list_elem_of_In).
  exists buffer. split; [exact Hrun|]. split; [exact Hdom|]. split.
  - destruct (Hfields (exampleField "Released" "DateTime" false false))
      as (_ & _ & _ & Hdate & _); [apply Hin; simpl; auto 10|].
    exact (Hdate eq_refl).
  - destruct (Hfields (exampleField "Stock" "Int32" true false))
      as (Hnum & _); [apply Hin; simpl; auto 10|].
    apply Hnum, list_elem_of_In; simpl; auto.
Defined.

(** The update path on a Widget row whose [Stock] is null and that has a
    key [Legacy] the schema does not know. *)
Lemma C4_update_buffer_overlay_witness :
  exists buffer : obj,
    result (getInitialData (exampleProps "Widget" SUndefined) exampleNow
              exampleToISOString (Some widgetMetadata) (SRecord widgetRow))
    = Resolved (Some buffer)
    /\ buffer !! "Name" = Some (Str "A")
    /\ buffer !! "Stock" = Some (Str "")
    /\ buffer !! "Legacy" = None.
Proof.
  destruct (C4_update_buffer_overlay (exampleProps "Widget" SUndefined) exampleNow
              exampleToISOString widgetMetadata widgetRow widgetMetadata_wellFormed)
    as (buffer & Hrun & Hkept & Hdropped).
  exists buffer. split; [exact Hrun|]. split; [|split].
  - apply Hkept; [vm_compute; reflexivity|]. split; [discriminate|].
    left. apply list_elem_of_In. simpl. auto 10.
  - destruct (Hdropped "Stock") as (_ & Hfield & _).
    + intros v Hv [Hnull _]. apply Hnull. vm_compute in Hv. congruence.
    + destruct (Hfield (exampleField "Stock" "Int32" true false)) as (Hnum & _);
        [apply list_elem_of_In; simpl; auto 10|reflexivity|].
      apply Hnum, list_elem_of_In; simpl; auto.
  - destruct (Hdropped "Legacy") as (_ & _ & Hunknown).
    + intros v _ [_ [Hin|[Heq|Heq]]]; [|discriminate Heq..].
      apply list_elem_of_In in Hin. simpl in Hin.
      repeat (destruct Hin as [Hin|Hin]; [discriminate Hin|]). exact Hin.
    + apply Hunknown; [discriminate|].
      intros Hin%list_elem_of_In. simpl in Hin.
      repeat (destruct Hin as [Hin|Hin]; [discriminate Hin|]). exact Hin.
Defined.

(** ** Validation and save *)

Lemma bind_resolved {A B} (m : M A) (k : A -> M B) a :
  result m = Resolved a ->
  bind m k = (trace m ++ trace (k a), result (k a)).
Proof.
  destruct m as [t r]; simpl; intros ->; simpl.
  by destruct (k a).
Qed.

Lemma bind_pair {A B} (t : list Event) (a : A) (k : A -> M B) :
  bind (t, Resolved a) k = (t ++ trace (k a), result (k a)).
Proof. by apply bind_resolved. Qed.

(** Running a computation whose first steps are known. *)
Ltac run :=
  repeat first
    [ rewrite bind_pair
    | rewrite bind_ret
    | progress change (trace (?t, _)) with t
    | progress change (result (_, ?r)) with r ].

Lemma trace_bind_cases {A B} (m : M A) (k : A -> M B) :
  trace (bind m k)
  = trace m ++ match result m with
               | Resolved a => trace (k a)
               | Rejected _ => []
               end.
Proof.
  destruct m as [t [a|e]]; simpl; [by destruct (k a)|by rewrite app_nil_r].
Qed.

#[local] Arguments bind {A B} m k : simpl never.

Lemma executed_app (t1 t2 : list Event) :
  executed (t1 ++ t2) = executed t1 ++ executed t2.
Proof. apply omap_app. Qed.


Lemma runHook_eq who hook sd p :
  runHook who hook sd p
  = (match hook with Some _ => [Call who [Obj sd]] | None => [] end,
     Resolved (match hook with
               | Some h =>
                   if SaveEventResponse.continue (h sd)
                   then Some (spread p (hookParameters hook sd))
                   else None
               | None => Some p
               end)).
Proof.
  destruct hook as [h|]; simpl; [|done].
  by destruct (SaveEventResponse.continue (h sd)).
Qed.


Lemma executed_runHook who hook sd p : executed (trace (runHook who hook sd p)) = [].
Proof. rewrite runHook_eq. by destruct hook. Qed.

Lemma dispatched_runHook who hook sd p : dispatched (trace (runHook who hook sd p)) = [].
Proof. rewrite runHook_eq. by destruct hook. Qed.

Lemma trace_validateFields state requiredFields guid_validate fields messages :
  trace (validateFields state requiredFields guid_validate fields messages) = [].
Proof.
  revert messages. induction fields as [|f fields IH]; intros messages; simpl; [done|].
  destruct (State.data state); [apply IH|done].
Qed.

(** A pass of validation leaves one of three traces. *)
Lemma onValidate_cases state requiredFields guid_validate :
  let validation :=
    validateFields state requiredFields guid_validate
      (match State.metadata state with
       | Some metadata => Metadata.fields metadata
       | None => []
       end) [] in
  (exists messages,
      messages ≠ [] /\ validation = ret messages
      /\ onValidate state requiredFields guid_validate
         = ([Dispatch (SET_VALIDATION_MESSAGES messages)], Resolved false))
  \/ (validation = ret []
      /\ onValidate state requiredFields guid_validate = ([], Resolved true))
  \/ (exists e, onValidate state requiredFields guid_validate = ([], Rejected e)).
Proof.
  intros validation. unfold onValidate. fold validation.
  pose proof (trace_validateFields state requiredFields guid_validate
                (match State.metadata state with
                 | Some metadata => Metadata.fields metadata
                 | None => []
                 end) []) as Htrace.
  fold validation in Htrace.
  destruct validation as [t [messages|e]]; simpl in Htrace; subst t.
  - destruct messages as [|m messages].
    + right; left. done.
    + left. exists (m :: messages). done.
  - right; right. by exists e.
Qed.


Lemma forEach_trace_omap {A B} (f : Event -> option B) (l : list A) (body : A -> M unit) :
  (forall x, omap f (trace (body x)) = []) ->
  omap f (trace (forEach l body)) = [].
Proof.
  intros Hbody. induction l as [|x l IH]; simpl; [done|].
  rewrite trace_bind_cases, omap_app, Hbody; simpl.
  by destruct (result (body x)).
Qed.


Lemma dispatched_forEach {A} (l : list A) (body : A -> M unit) :
  (forall x, dispatched (trace (body x)) = []) ->
  dispatched (trace (forEach l body)) = [].
Proof. apply forEach_trace_omap. Qed.


Lemma dispatched_reloadDataTables childDataTables :
  dispatched (trace (reloadDataTables childDataTables)) = [].
Proof. apply forEach_trace_omap. done. Qed.


Lemma preSaveListeners_pass i events sd p :
  (forall e, e ∈ events -> FBEvent.eventName e = "PRE_SAVE" ->
             FBEvent.callback e [Obj sd; Obj p] ≠ Bool false) ->
  preSaveListeners i events sd p = (preSaveCalls i events sd p, Resolved true).
Proof.
  revert i. induction events as [|e events IH]; intros i Hpass; simpl; [done|].
  assert (preSaveListeners (S i) events sd p
          = (preSaveCalls (S i) events sd p, Resolved true)) as Hrest.
  { apply IH. intros e' He'. apply Hpass. by right. }
  destruct (String.eqb _ _) eqn:Hname; [|done].
  assert (isFalse (FBEvent.callback e [Obj sd; Obj p]) = false) as ->.
  { apply String.eqb_eq in Hname.
    pose proof (Hpass e (list_elem_of_here _ _) Hname) as Hne.
    destruct (FBEvent.callback e _) as [| |[|]| | |]; done. }
  by rewrite Hrest.
Qed.

(** The loop stops at the first [PRE_SAVE] listener that returns
    [false]: the listeners after it are not called. *)
Lemma preSaveListeners_cancel i before listener after sd p :
  (forall e, e ∈ before -> FBEvent.eventName e = "PRE_SAVE" ->
             FBEvent.callback e [Obj sd; Obj p] ≠ Bool false) ->
  FBEvent.eventName listener = "PRE_SAVE" ->
  FBEvent.callback listener [Obj sd; Obj p] = Bool false ->
  preSaveListeners i (before ++ listener :: after) sd p
  = (preSaveCalls i before sd p
       ++ [Call (Listener (i + length before)) [Obj sd; Obj p];
           Dispatch SUBMIT_CANCELLED],
     Resolved false).
Proof.
  intros Hpass Hname Hfalse. revert i Hpass.
  induction before as [|e before IH]; intros i Hpass; simpl.
  - rewrite Hname, Hfalse, Nat.add_0_r. done.
  - assert (preSaveListeners (S i) (before ++ listener :: after) sd p
            = (preSaveCalls (S i) before sd p
                 ++ [Call (Listener (i + S (length before))) [Obj sd; Obj p];
                     Dispatch SUBMIT_CANCELLED],
               Resolved false)) as Hrest.
    { rewrite IH, Nat.add_succ_comm; [done|].
      intros e' He'. apply Hpass. by right. }
    destruct (String.eqb _ _) eqn:Hn; [|done].
    assert (isFalse (FBEvent.callback e [Obj sd; Obj p]) = false) as ->.
    { apply String.eqb_eq in Hn.
      pose proof (Hpass e (list_elem_of_here _ _) Hn) as Hne.
      destruct (FBEvent.callback e _) as [| |[|]| | |]; done. }
    by rewrite Hrest.
Qed.

Lemma dispatched_preSaveCalls i events sd p :
  dispatched (preSaveCalls i events sd p) = [].
Proof.
  revert i. induction events as [|e events IH]; intros i; simpl; [done|].
  rewrite dispatched_app, IH. by destruct (String.eqb _ _).
Qed.

Lemma executed_preSaveCalls i events sd p :
  executed (preSaveCalls i events sd p) = [].
Proof.
  revert i. induction events as [|e events IH]; intros i; simpl; [done|].
  rewrite executed_app, IH. by destruct (String.eqb _ _).
Qed.

Section Save.

Variable props : Props.t.
Variable state : State.t.
Variable childDataTables : list DataTableRef.t.
Variable eventListeners : list FBEvent.t.
Variable requiredFields : list string.
Variable authRequest : AuthRequest.t.
Variable guid_validate : any -> bool.
Variable API_DATA_CREATE API_DATA_UPDATE : string.

Local Abbreviation save :=
  (onSave props state childDataTables eventListeners requiredFields authRequest
     guid_validate API_DATA_CREATE API_DATA_UPDATE).
Local Abbreviation validate := (onValidate state requiredFields guid_validate).
Local Abbreviation submissionData := (default (∅ : obj) (State.data state)).

(** C6. A pre-validate hook that answers continue false ends the save at
    once: the only thing the save has done is to call that hook; nothing is
    dispatched, so the state (phase, dirty set, edit buffer) is as before,
    and neither the validator, nor the data service, nor another hook or
    listener has been called. *)
Theorem C6_pre_validate_abort (preValidate : PreSaveEvent)
    (preSaveEvent : option PreSaveEvent) (postSaveEvent : bool) :
  SaveEventResponse.continue (preValidate submissionData) = false ->
  save (Some preValidate) preSaveEvent postSaveEvent
  = ([Call PreValidateHook [Obj submissionData]], Resolved tt)
  /\ reduce state (trace (save (Some preValidate) preSaveEvent postSaveEvent)) = state
  /\ executed (trace (save (Some preValidate) preSaveEvent postSaveEvent)) = [].
Proof.
  intros Hstop.
  assert (save (Some preValidate) preSaveEvent postSaveEvent
          = ([Call PreValidateHook [Obj submissionData]], Resolved tt)) as ->.
  { unfold onSave. rewrite runHook_eq, Hstop. done. }
  done.
Qed.


(** C5, as the code has it.  After a validation pass: if any message was
    produced, validation fails and the full message set is published to the
    container state; if no message was produced, validation passes and
    nothing is dispatched, so the validation messages of the container stay
    as they were. *)
Theorem C5_validation_outcome (messages : list ValidationMessage.t) :
  validateFields state requiredFields guid_validate
    (match State.metadata state with
     | Some metadata => Metadata.fields metadata
     | None => []
     end) []
  = ret messages ->
  (messages ≠ [] ->
     validate = ([Dispatch (SET_VALIDATION_MESSAGES messages)], Resolved false)
     /\ State.validationMessages (reduce state (trace validate)) = messages)
  /\ (messages = [] ->
        validate = ([], Resolved true)
        /\ reduce state (trace validate) = state).
Proof.
  intros Hpass. unfold onValidate. rewrite Hpass, bind_ret.
  split; intros Hm.
  - destruct messages; [done|]. done.
  - subst messages. done.
Qed.


(** C7. During a save the [PRE_SAVE] listeners are called in the order of
    registration (the order of the list, to which [on] appends); the first
    that returns false makes the save dispatch [SUBMIT_CANCELLED] and end:
    the listeners after it are not called and nothing is sent to the data
    service. *)
Theorem C7_pre_save_listener_cancels (preValidate preSaveEvent : option PreSaveEvent)
    (postSaveEvent : bool) (before after : list FBEvent.t) (listener : FBEvent.t)
    (bag0 bag : obj) :
  eventListeners = before ++ listener :: after ->
  result (runHook PreValidateHook preValidate submissionData ∅) = Resolved (Some bag0) ->
  result validate = Resolved true ->
  result (runHook OnPreSave (Props.onPreSave props) submissionData bag0)
  = Resolved (Some bag) ->
  (forall e, e ∈ before -> FBEvent.eventName e = "PRE_SAVE" ->
             FBEvent.callback e [Obj submissionData; Obj bag] ≠ Bool false) ->
  FBEvent.eventName listener = "PRE_SAVE" ->
  FBEvent.callback listener [Obj submissionData; Obj bag] = Bool false ->
  save preValidate preSaveEvent postSaveEvent
  = (trace (runHook PreValidateHook preValidate submissionData ∅)
       ++ [Dispatch SET_IS_LOADING]
       ++ trace (runHook OnPreSave (Props.onPreSave props) submissionData bag0)
       ++ preSaveCalls 0 before submissionData bag
       ++ [Call (Listener (length before)) [Obj submissionData; Obj bag];
           Dispatch SUBMIT_CANCELLED],
     Resolved tt)
  /\ State.phase (reduce state (trace (save preValidate preSaveEvent postSaveEvent)))
     = Phase.SUBMIT_CANCELLED
  /\ executed (trace (save preValidate preSaveEvent postSaveEvent)) = []
  /\ on eventListeners "PRE_SAVE" (FBEvent.callback listener)
     = eventListeners ++ [FBEvent.mk "PRE_SAVE" (FBEvent.callback listener)].
Proof.
  intros Hlist H0 Hvalid H1 Hbefore Hname Hfalse.
  assert (validate = ret true) as Hv.
  { destruct (onValidate_cases state requiredFields guid_validate)
      as [(m & _ & _ & Hr)|[[_ Hr]|[e Hr]]]; rewrite Hr in Hvalid; by simplify_eq. }
  assert (save preValidate preSaveEvent postSaveEvent
          = (trace (runHook PreValidateHook preValidate submissionData ∅)
               ++ [Dispatch SET_IS_LOADING]
               ++ trace (runHook OnPreSave (Props.onPreSave props) submissionData bag0)
               ++ preSaveCalls 0 before submissionData bag
               ++ [Call (Listener (length before)) [Obj submissionData; Obj bag];
                   Dispatch SUBMIT_CANCELLED],
             Resolved tt)) as Hrun.
  { unfold onSave.
    rewrite (bind_resolved _ _ _ H0); simpl. rewrite Hv, bind_ret; simpl.
    rewrite (bind_resolved (dispatch SET_IS_LOADING) _ tt eq_refl).
    rewrite (bind_resolved _ _ _ H1).
    rewrite Hlist, (preSaveListeners_cancel 0 before listener after) by done.
    unfold bind; simpl. by rewrite app_nil_r. }
  rewrite Hrun. split; [done|]. split; [|split; [|done]].
  - unfold reduce. change (trace (?t, _)) with t.
    rewrite !dispatched_app, !dispatched_runHook, dispatched_preSaveCalls. done.
  - change (trace (?t, _)) with t.
    rewrite !executed_app, !executed_runHook, executed_preSaveCalls. done.
Qed.

End Save.

(** ** Load and snapshot assignment *)

Section Load.

Variable props : Props.t.
Variable state : State.t.
Variable snapshotQueue : list Snapshot.
Variable childDataTables : list DataTableRef.t.
Variable authRequest : AuthRequest.t.
Variable getTablePermissions : string -> TablePermissions.t.
Variable now : Z.
Variable toISOString : Z -> string.

Local Abbreviation load :=
  (onLoad props state snapshotQueue childDataTables authRequest getTablePermissions
     now toISOString).
Local Abbreviation initialData := (getInitialData props now toISOString).

Lemma dispatched_lookupLabels md : dispatched (trace (lookupLabels props md)) = [].
Proof.
  apply dispatched_forEach. intros field.
  destruct (isLookup field); [|done].
  destruct (Props.defaults props); [|done].
  apply dispatched_forEach. intros d. by destruct (String.eqb _ _).
Qed.

Lemma getClearedValues_trace md :
  trace (getClearedValues props now toISOString md) = trace (lookupLabels props md).
Proof.
  unfold getClearedValues. rewrite trace_bind_cases.
  destruct (result (lookupLabels props md)); simpl; by rewrite app_nil_r.
Qed.

Lemma getInitialData_total metadata snapshot :
  exists data, result (initialData metadata snapshot) = Resolved data.
Proof.
  destruct metadata as [md|]; [|by eexists].
  destruct snapshot; simpl; [|by eexists|];
    rewrite (result_bind _ _ _ (getClearedValues_resolved _ _ _ _)); by eexists.
Qed.

Lemma dispatched_getInitialData metadata snapshot :
  dispatched (trace (initialData metadata snapshot)) = [].
Proof.
  destruct metadata as [md|]; [|done].
  destruct snapshot; simpl; [|done|];
    rewrite (trace_bind _ _ _ (getClearedValues_resolved _ _ _ _));
    simpl; by rewrite app_nil_r, getClearedValues_trace, dispatched_lookupLabels.
Qed.

Lemma startInitialLoad_resolved options :
  result (startInitialLoad props state now toISOString options) = Resolved tt.
Proof.
  unfold startInitialLoad. destruct (OnLoadOptions.refresh options); simpl; [done|].
  destruct (State.metadata state) as [md|]; [|done].
  destruct (getInitialData_total (Some md) SUndefined) as [data Hdata].
  by rewrite (result_bind _ _ _ Hdata).
Qed.

Lemma dispatched_startInitialLoad options :
  exists data forceIsLoading,
    dispatched (trace (startInitialLoad props state now toISOString options))
    = if OnLoadOptions.refresh options then []
      else [START_INITIAL_LOAD (Props.tableName props) data forceIsLoading].
Proof.
  unfold startInitialLoad. destruct (OnLoadOptions.refresh options); simpl.
  { by exists None, false. }
  destruct (State.metadata state) as [md|].
  - destruct (getInitialData_total (Some md) SUndefined) as [data Hdata].
    eexists data, _.
    rewrite (trace_bind _ _ _ Hdata), dispatched_app, dispatched_getInitialData.
    done.
  - eexists None, _. by rewrite bind_ret.
Qed.

Lemma resolveMetadata_total :
  exists metadata, result (resolveMetadata props authRequest) = Resolved metadata.
Proof. unfold resolveMetadata. destruct (Props.metadata props); by eexists. Qed.

Lemma dispatched_resolveMetadata :
  dispatched (trace (resolveMetadata props authRequest)) = [].
Proof. unfold resolveMetadata. by destruct (Props.metadata props). Qed.

Lemma fetchRecord_request options :
  fetches props state options ->
  fetchRecord props state authRequest options
  = (do emit (Read (readRequest props state options)) in
     match AuthRequest.read authRequest (readRequest props state options) with
     | None => ret None
     | Some dataResp =>
         if negb (ReadResponse.succeeded dataResp) then ret None
         else
           match ReadResponse.results dataResp with
           | None | Some [] => ret (Some (Props.snapshot props, true, Bool false))
           | Some (row :: _) =>
               let* canUpdate := member (get row ui_info) "canUpdate" in
               ret (Some (SRecord row, false, canUpdate))
           end
     end).
Proof.
  unfold fetchRecord, readRequest, readId.
  intros [(-> & -> & [id ->])|[-> Hsnapshot]]; simpl.
  - by rewrite bind_ret.
  - destruct (State.snapshot state); try done.
    rewrite orb_true_r; simpl. by rewrite bind_ret.
Qed.

Lemma fetchRecord_failed options :
  fetches props state options ->
  fetchFails props state authRequest options ->
  fetchRecord props state authRequest options
  = ([Read (readRequest props state options)], Resolved None).
Proof.
  intros Hfetch Hfail. rewrite fetchRecord_request by done.
  unfold fetchFails in Hfail.
  destruct (AuthRequest.read _ _) as [dataResp|]; [|done].
  by rewrite Hfail.
Qed.

Lemma fetchRecord_missing options :
  fetches props state options ->
  fetchFindsNothing props state authRequest options ->
  fetchRecord props state authRequest options
  = ([Read (readRequest props state options)],
     Resolved (Some (Props.snapshot props, true, Bool false))).
Proof.
  intros Hfetch (dataResp & Hresp & Hok & Hrows).
  rewrite fetchRecord_request, Hresp, Hok by done.
  by destruct Hrows as [-> | ->].
Qed.

(** C9. When the record fetch of a load fails at transport level (no
    response, or a response with succeeded false), the load ends there
    without an error: the read is the last thing it does and it dispatches
    nothing after it.  A refresh has then dispatched nothing at all and
    leaves the state as it was; a load that is not a refresh has dispatched
    only the start of the load, and the container stays in [LOADING]. *)
Theorem C9_failed_fetch_aborts (options : OnLoadOptions.t) :
  Props.tableName props ≠ "" ->
  fetches props state options ->
  fetchFails props state authRequest options ->
  result (load options) = Resolved tt
  /\ (exists before, trace (load options) = before ++ [Read (readRequest props state options)]
                     /\ dispatched (trace (load options)) = dispatched before)
  /\ (OnLoadOptions.refresh options = true ->
      dispatched (trace (load options)) = []
      /\ reduce state (trace (load options)) = state)
  /\ (OnLoadOptions.refresh options = false ->
      (exists data forceIsLoading,
          dispatched (trace (load options))
          = [START_INITIAL_LOAD (Props.tableName props) data forceIsLoading])
      /\ State.phase (reduce state (trace (load options))) = Phase.LOADING).
Proof.
  intros Hname Hfetch Hfail.
  destruct resolveMetadata_total as [metadata Hmd].
  assert (load options
          = ((trace (startInitialLoad props state now toISOString options)
                ++ trace (resolveMetadata props authRequest))
               ++ [Read (readRequest props state options)],
             Resolved tt)) as Hrun.
  { unfold onLoad. apply String.eqb_neq in Hname. rewrite Hname.
    rewrite (bind_resolved _ _ _ (startInitialLoad_resolved options)).
    rewrite (bind_resolved _ _ _ Hmd).
    rewrite fetchRecord_failed by done. unfold bind; simpl.
    by rewrite app_assoc. }
  rewrite Hrun. change (trace (?t, _)) with t. change (result (_, ?r)) with r.
  assert (dispatched ((trace (startInitialLoad props state now toISOString options)
                         ++ trace (resolveMetadata props authRequest))
                        ++ [Read (readRequest props state options)])
          = dispatched (trace (startInitialLoad props state now toISOString options)))
    as Hd.
  { by rewrite !dispatched_app, dispatched_resolveMetadata, !app_nil_r. }
  destruct (dispatched_startInitialLoad options) as (data & force & Hstart).
  split; [done|]. split; [|split].
  - eexists. split; [done|].
    by rewrite Hd, dispatched_app, dispatched_resolveMetadata, app_nil_r.
  - intros Hrefresh. unfold reduce. rewrite Hd, Hstart, Hrefresh. done.
  - intros Hrefresh. unfold reduce. rewrite Hd, Hstart, Hrefresh.
    split; [by exists data, force|done].
Qed.

End Load.

Section LoadCompletes.

Variable props : Props.t.
Variable state : State.t.
Variable snapshotQueue : list Snapshot.
Variable childDataTables : list DataTableRef.t.
Variable authRequest : AuthRequest.t.
Variable getTablePermissions : string -> TablePermissions.t.
Variable now : Z.
Variable toISOString : Z -> string.

Local Abbreviation load :=
  (onLoad props state snapshotQueue childDataTables authRequest getTablePermissions
     now toISOString).

Lemma setSnapshot_resolved snapshot forceShowLoading :
  result (setSnapshot props state now toISOString snapshot forceShowLoading)
  = Resolved tt.
Proof.
  unfold setSnapshot. destruct (State.metadata state) as [md|]; [|done].
  destruct (getInitialData_total props now toISOString (Some md) snapshot)
    as [data Hdata].
  by rewrite (result_bind _ _ _ Hdata).
Qed.

Lemma drainQueue_resolved :
  result (drainQueue props state snapshotQueue now toISOString) = Resolved tt.
Proof.
  unfold drainQueue.
  rewrite (result_bind (emit QueuePop) _ tt eq_refl).
  by rewrite (result_bind _ _ _ (setSnapshot_resolved _ _)).
Qed.

(** C8, as the code has it.  When the record fetch of a load succeeds
    with zero rows and the caller supplied no snapshot, the load completes
    with canRead false and a message that ends in the table name, and
    publishes no snapshot: in the state of the completed load the operation
    kind is CREATE.  A snapshot assignment that was queued is replayed after
    that. *)
Theorem C8_missing_record (options : OnLoadOptions.t) :
  Props.tableName props ≠ "" ->
  fetches props state options ->
  fetchFindsNothing props state authRequest options ->
  present (Props.snapshot props) = false ->
  exists before payload after,
    load options
    = (before ++ [Dispatch (INITIAL_LOAD_COMPLETE payload)] ++ after, Resolved tt)
    /\ (forall p, INITIAL_LOAD_COMPLETE p ∉ dispatched before)
    /\ (snapshotQueue = [] -> after = [])
    /\ LoadComplete.canRead payload
       = CanRead.mk false
           ("This record doesn't exist or you are missing the required permissions to access "
              +:+ Props.tableName props)
    /\ LoadComplete.snapshot payload = Props.snapshot props
    /\ (let ready := reduce state (before ++ [Dispatch (INITIAL_LOAD_COMPLETE payload)]) in
        State.canRead ready = LoadComplete.canRead payload
        /\ present (State.snapshot ready) = false
        /\ operation props ready = "CREATE").
Proof.
  intros Hname Hfetch Hnone Hprops.
  destruct (resolveMetadata_total props authRequest) as [metadata Hmd].
  destruct (getInitialData_total props now toISOString metadata (Props.snapshot props))
    as [data Hdata].
  set (start := trace (startInitialLoad props state now toISOString options)).
  set (reload := if OnLoadOptions.refreshDatatables options
                 then reloadDataTables childDataTables else ret tt).
  assert (result reload = Resolved tt) as Hreload.
  { unfold reload. destruct (OnLoadOptions.refreshDatatables options); [|done].
    by apply forEach_resolved. }
  assert (dispatched (trace reload) = []) as Hdreload.
  { unfold reload. destruct (OnLoadOptions.refreshDatatables options); [|done].
    apply dispatched_reloadDataTables. }
  set (drain := if bool_decide (0 < length snapshotQueue)%nat
                then drainQueue props state snapshotQueue now toISOString
                else ret tt).
  assert (result drain = Resolved tt) as Hdrain.
  { unfold drain. case_bool_decide; [apply drainQueue_resolved|done]. }
  eexists (((start ++ trace (resolveMetadata props authRequest))
              ++ [Read (readRequest props state options)])
             ++ trace (getInitialData props now toISOString metadata (Props.snapshot props))
             ++ [GetTablePermissions (Props.tableName props)]
             ++ trace reload),
          _, (trace drain).
  split; [|split; [|split; [|split; [|split]]]].
  - unfold onLoad. apply String.eqb_neq in Hname. rewrite Hname.
    rewrite (bind_resolved _ _ _ (startInitialLoad_resolved _ _ _ _ options)).
    rewrite (bind_resolved _ _ _ Hmd).
    rewrite fetchRecord_missing by done.
    rewrite bind_pair. cbv beta iota. unfold completeLoad.
    assert (match Props.snapshot props with
            | SRecord o => member (get o ui_info) "canUpdate"
            | _ => ret (Bool false)
            end = ret (Bool false)) as ->
      by (by destruct (Props.snapshot props)).
    rewrite bind_ret.
    rewrite (bind_resolved _ _ _ Hdata).
    unfold dispatch, emit. rewrite bind_pair.
    fold reload. rewrite (bind_resolved reload _ tt Hreload).
    rewrite bind_pair.
    fold drain. rewrite Hdrain.
    change (trace (?t, _)) with t. fold start.
    f_equal. rewrite <- !app_assoc. reflexivity.
  - intros p. unfold start.
    destruct (dispatched_startInitialLoad props state now toISOString options)
      as (d & force & Hstart).
    rewrite !dispatched_app, Hstart, dispatched_resolveMetadata,
      dispatched_getInitialData, Hdreload; simpl.
    destruct (OnLoadOptions.refresh options); simpl.
    + apply not_elem_of_nil.
    + intros [=]%list_elem_of_singleton.
  - intros Hq. unfold drain. by rewrite Hq.
  - done.
  - done.
  - cbv zeta. unfold reduce. rewrite dispatched_app, foldl_app; simpl.
    unfold operation; simpl. by rewrite !Hprops.
Qed.

End LoadCompletes.

(** ** The hook on the Widget form *)

(** The buffer of the update path on a row with a null field and a field
    the schema does not know: the null [Stock] reads its default, [Legacy]
    is dropped, [Name], the identifier and the permission flags are taken
    from the row. *)
Example update_buffer_of_widgetRow :
  result (getInitialData (exampleProps "Widget" SUndefined) exampleNow
            exampleToISOString (Some widgetMetadata) (SRecord widgetRow))
  = Resolved
      (Some (<["WidgetId" := Str "w1"]>
               (<["Name" := Str "A"]>
                  (<[ui_info := Obj (<["canUpdate" := Bool true]> ∅)]>
                     widgetDefaults)))).
Proof. vm_compute. reflexivity. Qed.

Example widgetDefaults_Stock : widgetDefaults !! "Stock" = Some (Str "").
Proof. vm_compute. reflexivity. Qed.

(** *** Snapshot assignment before the schema is known *)

(** While the schema is unknown, an assignment only posts the snapshot
    to the queue. *)
Lemma setSnapshot_schema_unknown props state now toISOString snapshot forceShowLoading :
  State.metadata state = None ->
  setSnapshot props state now toISOString snapshot forceShowLoading
  = ([QueueAppend snapshot], Resolved tt).
Proof. unfold setSnapshot. by intros ->. Qed.

(** The two statements that drain the queue, run in a render whose state
    has no schema: the entry taken from the queue goes back to
    [setSnapshot], which posts it again, and the reset empties the queue.
    Nothing is dispatched. *)
Lemma drainQueue_schema_unknown props state snapshotQueue now toISOString :
  State.metadata state = None ->
  drainQueue props state snapshotQueue now toISOString
  = ([QueuePop; QueueAppend (List.last snapshotQueue SUndefined); QueueReset],
     Resolved tt).
Proof.
  intros Hmd. unfold drainQueue.
  by rewrite (setSnapshot_schema_unknown _ _ _ _ _ _ Hmd).
Qed.

(** The same two statements in a render whose state has the schema: the
    most recent entry is assigned and the queue is emptied. *)
Lemma drainQueue_schema_known props state queue snapshot now toISOString :
  is_Some (State.metadata state) ->
  exists data,
    result (getInitialData props now toISOString (State.metadata state) snapshot)
    = Resolved data
    /\ dispatched (trace (drainQueue props state (queue ++ [snapshot]) now toISOString))
       = [SET_DATA_TO_EDIT (DataToEdit.mk data snapshot (Props.canUpdate props) false)]
    /\ queueAfter (queue ++ [snapshot])
         (trace (drainQueue props state (queue ++ [snapshot]) now toISOString))
       = [].
Proof.
  intros [md Hmd].
  destruct (getInitialData_total props now toISOString (State.metadata state) snapshot)
    as [data Hdata].
  exists data. split; [done|].
  unfold drainQueue, setSnapshot. rewrite last_last, Hmd.
  rewrite <- Hmd, (bind_resolved _ _ _ Hdata).
  unfold dispatch, emit. run.
  split.
  - rewrite !dispatched_app, dispatched_getInitialData. done.
  - unfold queueAfter. rewrite !foldl_app. done.
Qed.

(** C1 on a load that starts in a render where the schema is not yet
    known and a snapshot is queued.  The assignment itself had dispatched
    nothing and queued the snapshot.  The load completes with its own
    snapshot argument (none: the buffer is the defaults); its drain takes
    the queued row and hands it to [setSnapshot] of the same render, which
    queues it again, and the reset then empties the queue.  No
    [SET_DATA_TO_EDIT] is dispatched: the buffer after the load has the
    default name, not the name of the queued row, and the queue is empty, so
    that the effect of the next render finds nothing to assign. *)
Theorem C1_stale_drain_drops_queued_snapshot :
  let props := exampleProps "Widget" SUndefined in
  let queued := SRecord widgetRow in
  let run :=
    onLoad props initialState [queued] [] (exampleService None None)
      examplePermissions exampleNow exampleToISOString (mountOptions None) in
  setSnapshot props initialState exampleNow exampleToISOString queued None
  = ([QueueAppend queued], Resolved tt)
  /\ result run = Resolved tt
  /\ dispatched (trace run)
     = [START_INITIAL_LOAD "Widget" None false;
        INITIAL_LOAD_COMPLETE
          (LoadComplete.mk (Some widgetMetadata) SUndefined (Some widgetDefaults)
             (Bool false) true (CanRead.mk true ""))]
  /\ queueAfter [queued] (trace run) = []
  /\ State.data (reduce initialState (trace run)) = Some widgetDefaults
  /\ State.snapshot (reduce initialState (trace run)) = SUndefined
  /\ widgetDefaults !! "Name" = Some (Str "")
  /\ widgetRow !! "Name" = Some (Str "A")
  /\ snapshotQueueEffect props (reduce initialState (trace run))
       (queueAfter [queued] (trace run)) exampleNow exampleToISOString true
     = ret tt.
Proof. repeat split; vm_compute; reflexivity. Qed.

(** The same assignment when the load had started before it, in the
    render of the mount: the load finds its queue empty and leaves the queue
    of the state alone, and the effect of the render after the load assigns
    the queued row. *)
Example queued_snapshot_assigned_by_effect :
  let props := exampleProps "Widget" SUndefined in
  let queued := SRecord widgetRow in
  let run :=
    onLoad props initialState [] [] (exampleService None None)
      examplePermissions exampleNow exampleToISOString (mountOptions None) in
  let loaded := reduce initialState (trace run) in
  let effect :=
    snapshotQueueEffect props loaded (queueAfter [queued] (trace run))
      exampleNow exampleToISOString true in
  queueAfter [queued] (trace run) = [queued]
  /\ State.snapshot (reduce loaded (trace effect)) = queued
  /\ (State.data (reduce loaded (trace effect)) ≫= (.!! "Name")) = Some (Str "A")
  /\ queueAfter [queued] (trace effect) = [].
Proof. repeat split; vm_compute; reflexivity. Qed.

(** *** Validation that passes over stale messages *)

(** C5 as stated fails on a state that holds a message from an earlier
    pass (or from [setFieldError]) and a buffer that is now valid:
    validation passes, nothing is dispatched, and the message is still in
    the state. *)
Lemma C5_counterexample :
  let state :=
    readyState SUndefined (<["Name" := Str "Widget"]> widgetDefaults) [nameRequired] in
  onValidate state [] exampleGuid = ([], Resolved true)
  /\ State.validationMessages (reduce state (trace (onValidate state [] exampleGuid)))
     = [nameRequired]
  /\ State.validationMessages (reduce state (trace (onValidate state [] exampleGuid)))
     ≠ [].
Proof. repeat split; [vm_compute; reflexivity..|]. vm_compute. discriminate. Qed.

Lemma C5_validation_outcome_witness :
  let state := readyState SUndefined widgetDefaults [] in
  onValidate state [] exampleGuid
  = ([Dispatch (SET_VALIDATION_MESSAGES [nameRequired])], Resolved false)
  /\ State.validationMessages (reduce state (trace (onValidate state [] exampleGuid)))
     = [nameRequired].
Proof.
  apply (C5_validation_outcome (readyState SUndefined widgetDefaults []) []
           exampleGuid [nameRequired]).
  - vm_compute. reflexivity.
  - discriminate.
Defined.

(** *** Save on the Widget form *)

Lemma C6_pre_validate_abort_witness :
  let state := readyState SUndefined widgetDefaults [] in
  let run :=
    onSave (exampleProps "Widget" SUndefined) state [DataTableRef.mk "parts"]
      exampleListeners [] (exampleService None None) exampleGuid "create" "update"
      (Some stop) None true in
  run = ([Call PreValidateHook [Obj widgetDefaults]], Resolved tt)
  /\ reduce state (trace run) = state
  /\ executed (trace run) = [].
Proof.
  apply (C6_pre_validate_abort (exampleProps "Widget" SUndefined)
           (readyState SUndefined widgetDefaults []) [DataTableRef.mk "parts"]
           exampleListeners [] (exampleService None None) exampleGuid
           "create" "update" stop None true).
  reflexivity.
Defined.



Lemma C7_pre_save_listener_cancels_witness :
  let state := readyState SUndefined (<["Name" := Str "Widget"]> widgetDefaults) [] in
  let payload := Obj (<["Name" := Str "Widget"]> widgetDefaults) in
  let run :=
    onSave (exampleProps "Widget" SUndefined) state [DataTableRef.mk "parts"]
      exampleListeners [] (exampleService None None) exampleGuid "create" "update"
      None None true in
  run
  = ([Dispatch SET_IS_LOADING;
      Call (Listener 0) [payload; Obj ∅];
      Call (Listener 2) [payload; Obj ∅];
      Dispatch SUBMIT_CANCELLED],
     Resolved tt)
  /\ State.phase (reduce state (trace run)) = Phase.SUBMIT_CANCELLED
  /\ executed (trace run) = [].
Proof.
  intros state payload run.
  destruct (C7_pre_save_listener_cancels (exampleProps "Widget" SUndefined) state
              [DataTableRef.mk "parts"] exampleListeners [] (exampleService None None)
              exampleGuid "create" "update" None None true
              [FBEvent.mk "PRE_SAVE" (fun _ => Undefined);
               FBEvent.mk "POST_SAVE" (fun _ => Undefined)]
              [FBEvent.mk "PRE_SAVE" (fun _ => Bool true)]
              (FBEvent.mk "PRE_SAVE" (fun _ => Bool false)) ∅ ∅)
    as (Hrun & Hphase & Hnone & _).
  - reflexivity.
  - reflexivity.
  - vm_compute. reflexivity.
  - reflexivity.
  - intros e He _. apply list_elem_of_In in He. simpl in He.
    destruct He as [<-|[<-|[]]]; discriminate.
  - reflexivity.
  - reflexivity.
  - split; [exact Hrun|]. split; [exact Hphase|exact Hnone].
Defined.

(** *** Loads of a record that is not there *)

Lemma C8_missing_record_witness :
  let props := exampleProps "Widget" SUndefined in
  exists before payload after,
    onLoad props initialState [] [] (exampleService (Some noRows) None)
      examplePermissions exampleNow exampleToISOString (mountOptions (Some "w1"))
    = (before ++ [Dispatch (INITIAL_LOAD_COMPLETE payload)] ++ after, Resolved tt)
    /\ after = []
    /\ LoadComplete.canRead payload
       = CanRead.mk false
           "This record doesn't exist or you are missing the required permissions to access Widget"
    /\ LoadComplete.snapshot payload = SUndefined
    /\ operation props
         (reduce initialState (before ++ [Dispatch (INITIAL_LOAD_COMPLETE payload)]))
       = "CREATE".
Proof.
  intros props.
  destruct (C8_missing_record props initialState [] [] (exampleService (Some noRows) None)
              examplePermissions exampleNow exampleToISOString (mountOptions (Some "w1")))
    as (before & payload & after & Hrun & _ & Hafter & Hread & Hsnapshot & _ & _ & Hop).
  - discriminate.
  - left. repeat split. by exists "w1".
  - exists noRows. repeat split. by right.
  - reflexivity.
  - exists before, payload, after. repeat split; auto.
Defined.

(** C8 as stated fails on a refresh of a form whose caller supplies the
    snapshot: the fetch finds no row, the load completes with canRead false,
    and the snapshot it publishes is the one of the caller; the operation
    kind is UPDATE. *)
Lemma C8_counterexample :
  let props := exampleProps "Widget" (SRecord widgetRow) in
  let state := readyState (SRecord widgetRow) widgetDefaults [] in
  let run :=
    onLoad props state [] [] (exampleService (Some noRows) None)
      examplePermissions exampleNow exampleToISOString refreshOptions in
  fetches props state refreshOptions
  /\ fetchFindsNothing props state (exampleService (Some noRows) None) refreshOptions
  /\ result run = Resolved tt
  /\ CanRead.canRead (State.canRead (reduce state (trace run))) = false
  /\ State.snapshot (reduce state (trace run)) = SRecord widgetRow
  /\ operation props (reduce state (trace run)) = "UPDATE"
  /\ operation props (reduce state (trace run)) ≠ "CREATE".
Proof.
  intros props state run. split; [by right|]. split.
  { exists noRows. repeat split. by right. }
  repeat split; [vm_compute; reflexivity..|]. vm_compute. discriminate.
Qed.

Lemma C9_failed_fetch_aborts_witness :
  let props := exampleProps "Widget" SUndefined in
  let run :=
    onLoad props initialState [] [] (exampleService None None)
      examplePermissions exampleNow exampleToISOString (mountOptions (Some "w1")) in
  result run = Resolved tt
  /\ State.phase (reduce initialState (trace run)) = Phase.LOADING.
Proof.
  intros props run.
  destruct (C9_failed_fetch_aborts props initialState [] [] (exampleService None None)
              examplePermissions exampleNow exampleToISOString (mountOptions (Some "w1")))
    as (Hres & _ & _ & Hloading).
  - discriminate.
  - left. repeat split. by exists "w1".
  - exact I.
  - split; [exact Hres|]. by apply Hloading.
Defined.

(** A refresh whose fetch fails leaves the state as it was. *)
Example failed_refresh_keeps_state :
  let props := exampleProps "Widget" SUndefined in
  let state := readyState (SRecord widgetRow) widgetDefaults [] in
  reduce state
    (trace (onLoad props state [] [DataTableRef.mk "parts"] (exampleService None None)
              examplePermissions exampleNow exampleToISOString refreshOptions))
  = state.
Proof. vm_compute. reflexivity. Qed.

(** *** Loads started in a render without schema *)

Lemma trace_member v k : trace (member v k) = [].
Proof. by destruct v. Qed.

Lemma dispatched_fetchRecord props state authRequest options :
  dispatched (trace (fetchRecord props state authRequest options)) = [].
Proof.
  unfold fetchRecord. destruct (_ || _); [|done].
  rewrite trace_bind_cases, dispatched_app.
  assert (trace (if OnLoadOptions.refresh options
                 then snapshotMember (State.snapshot state) (Props.tableName props +:+ "Id")
                 else ret match OnLoadOptions.id options with
                          | Some id => Str id
                          | None => Undefined
                          end) = []) as ->.
  { destruct (OnLoadOptions.refresh options); [|done].
    by destruct (State.snapshot state). }
  simpl. destruct (result _) as [id|]; [|done].
  unfold emit. rewrite bind_pair. change (trace (?t, _)) with t. simpl.
  destruct (AuthRequest.read _ _) as [dataResp|]; [|done].
  destruct (negb _); [done|].
  destruct (ReadResponse.results dataResp) as [[|row rows]|]; [done| |done].
  rewrite trace_bind_cases, trace_member; simpl.
  by destruct (result _).
Qed.

(** A load that starts in a render whose state has no schema dispatches
    no snapshot assignment, whatever the queue holds. *)
Lemma onLoad_schema_unknown_assigns_nothing props state snapshotQueue childDataTables
    authRequest getTablePermissions now toISOString options :
  State.metadata state = None ->
  Forall (fun a => assigns a = false)
    (dispatched (trace (onLoad props state snapshotQueue childDataTables authRequest
                          getTablePermissions now toISOString options))).
Proof.
  intros Hmd. unfold onLoad. destruct (String.eqb _ _); [by constructor|].
  rewrite trace_bind_cases, dispatched_app. apply Forall_app. split.
  { destruct (dispatched_startInitialLoad props state now toISOString options)
      as (d & f & ->).
    destruct (OnLoadOptions.refresh options); by repeat constructor. }
  destruct (result _); [|by constructor].
  rewrite trace_bind_cases, dispatched_app, dispatched_resolveMetadata; simpl.
  destruct (result _) as [metadata|]; [|by constructor].
  rewrite trace_bind_cases, dispatched_app, dispatched_fetchRecord; simpl.
  destruct (result _) as [[[[snapshot missing] canUpdate]|]|]; [|by constructor..].
  unfold completeLoad.
  rewrite trace_bind_cases, dispatched_app.
  assert (trace match Props.snapshot props with
                | SRecord o => member (get o ui_info) "canUpdate"
                | _ => ret canUpdate
                end = []) as ->
    by (destruct (Props.snapshot props); [done..|apply trace_member]).
  simpl. destruct (result _) as [canUpdate'|]; [|by constructor].
  rewrite trace_bind_cases, dispatched_app, dispatched_getInitialData; simpl.
  destruct (result _) as [data|]; [|by constructor].
  unfold emit at 1. rewrite bind_pair. change (trace (?t, _)) with t.
  rewrite dispatched_app; simpl.
  rewrite trace_bind_cases, dispatched_app.
  assert (dispatched (trace (if OnLoadOptions.refreshDatatables options
                             then reloadDataTables childDataTables
                             else ret tt)) = []) as ->.
  { destruct (OnLoadOptions.refreshDatatables options);
      [apply dispatched_reloadDataTables|done]. }
  simpl. destruct (result _); [|by constructor].
  unfold dispatch, emit. rewrite bind_pair. change (trace (?t, _)) with t.
  rewrite dispatched_app. apply Forall_app. split; [by repeat constructor|].
  case_bool_decide; [|by constructor].
  rewrite drainQueue_schema_unknown by done. by constructor.
Qed.

(** * More properties of the hook *)

(** ** Synthesis *)

Lemma dom_clearedObject_subseteq props now toISOString md :
  dom (clearedObject props now toISOString md)
  ⊆ list_to_set (map Field.name (Metadata.fields md)) ∪ {[ui_info]}.
Proof.
  unfold clearedObject, spread. intros k.
  rewrite dom_insert_L, !dom_union_L, !dom_toObject.
  rewrite !elem_of_union, !elem_of_list_to_set, !fieldDefaults_names, elem_of_singleton.
  intros [->|H]; [by right|left].
  assert (exists f, f ∈ Metadata.fields md /\ Field.name f = k) as (f & Hf & <-)
    by (destruct H as [H|[H|[H|[H|H]]]]; destruct H as (f & ? & ? & ?); eauto).
  apply list_elem_of_In, in_map, list_elem_of_In, Hf.
Qed.

Lemma getInitialData_update props now toISOString md (snapshot : obj) :
  result (getInitialData props now toISOString (Some md) (SRecord snapshot))
  = Resolved (Some (spread (clearedObject props now toISOString md)
                      (filter (fun kv => keepKey props md kv = true) snapshot))).
Proof.
  unfold getInitialData.
  by rewrite (result_bind _ _ _ (getClearedValues_resolved _ _ _ _)).
Qed.

Lemma getInitialData_create props now toISOString md :
  result (getInitialData props now toISOString (Some md) SUndefined)
  = Resolved (Some (spread (clearedObject props now toISOString md)
                      (match Props.defaults props with
                       | Some defaults => toObject defaults
                       | None => ∅
                       end))).
Proof.
  unfold getInitialData.
  by rewrite (result_bind _ _ _ (getClearedValues_resolved _ _ _ _)).
Qed.

(** X1. The buffer synthesized from a snapshot has no key beyond the
    field names of the schema, the reserved metadata key and the identifier
    key (table name followed by Id), whatever the snapshot holds; the
    reserved key is always there. *)
Theorem update_buffer_keys_known props now toISOString md (snapshot : obj) :
  exists buffer : obj,
    result (getInitialData props now toISOString (Some md) (SRecord snapshot))
    = Resolved (Some buffer)
    /\ dom buffer
       ⊆ list_to_set (map Field.name (Metadata.fields md))
         ∪ {[ui_info; Props.tableName props +:+ "Id"]}
    /\ ui_info ∈ dom buffer.
Proof.
  eexists. split; [apply getInitialData_update|]. unfold spread. split.
  - intros k. rewrite dom_union_L, !elem_of_union, !elem_of_singleton,
      elem_of_list_to_set.
    intros [Hk|Hk].
    + apply elem_of_dom in Hk as [v Hv].
      apply map_lookup_filter_Some in Hv as [_ (_ & Hov)%keepKey_overlaid].
      tauto.
    + apply dom_clearedObject_subseteq in Hk.
      rewrite elem_of_union, elem_of_singleton, elem_of_list_to_set in Hk. tauto.
  - rewrite dom_union_L, elem_of_union. right.
    unfold clearedObject. rewrite dom_insert_L, elem_of_union, elem_of_singleton.
    by left.
Qed.

(** X2. Synthesis from a snapshot is idempotent: handing the synthesized
    buffer back as the snapshot gives the same buffer. *)
Theorem update_buffer_idempotent props now toISOString md (snapshot : obj) :
  exists buffer : obj,
    result (getInitialData props now toISOString (Some md) (SRecord snapshot))
    = Resolved (Some buffer)
    /\ result (getInitialData props now toISOString (Some md) (SRecord buffer))
       = Resolved (Some buffer).
Proof.
  eexists. split; [apply getInitialData_update|].
  rewrite getInitialData_update. do 2 f_equal. unfold spread.
  set (cleared := clearedObject props now toISOString md).
  set (keep := fun kv : string * any => keepKey props md kv = true).
  apply map_eq. intros k.
  destruct ((filter keep snapshot ∪ cleared) !! k) as [v|] eqn:Hk.
  - destruct (decide (keep (k, v))) as [Hkeep|Hdrop].
    + apply lookup_union_Some_l, map_lookup_filter_Some. done.
    + rewrite lookup_union_r.
      * apply lookup_union_Some_raw in Hk as [Hk|[_ Hk]]; [|done].
        by apply map_lookup_filter_Some in Hk as [_ Hkeep].
      * apply map_lookup_filter_None. right. intros v' Hv' Hkeep.
        rewrite Hk in Hv'. by simplify_eq.
  - pose proof Hk as [_ Hc]%lookup_union_None.
    apply lookup_union_None. split; [|done].
    apply map_lookup_filter_None. by left.
Qed.

Lemma lookup_toObject_last before d after :
  FieldValue.field d ∉ map FieldValue.field after ->
  toObject (before ++ d :: after) !! FieldValue.field d = Some (FieldValue.value d).
Proof.
  induction after as [|b after IH] using rev_ind; intros Hnot.
  - rewrite toObject_snoc. apply lookup_insert_eq.
  - rewrite map_app, not_elem_of_app in Hnot. destruct Hnot as [Hafter Hb].
    rewrite app_comm_cons, app_assoc, toObject_snoc.
    rewrite lookup_insert_ne; [by apply IH|].
    intros Heq. apply Hb. simpl. rewrite Heq. apply list_elem_of_here.
Qed.

(** X3. On the create path the defaults of the caller are laid over the
    computed ones, for every key they name (a field of the schema or not,
    the reserved key included); of several entries for one key the last
    wins; a key they do not name reads its computed default. *)
Theorem create_buffer_caller_defaults props now toISOString md defaults :
  Props.defaults props = Some defaults ->
  exists buffer : obj,
    result (getInitialData props now toISOString (Some md) SUndefined)
    = Resolved (Some buffer)
    /\ (forall before d after,
          defaults = before ++ d :: after ->
          FieldValue.field d ∉ map FieldValue.field after ->
          buffer !! FieldValue.field d = Some (FieldValue.value d))
    /\ (forall k, k ∉ map FieldValue.field defaults ->
                  buffer !! k = clearedObject props now toISOString md !! k).
Proof.
  intros Hd. eexists. split; [apply getInitialData_create|].
  rewrite Hd. unfold spread. split.
  - intros before d after -> Hlast.
    by apply lookup_union_Some_l, lookup_toObject_last.
  - intros k Hk. by apply lookup_union_r, lookup_toObject_None.
Qed.

Lemma findDefault_first before d after :
  FieldValue.field d ∉ map FieldValue.field before ->
  findDefault (Some (before ++ d :: after)) (FieldValue.field d)
  = if is_nullish (FieldValue.value d) then Null else FieldValue.value d.
Proof.
  intros Hnot. unfold findDefault.
  assert (List.find (fun x => String.eqb (FieldValue.field x) (FieldValue.field d))
            (before ++ d :: after) = Some d) as ->; [|done].
  induction before as [|b before IH]; simpl.
  - by rewrite String.eqb_refl.
  - rewrite map_cons, not_elem_of_cons in Hnot. destruct Hnot as [Hb Hbefore].
    destruct (String.eqb _ _) eqn:Heq; [|by apply IH].
    apply String.eqb_eq in Heq. by symmetry in Heq.
Qed.

(** X4. On the update path a lookup field that the snapshot leaves out or
    holds as null takes the default of the caller for that field: the value
    of the first entry of the defaults that names it, or null when that
    value is null or undefined (and null when no entry names it). *)
Theorem update_buffer_lookup_default props now toISOString md (snapshot : obj) f :
  NoDup (map Field.name (Metadata.fields md)) ->
  f ∈ Metadata.fields md ->
  Field.name f ≠ ui_info ->
  Field.type f = "Lookup" ->
  snapshot !! Field.name f = None \/ snapshot !! Field.name f = Some Null ->
  exists buffer : obj,
    result (getInitialData props now toISOString (Some md) (SRecord snapshot))
    = Resolved (Some buffer)
    /\ buffer !! Field.name f = Some (findDefault (Props.defaults props) (Field.name f))
    /\ (forall before d after,
          Props.defaults props = Some (before ++ d :: after) ->
          FieldValue.field d = Field.name f ->
          Field.name f ∉ map FieldValue.field before ->
          buffer !! Field.name f
          = Some (if is_nullish (FieldValue.value d) then Null else FieldValue.value d))
    /\ (Props.defaults props = None -> buffer !! Field.name f = Some Null).
Proof.
  intros Hnd Hf Hui Hty Hsnap.
  eexists. split; [apply getInitialData_update|].
  assert (spread (clearedObject props now toISOString md)
            (filter (fun kv => keepKey props md kv = true) snapshot) !! Field.name f
          = Some (findDefault (Props.defaults props) (Field.name f))) as Hlookup.
  { unfold spread. rewrite lookup_union_r.
    - rewrite lookup_clearedObject by done. by by_type Hty.
    - apply map_lookup_filter_None. destruct Hsnap as [Hs|Hs]; [by left|right].
      intros v Hv. rewrite Hs in Hv. by simplify_eq. }
  split; [done|]. split.
  - intros before d after Hd Hname Hfirst. rewrite Hlookup, Hd, <- Hname.
    rewrite findDefault_first; [done|by rewrite Hname].
  - intros Hd. by rewrite Hlookup, Hd.
Qed.

Lemma elem_of_trace_forEach {A} (l : list A) (body : A -> M unit) e :
  e ∈ trace (forEach l body) -> exists x, x ∈ l /\ e ∈ trace (body x).
Proof.
  induction l as [|x l IH]; simpl; [by intros ?%elem_of_nil|].
  rewrite trace_bind_cases, elem_of_app. intros [He|He].
  - exists x. split; [apply list_elem_of_here|done].
  - destruct (result (body x)); [|by apply elem_of_nil in He].
    destruct (IH He) as (y & Hy & Hey). exists y. split; [by right|done].
Qed.

Lemma getInitialData_labels props now toISOString metadata snapshot e :
  e ∈ trace (getInitialData props now toISOString metadata snapshot) ->
  exists name table nameField value, e = GetLookupLabel name table nameField value.
Proof.
  intros He.
  destruct metadata as [md|]; [|by apply elem_of_nil in He].
  assert (e ∈ trace (lookupLabels props md)) as Hl.
  { rewrite <- (getClearedValues_trace props now toISOString md).
    destruct snapshot; simpl in He; [|by apply elem_of_nil in He|];
      rewrite (trace_bind _ _ _ (getClearedValues_resolved _ _ _ _)) in He;
      simpl in He; by rewrite app_nil_r in He. }
  apply elem_of_trace_forEach in Hl as (field & _ & Hl).
  destruct (isLookup field); [|by apply elem_of_nil in Hl].
  destruct (Props.defaults props) as [defaults|]; [|by apply elem_of_nil in Hl].
  apply elem_of_trace_forEach in Hl as (d & _ & Hl).
  destruct (String.eqb _ _); [|by apply elem_of_nil in Hl].
  apply list_elem_of_singleton in Hl. by eexists _, _, _, _.
Qed.

(** X5. All that a synthesis of the buffer does to the outside is to ask
    the lookup collaborator for labels, and only for a lookup field of the
    schema and an entry of the caller defaults that names it, with the value
    of that entry: it dispatches nothing and sends no request. *)
Theorem synthesis_only_fetches_default_labels props now toISOString metadata snapshot e :
  e ∈ trace (getInitialData props now toISOString metadata snapshot) ->
  exists md field defaults d,
    metadata = Some md
    /\ field ∈ Metadata.fields md
    /\ Field.type field = "Lookup"
    /\ Props.defaults props = Some defaults
    /\ d ∈ defaults
    /\ FieldValue.field d = Field.name field
    /\ e = GetLookupLabel (Field.name field) (Field.lookupTable field)
             (Field.lookupTableNameField field) (FieldValue.value d).
Proof.
  intros He.
  destruct metadata as [md|]; [|by apply elem_of_nil in He].
  assert (e ∈ trace (lookupLabels props md)) as Hl.
  { rewrite <- (getClearedValues_trace props now toISOString md).
    destruct snapshot; simpl in He; [|by apply elem_of_nil in He|];
      rewrite (trace_bind _ _ _ (getClearedValues_resolved _ _ _ _)) in He;
      simpl in He; by rewrite app_nil_r in He. }
  apply elem_of_trace_forEach in Hl as (field & Hfield & Hl).
  destruct (isLookup field) eqn:Hty; [|by apply elem_of_nil in Hl].
  destruct (Props.defaults props) as [defaults|] eqn:Hd; [|by apply elem_of_nil in Hl].
  apply elem_of_trace_forEach in Hl as (d & Hin & Hl).
  destruct (String.eqb _ _) eqn:Hname; [|by apply elem_of_nil in Hl].
  apply list_elem_of_singleton in Hl.
  exists md, field, defaults, d. repeat split; try done.
  - by apply String.eqb_eq in Hty.
  - by apply String.eqb_eq in Hname.
Qed.

(** ** Validation *)

Lemma fieldMessages_field requiredFields guid_validate field v m :
  m ∈ fieldMessages requiredFields guid_validate field v ->
  ValidationMessage.field m = Field.name field /\ Field.name field ∉ auditFields.
Proof.
  unfold fieldMessages, includes, auditFields.
  case_bool_decide as Haudit; [by intros ?%elem_of_nil|].
  rewrite !elem_of_app. intros Hm. split; [|done].
  destruct Hm as [Hm|[Hm|[Hm|Hm]]];
    match type of Hm with
    | _ ∈ (if ?b then _ else _) => destruct b
    end;
    first [by apply elem_of_nil in Hm | by apply list_elem_of_singleton in Hm as ->].
Qed.

Lemma validateFields_messages state requiredFields guid_validate fields acc messages m :
  validateFields state requiredFields guid_validate fields acc = ret messages ->
  m ∈ messages ->
  m ∈ acc
  \/ exists field data,
       field ∈ fields /\ State.data state = Some data
       /\ m ∈ fieldMessages requiredFields guid_validate field (get data (Field.name field)).
Proof.
  revert acc. induction fields as [|field fields IH]; intros acc; simpl.
  - intros [= <-]. by left.
  - destruct (State.data state) as [data|] eqn:Hdata; [|done].
    intros Hrun Hm. destruct (IH _ Hrun Hm) as [Hacc|(f & d & Hf & Hd & Hmf)].
    + apply elem_of_app in Hacc as [Hacc|Hacc]; [by left|right].
      exists field, data. split; [apply list_elem_of_here|done].
    + right. exists f, d. split; [by right|done].
Qed.

(** X6. The messages a validation publishes all name a field of the
    schema, and never one of the audit fields CreatedById and UpdatedById,
    whatever those fields hold and however they are marked. *)
Theorem validation_messages_name_checked_fields state requiredFields guid_validate
    messages m :
  Dispatch (SET_VALIDATION_MESSAGES messages)
    ∈ trace (onValidate state requiredFields guid_validate) ->
  m ∈ messages ->
  exists md field,
    State.metadata state = Some md
    /\ field ∈ Metadata.fields md
    /\ ValidationMessage.field m = Field.name field
    /\ Field.name field ∉ auditFields.
Proof.
  intros Hd Hm.
  destruct (onValidate_cases state requiredFields guid_validate)
    as [(ms & _ & Hrun & Hv)|[[_ Hv]|[e Hv]]]; rewrite Hv in Hd;
    [|by apply elem_of_nil in Hd..].
  apply list_elem_of_singleton in Hd. simplify_eq.
  destruct (validateFields_messages _ _ _ _ _ _ _ Hrun Hm)
    as [Hnil|(field & data & Hf & _ & Hmf)]; [by apply elem_of_nil in Hnil|].
  destruct (State.metadata state) as [md|]; [|by apply elem_of_nil in Hf].
  exists md, field. split; [done|]. split; [done|].
  by apply fieldMessages_field in Hmf.
Qed.

(** X7. A lookup or date field that is not one of the audit fields
    CreatedById and UpdatedById (which validation skips), that is required
    (by the schema or by an override) and that holds null or undefined is
    reported twice: the rule for lookups and dates and the rule for
    required fields both push the same message. *)
Theorem required_reference_reported_twice requiredFields guid_validate field v :
  Field.type field = "Lookup" \/ Field.type field = "DateTime" ->
  required requiredFields field = true ->
  is_nullish v = true ->
  Field.name field ∉ auditFields ->
  fieldMessages requiredFields guid_validate field v
  = [isRequiredMessage field; isRequiredMessage field].
Proof.
  intros Hty Hreq Hnull Haudit. unfold fieldMessages, includes.
  rewrite bool_decide_eq_false_2 by done.
  rewrite Hreq, Hnull, orb_true_r.
  destruct Hty as [Hty|Hty]; by_type Hty; reflexivity.
Qed.

Lemma includes_addRequiredField requiredFields x name :
  includes (addRequiredField requiredFields x) name
  = includes requiredFields name || String.eqb name x.
Proof.
  unfold addRequiredField, includes. apply eq_true_iff_eq.
  rewrite orb_true_iff, String.eqb_eq, !bool_decide_eq_true.
  destruct (bool_decide (x ∈ requiredFields)) eqn:Hx.
  - apply bool_decide_eq_true in Hx. split; [by left|]. by intros [H| ->].
  - by rewrite elem_of_app, list_elem_of_singleton.
Qed.

Lemma includes_removeRequiredField requiredFields x name :
  includes (removeRequiredField requiredFields x) name
  = includes requiredFields name && negb (String.eqb name x).
Proof.
  unfold removeRequiredField, includes. apply eq_true_iff_eq.
  rewrite bool_decide_eq_true, andb_true_iff, bool_decide_eq_true, negb_true_iff,
    String.eqb_neq, !list_elem_of_In, filter_In, negb_true_iff, String.eqb_neq.
  done.
Qed.

(** X8. Marking a field required by override makes validation report it
    when it holds null, undefined or the empty string (unless it is an audit
    field); removing the override takes the report back for a field that
    the schema does not require and that is not a lookup or date that the
    schema makes non-nullable. *)
Theorem required_override_round_trip requiredFields guid_validate field v :
  Field.name field ∉ auditFields ->
  is_nullish v = true \/ v = Str "" ->
  isRequiredMessage field
    ∈ fieldMessages (addRequiredField requiredFields (Field.name field))
        guid_validate field v
  /\ (Field.isRequired field = false ->
      Field.isNullable field = true
      \/ (Field.type field ≠ "Lookup" /\ Field.type field ≠ "DateTime") ->
      isRequiredMessage field
        ∉ fieldMessages
            (removeRequiredField
               (addRequiredField requiredFields (Field.name field)) (Field.name field))
            guid_validate field v).
Proof.
  intros Haudit Hv. split.
  - unfold fieldMessages, includes at 1.
    rewrite bool_decide_eq_false_2 by done.
    assert (required (addRequiredField requiredFields (Field.name field)) field = true)
      as ->.
    { unfold required. by rewrite includes_addRequiredField, String.eqb_refl, !orb_true_r. }
    assert ((is_nullish v || isStr "" v) = true) as ->.
    { destruct Hv as [->| ->]; [done|apply orb_true_r]. }
    rewrite !elem_of_app. right; right; left. apply list_elem_of_here.
  - intros Hschema Hkind.
    assert (required (removeRequiredField
                        (addRequiredField requiredFields (Field.name field))
                        (Field.name field)) field = false) as Hreq.
    { unfold required.
      by rewrite Hschema, includes_removeRequiredField, String.eqb_refl, andb_false_r. }
    unfold fieldMessages, includes at 1.
    rewrite bool_decide_eq_false_2 by done. rewrite Hreq.
    rewrite !elem_of_app. intros [Hm|[Hm|[Hm|Hm]]].
    + assert ((isStr "-" v || isStr "." v) = false) as Hs
        by (by destruct Hv as [Hv| ->]; [destruct v|]).
      rewrite Hs, andb_false_r in Hm. by apply elem_of_nil in Hm.
    + rewrite orb_false_r in Hm.
      destruct Hkind as [Hn|[Hl Hd]].
      * rewrite Hn in Hm. simpl in Hm. rewrite andb_false_r in Hm.
        by apply elem_of_nil in Hm.
      * apply String.eqb_neq in Hl, Hd. unfold isLookup, isDateTime in Hm.
        rewrite Hl, Hd in Hm. by apply elem_of_nil in Hm.
    + by apply elem_of_nil in Hm.
    + destruct (_ && _); [|by apply elem_of_nil in Hm].
      apply list_elem_of_singleton in Hm. injection Hm as Hm.
      by apply String.app_inj in Hm.
Qed.

(** ** Save *)

Lemma reloadDataTables_eq childDataTables :
  reloadDataTables childDataTables = (refreshes childDataTables, Resolved tt).
Proof.
  unfold reloadDataTables, refreshes.
  induction childDataTables as [|d l IH]; simpl; [done|].
  rewrite IH. unfold emit. by rewrite bind_pair.
Qed.

Lemma postSaveListeners_ret i (events : list FBEvent.t) (args : list any) :
  forEach (zip (seq i (length events)) events) (fun ie =>
    if String.eqb (FBEvent.eventName ie.2) "POST_SAVE"
    then let* a := ret args in emit (Call (Listener ie.1) a)
    else ret tt)
  = (postSaveListenerCalls i events args, Resolved tt).
Proof.
  revert i. induction events as [|e events IH]; intros i; simpl; [done|].
  rewrite IH. destruct (String.eqb _ _); simpl.
  - unfold emit. by rewrite bind_ret, bind_pair.
  - by rewrite bind_ret.
Qed.

Lemma notify_ret props eventListeners postSaveEvent (args : list any) :
  notify props eventListeners postSaveEvent (ret args)
  = (postSaveCalls props eventListeners postSaveEvent args, Resolved tt).
Proof.
  unfold notify, postSaveCalls, indexed.
  rewrite postSaveListeners_ret.
  assert ((if Props.onPostSave props
           then let* a := ret args in emit (Call OnPostSave a)
           else ret tt)
          = (if Props.onPostSave props then [Call OnPostSave args] else [],
             Resolved tt)) as ->
    by (destruct (Props.onPostSave props); by rewrite ?bind_ret).
  assert ((if postSaveEvent
           then let* a := ret args in emit (Call PostSaveHook a)
           else ret tt)
          = (if postSaveEvent then [Call PostSaveHook args] else [], Resolved tt)) as ->
    by (destruct postSaveEvent; by rewrite ?bind_ret).
  by rewrite !bind_pair.
Qed.

Lemma postSaveListeners_throw i (events : list FBEvent.t) e :
  forEach (zip (seq i (length events)) events) (fun ie =>
    if String.eqb (FBEvent.eventName ie.2) "POST_SAVE"
    then let* a := throw e in emit (Call (Listener ie.1) a)
    else ret tt)
  = ([], if existsb (fun ev => String.eqb (FBEvent.eventName ev) "POST_SAVE") events
         then Rejected e else Resolved tt).
Proof.
  revert i. induction events as [|ev events IH]; intros i; simpl; [done|].
  destruct (String.eqb _ _); simpl; [done|].
  by rewrite bind_ret, IH.
Qed.

(** With arguments that cannot be evaluated, the first channel that is
    there rejects before it is called. *)
Lemma notify_throw props eventListeners postSaveEvent e :
  notify props eventListeners postSaveEvent (throw e)
  = ([], if hasPostSaveChannel props eventListeners postSaveEvent
         then Rejected e else Resolved tt).
Proof.
  unfold notify, hasPostSaveChannel, indexed.
  destruct (Props.onPostSave props); simpl; [done|].
  rewrite bind_ret, postSaveListeners_throw.
  destruct (existsb _ _); simpl; [done|].
  rewrite bind_pair. by destruct postSaveEvent.
Qed.

Lemma runHook_continue who hook sd p :
  hookContinues hook sd ->
  runHook who hook sd p
  = (hookCall who hook sd, Resolved (Some (spread p (hookParameters hook sd)))).
Proof.
  intros Hc. rewrite runHook_eq. destruct hook as [h|]; simpl in *.
  - by rewrite Hc.
  - unfold spread. by rewrite map_empty_union.
Qed.

Lemma preSaveCalls_dispatched_nil i events sd p :
  omap (fun e => match e with Dispatch a => Some a | _ => None end)
       (preSaveCalls i events sd p) = [].
Proof. apply dispatched_preSaveCalls. Qed.

Section SaveRuns.

Variable props : Props.t.
Variable state : State.t.
Variable childDataTables : list DataTableRef.t.
Variable eventListeners : list FBEvent.t.
Variable requiredFields : list string.
Variable authRequest : AuthRequest.t.
Variable guid_validate : any -> bool.
Variable API_DATA_CREATE API_DATA_UPDATE : string.

Local Abbreviation save :=
  (onSave props state childDataTables eventListeners requiredFields authRequest
     guid_validate API_DATA_CREATE API_DATA_UPDATE).
Local Abbreviation validate := (onValidate state requiredFields guid_validate).
Local Abbreviation submissionData := (default (∅ : obj) (State.data state)).
Local Abbreviation request preValidate preSaveEvent :=
  (persistRequest state API_DATA_CREATE API_DATA_UPDATE (Some submissionData)
     (Some (parameterBag props preValidate preSaveEvent submissionData))).

Lemma validate_true : result validate = Resolved true -> validate = ret true.
Proof.
  intros Hv.
  destruct (onValidate_cases state requiredFields guid_validate)
    as [(m & _ & _ & Hr)|[[_ Hr]|[e Hr]]]; rewrite Hr in Hv; by simplify_eq.
Qed.

(** The save up to the request, when nothing stops it. *)
Lemma onSave_persists (preValidate preSaveEvent : option PreSaveEvent)
    (postSaveEvent : bool) :
  hookContinues preValidate submissionData ->
  result validate = Resolved true ->
  hookContinues (Props.onPreSave props) submissionData ->
  listenersPass props eventListeners preValidate submissionData ->
  hookContinues preSaveEvent submissionData ->
  let resp := AuthRequest.execute authRequest (request preValidate preSaveEvent) in
  let rest :=
    do match resp with
       | Some (ExecuteResponse.mk true data) =>
           notify props eventListeners postSaveEvent
             (let* id := member data (Props.tableName props +:+ "Id") in
              ret [Str (savedOperation state); id; data])
       | _ => notify props eventListeners postSaveEvent
                (ret [Str "FAILED"; Str ""; Obj ∅])
       end in
    do dispatch SUBMIT_COMPLETE in
    reloadDataTables childDataTables in
  save preValidate preSaveEvent postSaveEvent
  = (hookCall PreValidateHook preValidate submissionData
       ++ [Dispatch SET_IS_LOADING]
       ++ hookCall OnPreSave (Props.onPreSave props) submissionData
       ++ preSaveCalls 0 eventListeners submissionData
            (listenerBag props preValidate submissionData)
       ++ hookCall PreSaveHook preSaveEvent submissionData
       ++ [Execute (request preValidate preSaveEvent)]
       ++ trace rest,
     result rest).
Proof.
  intros H0 Hv H1 Hl H2 resp rest. unfold onSave.
  rewrite (runHook_continue _ _ _ _ H0), bind_pair. cbv beta iota.
  rewrite (validate_true Hv), bind_ret. cbv beta iota. simpl negb. cbv iota.
  rewrite (bind_resolved (dispatch SET_IS_LOADING) _ tt eq_refl).
  rewrite (runHook_continue _ _ _ _ H1), bind_pair. cbv beta iota.
  rewrite (preSaveListeners_pass 0 eventListeners) by exact Hl.
  rewrite bind_pair. cbv beta iota. simpl negb. cbv iota.
  rewrite (runHook_continue _ _ _ _ H2), bind_pair. cbv beta iota.
  rewrite (bind_resolved (emit (Execute _)) _ tt eq_refl).
  repeat first [ progress change (trace (?t, _)) with t
               | progress change (result (_, ?r)) with r ].
  unfold rest, resp, parameterBag, listenerBag.
  reflexivity.
Qed.

Lemma postSaveCalls_no_channel (postSaveEvent : bool) args :
  hasPostSaveChannel props eventListeners postSaveEvent = false ->
  postSaveCalls props eventListeners postSaveEvent args = [].
Proof.
  unfold hasPostSaveChannel, postSaveCalls.
  intros [[-> Hl]%orb_false_elim ->]%orb_false_elim. simpl.
  rewrite app_nil_r. generalize 0.
  induction eventListeners as [|e l IH]; intros i; simpl in *; [done|].
  apply orb_false_elim in Hl as [-> Hl]. by apply IH.
Qed.

(** The notification after the request, when the response can be read or
    no channel is there. *)
Lemma notification_eq (postSaveEvent : bool) (resp : option ExecuteResponse.t) :
  readableResponse resp = true
  \/ hasPostSaveChannel props eventListeners postSaveEvent = false ->
  match resp with
  | Some (ExecuteResponse.mk true data) =>
      notify props eventListeners postSaveEvent
        (let* id := member data (Props.tableName props +:+ "Id") in
         ret [Str (savedOperation state); id; data])
  | _ => notify props eventListeners postSaveEvent (ret [Str "FAILED"; Str ""; Obj ∅])
  end
  = (postSaveCalls props eventListeners postSaveEvent (postSaveArgs props state resp),
     Resolved tt).
Proof.
  intros Hok. destruct resp as [[[|] data]|]; simpl; try apply notify_ret.
  destruct (is_nullish data) eqn:Hnull.
  - destruct Hok as [Hok|Hnone]; [simpl in Hok; by rewrite Hnull in Hok|].
    assert ((let* id := member data (Props.tableName props +:+ "Id") in
             ret [Str (savedOperation state); id; data])
            = throw "TypeError") as -> by (by destruct data).
    by rewrite notify_throw, Hnone, postSaveCalls_no_channel.
  - assert ((let* id := member data (Props.tableName props +:+ "Id") in
             ret [Str (savedOperation state); id; data])
            = ret [Str (savedOperation state);
                   match data with
                   | Obj o => get o (Props.tableName props +:+ "Id")
                   | _ => Undefined
                   end; data]) as ->
      by (destruct data; try done; by rewrite bind_ret).
    apply notify_ret.
Qed.

(** X9. A save that nothing stops (every hook that is given answers
    continue, validation passes, no [PRE_SAVE] listener returns false),
    and whose response either is one the identifier can be read off (no
    response, a failed one, or a succeeded one whose data is not null or
    undefined) or meets no channel of the post-save notification, resolves
    and runs in this order: the pre-validate hook, the transition to
    submitting, the hook of the instance, the [PRE_SAVE] listeners in the order of registration with the parameters of
    the two hooks before them, the hook of the call, the one request, the
    three channels of the post-save notification (the hook of the instance,
    the [POST_SAVE] listeners in order, the hook of the call) with the
    operation, the identifier and the data of the response, or with FAILED,
    an empty identifier and an empty record when the request failed, then
    the completion and the refresh of every dependent view in the order of
    the registry.  A failed request does not make the save fail.  (A
    succeeded response with null or undefined data that meets a channel
    makes it reject: X10.) *)
Theorem save_runs_to_completion (preValidate preSaveEvent : option PreSaveEvent)
    (postSaveEvent : bool) :
  hookContinues preValidate submissionData ->
  result validate = Resolved true ->
  hookContinues (Props.onPreSave props) submissionData ->
  listenersPass props eventListeners preValidate submissionData ->
  hookContinues preSaveEvent submissionData ->
  let resp := AuthRequest.execute authRequest (request preValidate preSaveEvent) in
  readableResponse resp = true
  \/ hasPostSaveChannel props eventListeners postSaveEvent = false ->
  save preValidate preSaveEvent postSaveEvent
  = (hookCall PreValidateHook preValidate submissionData
       ++ [Dispatch SET_IS_LOADING]
       ++ hookCall OnPreSave (Props.onPreSave props) submissionData
       ++ preSaveCalls 0 eventListeners submissionData
            (listenerBag props preValidate submissionData)
       ++ hookCall PreSaveHook preSaveEvent submissionData
       ++ [Execute (request preValidate preSaveEvent)]
       ++ postSaveCalls props eventListeners postSaveEvent (postSaveArgs props state resp)
       ++ [Dispatch SUBMIT_COMPLETE]
       ++ refreshes childDataTables,
     Resolved tt).
Proof.
  intros H0 Hv H1 Hl H2 resp Hok.
  rewrite (onSave_persists preValidate preSaveEvent postSaveEvent H0 Hv H1 Hl H2).
  fold resp. rewrite (notification_eq postSaveEvent resp Hok).
  rewrite bind_pair, (bind_resolved (dispatch SUBMIT_COMPLETE) _ tt eq_refl).
  rewrite reloadDataTables_eq.
  repeat first [ progress change (trace (?t, _)) with t
               | progress change (result (_, ?r)) with r ].
  reflexivity.
Qed.

(** X10. A save whose response says succeeded but carries null or
    undefined data rejects with a TypeError as soon as a channel of the
    post-save notification is there: the identifier cannot be read off the
    data.  The request is the last thing the save does; the completion is
    never dispatched, no view is refreshed, and the container stays
    submitting. *)
Theorem save_rejects_on_unreadable_response (preValidate preSaveEvent : option PreSaveEvent)
    (postSaveEvent : bool) data :
  hookContinues preValidate submissionData ->
  result validate = Resolved true ->
  hookContinues (Props.onPreSave props) submissionData ->
  listenersPass props eventListeners preValidate submissionData ->
  hookContinues preSaveEvent submissionData ->
  AuthRequest.execute authRequest (request preValidate preSaveEvent)
  = Some (ExecuteResponse.mk true data) ->
  is_nullish data = true ->
  hasPostSaveChannel props eventListeners postSaveEvent = true ->
  save preValidate preSaveEvent postSaveEvent
  = (hookCall PreValidateHook preValidate submissionData
       ++ [Dispatch SET_IS_LOADING]
       ++ hookCall OnPreSave (Props.onPreSave props) submissionData
       ++ preSaveCalls 0 eventListeners submissionData
            (listenerBag props preValidate submissionData)
       ++ hookCall PreSaveHook preSaveEvent submissionData
       ++ [Execute (request preValidate preSaveEvent)],
     Rejected "TypeError")
  /\ dispatched (trace (save preValidate preSaveEvent postSaveEvent)) = [SET_IS_LOADING]
  /\ State.phase (reduce state (trace (save preValidate preSaveEvent postSaveEvent)))
     = Phase.SUBMITTING.
Proof.
  intros H0 Hv H1 Hl H2 Hresp Hnull Hchannel.
  assert (save preValidate preSaveEvent postSaveEvent
          = (hookCall PreValidateHook preValidate submissionData
               ++ [Dispatch SET_IS_LOADING]
               ++ hookCall OnPreSave (Props.onPreSave props) submissionData
               ++ preSaveCalls 0 eventListeners submissionData
                    (listenerBag props preValidate submissionData)
               ++ hookCall PreSaveHook preSaveEvent submissionData
               ++ [Execute (request preValidate preSaveEvent)],
             Rejected "TypeError")) as Hrun.
  { rewrite (onSave_persists preValidate preSaveEvent postSaveEvent H0 Hv H1 Hl H2).
    rewrite Hresp.
    assert ((let* id := member data (Props.tableName props +:+ "Id") in
             ret [Str (savedOperation state); id; data])
            = throw "TypeError") as -> by (by destruct data).
    rewrite notify_throw, Hchannel. unfold bind.
    repeat first [ progress change (trace (?t, _)) with t
                 | progress change (result (_, ?r)) with r ].
    by rewrite app_nil_r. }
  rewrite Hrun. split; [done|].
  change (trace (?t, _)) with t.
  assert (dispatched
            (hookCall PreValidateHook preValidate submissionData
               ++ [Dispatch SET_IS_LOADING]
               ++ hookCall OnPreSave (Props.onPreSave props) submissionData
               ++ preSaveCalls 0 eventListeners submissionData
                    (listenerBag props preValidate submissionData)
               ++ hookCall PreSaveHook preSaveEvent submissionData
               ++ [Execute (request preValidate preSaveEvent)])
          = [SET_IS_LOADING]) as Hd.
  { rewrite !dispatched_app, dispatched_preSaveCalls.
    by destruct preValidate, (Props.onPreSave props), preSaveEvent. }
  split; [done|]. unfold reduce. by rewrite Hd.
Qed.

(** X11. A save whose validation fails ends there: after the pre-validate
    hook it dispatches the messages and nothing else, without entering the
    submitting phase, calling a hook or listener, or sending a request. *)
Theorem save_stops_at_failed_validation (preValidate preSaveEvent : option PreSaveEvent)
    (postSaveEvent : bool) :
  hookContinues preValidate submissionData ->
  result validate = Resolved false ->
  exists messages,
    messages ≠ []
    /\ save preValidate preSaveEvent postSaveEvent
       = (hookCall PreValidateHook preValidate submissionData
            ++ [Dispatch (SET_VALIDATION_MESSAGES messages)],
          Resolved tt).
Proof.
  intros H0 Hv.
  destruct (onValidate_cases state requiredFields guid_validate)
    as [(m & Hm & _ & Hr)|[[_ Hr]|[e Hr]]]; rewrite Hr in Hv; simplify_eq.
  exists m. split; [done|]. unfold onSave.
  rewrite (runHook_continue _ _ _ _ H0), bind_pair. cbv beta iota.
  rewrite Hr, bind_pair. done.
Qed.

(** X12. When the pre-save hook of the instance answers continue false,
    the save is cancelled before any listener is called: it has entered the
    submitting phase, called that hook and dispatched the cancellation. *)
Theorem instance_hook_cancels_before_listeners
    (preValidate preSaveEvent : option PreSaveEvent) (postSaveEvent : bool)
    (onPreSave : PreSaveEvent) :
  hookContinues preValidate submissionData ->
  result validate = Resolved true ->
  Props.onPreSave props = Some onPreSave ->
  SaveEventResponse.continue (onPreSave submissionData) = false ->
  save preValidate preSaveEvent postSaveEvent
  = (hookCall PreValidateHook preValidate submissionData
       ++ [Dispatch SET_IS_LOADING;
           Call OnPreSave [Obj submissionData];
           Dispatch SUBMIT_CANCELLED],
     Resolved tt).
Proof.
  intros H0 Hv Hhook Hstop. unfold onSave.
  rewrite (runHook_continue _ _ _ _ H0), bind_pair. cbv beta iota.
  rewrite (validate_true Hv), bind_ret. cbv beta iota. simpl negb. cbv iota.
  rewrite (bind_resolved (dispatch SET_IS_LOADING) _ tt eq_refl).
  rewrite Hhook, runHook_eq, Hstop, bind_pair. done.
Qed.

(** X13. When the pre-save hook of the call answers continue false, the
    save is cancelled after every [PRE_SAVE] listener has been called and
    before anything is sent. *)
Theorem call_hook_cancels_after_listeners (preValidate : option PreSaveEvent)
    (preSaveEvent : PreSaveEvent) (postSaveEvent : bool) :
  hookContinues preValidate submissionData ->
  result validate = Resolved true ->
  hookContinues (Props.onPreSave props) submissionData ->
  listenersPass props eventListeners preValidate submissionData ->
  SaveEventResponse.continue (preSaveEvent submissionData) = false ->
  save preValidate (Some preSaveEvent) postSaveEvent
  = (hookCall PreValidateHook preValidate submissionData
       ++ [Dispatch SET_IS_LOADING]
       ++ hookCall OnPreSave (Props.onPreSave props) submissionData
       ++ preSaveCalls 0 eventListeners submissionData
            (listenerBag props preValidate submissionData)
       ++ [Call PreSaveHook [Obj submissionData]; Dispatch SUBMIT_CANCELLED],
     Resolved tt).
Proof.
  intros H0 Hv H1 Hl Hstop. unfold onSave.
  rewrite (runHook_continue _ _ _ _ H0), bind_pair. cbv beta iota.
  rewrite (validate_true Hv), bind_ret. cbv beta iota. simpl negb. cbv iota.
  rewrite (bind_resolved (dispatch SET_IS_LOADING) _ tt eq_refl).
  rewrite (runHook_continue _ _ _ _ H1), bind_pair. cbv beta iota.
  rewrite (preSaveListeners_pass 0 eventListeners) by exact Hl.
  rewrite bind_pair. cbv beta iota. simpl negb. cbv iota.
  rewrite runHook_eq, Hstop, bind_pair.
  repeat first [ progress change (trace (?t, _)) with t
               | progress change (result (_, ?r)) with r ].
  reflexivity.
Qed.

End SaveRuns.

Lemma result_bind_cases {A B} (m : M A) (k : A -> M B) :
  result (bind m k)
  = match result m with
    | Resolved a => result (k a)
    | Rejected e => Rejected e
    end.
Proof. destruct m as [t [a|e]]; unfold bind; simpl; [by destruct (k a)|done]. Qed.

Lemma dispatched_notify props eventListeners postSaveEvent (args : M (list any)) :
  trace args = [] ->
  dispatched (trace (notify props eventListeners postSaveEvent args)) = [].
Proof.
  intros Hargs.
  assert (forall c, dispatched (trace (let* a := args in emit (Call c a))) = []) as Hcall.
  { intros c. rewrite trace_bind_cases, Hargs; simpl. by destruct (result args). }
  unfold notify. rewrite !trace_bind_cases, !dispatched_app.
  assert (dispatched (trace (if Props.onPostSave props
                             then let* a := args in emit (Call OnPostSave a)
                             else ret tt)) = []) as ->
    by (by destruct (Props.onPostSave props)).
  simpl. destruct (result (if Props.onPostSave props then _ else _)); [|done].
  rewrite dispatched_app.
  rewrite dispatched_forEach; simpl.
  2: { intros ie. destruct (String.eqb _ _); [apply Hcall|done]. }
  destruct (result (forEach _ _)); [|done].
  destruct postSaveEvent; [apply Hcall|done].
Qed.

Lemma preSaveListeners_dispatched i events sd p :
  (result (preSaveListeners i events sd p) = Resolved true
   /\ dispatched (trace (preSaveListeners i events sd p)) = [])
  \/ (result (preSaveListeners i events sd p) = Resolved false
      /\ dispatched (trace (preSaveListeners i events sd p)) = [SUBMIT_CANCELLED]).
Proof.
  revert i. induction events as [|e events IH]; intros i; simpl; [by left|].
  destruct (String.eqb _ _); [|apply IH].
  rewrite (bind_resolved (emit _) _ tt eq_refl).
  change (trace (?t, _)) with t. change (result (_, ?r)) with r.
  destruct (isFalse _); [by right|].
  rewrite dispatched_app. apply IH.
Qed.

(** X14. Whatever the hooks, the listeners, the validation and the data
    service do, a save dispatches one of five sequences: nothing; the
    validation messages; submitting then cancelled; submitting then
    complete; or submitting alone, and then it has rejected. *)
Theorem save_dispatch_shapes props state childDataTables eventListeners requiredFields
    authRequest guid_validate API_DATA_CREATE API_DATA_UPDATE
    (preValidate preSaveEvent : option PreSaveEvent) (postSaveEvent : bool) :
  let run :=
    onSave props state childDataTables eventListeners requiredFields authRequest
      guid_validate API_DATA_CREATE API_DATA_UPDATE preValidate preSaveEvent
      postSaveEvent in
  dispatched (trace run) = []
  \/ (exists messages, dispatched (trace run) = [SET_VALIDATION_MESSAGES messages])
  \/ dispatched (trace run) = [SET_IS_LOADING; SUBMIT_CANCELLED]
  \/ dispatched (trace run) = [SET_IS_LOADING; SUBMIT_COMPLETE]
  \/ (dispatched (trace run) = [SET_IS_LOADING]
      /\ exists e, result run = Rejected e).
Proof.
  intros run. unfold run, onSave.
  set (sd := default ∅ (State.data state)).
  rewrite trace_bind_cases, dispatched_app, dispatched_runHook, result_bind_cases.
  destruct (result (runHook PreValidateHook _ _ _)) as [[bag0|]|] eqn:H0;
    [|by left..].
  rewrite trace_bind_cases, dispatched_app, result_bind_cases.
  destruct (onValidate_cases state requiredFields guid_validate)
    as [(m & _ & _ & ->)|[[_ ->]|[e ->]]];
    [right; left; by exists m| |by left].
  change (result ([], Resolved true)) with (Resolved true).
  change (trace ([], Resolved true)) with (@nil Event).
  cbv beta iota. simpl negb. cbv iota.
  rewrite (bind_resolved (dispatch SET_IS_LOADING) _ tt eq_refl).
  change (trace (?t, _)) with t. change (result (_, ?r)) with r.
  rewrite trace_bind_cases, result_bind_cases, !dispatched_app, dispatched_runHook.
  destruct (result (runHook OnPreSave _ _ _)) as [[bag1|]|] eqn:H1.
  2: { right; right; left. done. }
  2: { rewrite runHook_eq in H1. done. }
  rewrite trace_bind_cases, result_bind_cases, dispatched_app.
  destruct (preSaveListeners_dispatched 0 eventListeners sd bag1)
    as [[-> ->]|[-> ->]].
  2: { right; right; left. done. }
  cbv beta iota. simpl negb. cbv iota.
  rewrite trace_bind_cases, result_bind_cases, dispatched_app, dispatched_runHook.
  destruct (result (runHook PreSaveHook _ _ _)) as [[bag2|]|] eqn:H2.
  2: { right; right; left. done. }
  2: { rewrite runHook_eq in H2. done. }
  rewrite (bind_resolved (emit (Execute _)) _ tt eq_refl).
  change (trace (?t, _)) with t. change (result (_, ?r)) with r.
  rewrite trace_bind_cases, result_bind_cases, !dispatched_app.
  set (notification := match AuthRequest.execute authRequest _ with
                       | Some _ => _
                       | None => _
                       end).
  assert (dispatched (trace notification) = []) as ->.
  { unfold notification.
    destruct (AuthRequest.execute _ _) as [[[|] data]|];
      apply dispatched_notify; [|done..].
    by destruct data. }
  destruct (result notification) as [[]|e].
  - right; right; right; left.
    rewrite (bind_resolved (dispatch SUBMIT_COMPLETE) _ tt eq_refl).
    change (trace (?t, _)) with t.
    rewrite dispatched_app, dispatched_reloadDataTables. done.
  - right; right; right; right. split; [done|by exists e].
Qed.

Section SaveEdges.

Variable props : Props.t.
Variable state : State.t.
Variable childDataTables : list DataTableRef.t.
Variable eventListeners : list FBEvent.t.
Variable requiredFields : list string.
Variable authRequest : AuthRequest.t.
Variable guid_validate : any -> bool.
Variable API_DATA_CREATE API_DATA_UPDATE : string.

Local Abbreviation save :=
  (onSave props state childDataTables eventListeners requiredFields authRequest
     guid_validate API_DATA_CREATE API_DATA_UPDATE).
Local Abbreviation validate := (onValidate state requiredFields guid_validate).
Local Abbreviation submissionData := (default (∅ : obj) (State.data state)).

(** X15. Before the schema is known validation passes whatever the buffer
    holds, and a save that the hooks and listeners let through sends its
    request without a table name. *)
Theorem save_before_schema_is_not_validated
    (preValidate preSaveEvent : option PreSaveEvent) (postSaveEvent : bool) :
  State.metadata state = None ->
  hookContinues preValidate submissionData ->
  hookContinues (Props.onPreSave props) submissionData ->
  listenersPass props eventListeners preValidate submissionData ->
  hookContinues preSaveEvent submissionData ->
  validate = ([], Resolved true)
  /\ exists request,
       Execute request ∈ trace (save preValidate preSaveEvent postSaveEvent)
       /\ ExecuteRequest.tableName request = None
       /\ ExecuteRequest.fields request = Some submissionData.
Proof.
  intros Hmd H0 H1 Hl H2.
  assert (validate = ([], Resolved true)) as Hv
    by (unfold onValidate; by rewrite Hmd).
  split; [done|].
  eexists. split.
  - rewrite (onSave_persists props state childDataTables eventListeners requiredFields
               authRequest guid_validate API_DATA_CREATE API_DATA_UPDATE
               preValidate preSaveEvent postSaveEvent H0); [|by rewrite Hv|done..].
    change (trace (?t, _)) with t.
    rewrite !elem_of_app. do 5 right. left. apply list_elem_of_here.
  - unfold persistRequest; simpl. by rewrite Hmd.
Qed.

(** X16. With the schema known (and not empty) but no edit buffer,
    validation throws a TypeError at the first field, before any message is
    published; a save rejects with it after its pre-validate hook, without
    a dispatch or a request. *)
Theorem validation_without_buffer_throws md
    (preValidate preSaveEvent : option PreSaveEvent) (postSaveEvent : bool) :
  State.metadata state = Some md ->
  Metadata.fields md ≠ [] ->
  State.data state = None ->
  validate = ([], Rejected "TypeError")
  /\ (hookContinues preValidate submissionData ->
      save preValidate preSaveEvent postSaveEvent
      = (hookCall PreValidateHook preValidate submissionData, Rejected "TypeError")).
Proof.
  intros Hmd Hfields Hdata.
  assert (validate = ([], Rejected "TypeError")) as Hv.
  { unfold onValidate. rewrite Hmd.
    destruct (Metadata.fields md) as [|f fs]; [done|].
    simpl. by rewrite Hdata. }
  split; [done|]. intros H0. unfold onSave.
  rewrite (runHook_continue _ _ _ _ H0), bind_pair. cbv beta iota.
  rewrite Hv. unfold bind; simpl. by rewrite app_nil_r.
Qed.

End SaveEdges.

(** ** What the hook reports and what a save does *)

(** X17. The operation the hook reports and the request a save sends
    disagree in two cases and in no other: when the snapshot of the state is
    null and the caller supplies none, the hook reports CREATE and the save
    sends an update; when the state has no snapshot yet and the caller
    supplies one, the hook reports UPDATE and the save sends a create. *)
Theorem reported_operation_and_request props state API_DATA_CREATE API_DATA_UPDATE
    (fields parameters : option obj) :
  let method :=
    ExecuteRequest.method
      (persistRequest state API_DATA_CREATE API_DATA_UPDATE fields parameters) in
  (operation props state = "CREATE" /\ method = "PATCH"
   <-> State.snapshot state = SNull /\ present (Props.snapshot props) = false)
  /\ (operation props state = "UPDATE" /\ method = "POST"
      <-> State.snapshot state = SUndefined /\ present (Props.snapshot props) = true)
  /\ (method = "POST" <-> savedOperation state = "CREATE").
Proof.
  unfold operation, persistRequest, savedOperation; simpl.
  destruct (State.snapshot state), (present (Props.snapshot props)); simpl;
    intuition (try discriminate; try congruence).
Qed.

(** ** Registries *)

Lemma addDataTable_ids childDataTables dataTable :
  map DataTableRef.dataTableId (addDataTable childDataTables dataTable)
  = List.filter (fun id => negb (String.eqb id (DataTableRef.dataTableId dataTable)))
      (map DataTableRef.dataTableId childDataTables)
    ++ [DataTableRef.dataTableId dataTable].
Proof.
  unfold addDataTable. rewrite map_app. f_equal.
  induction childDataTables as [|d l IH]; simpl; [done|].
  destruct (negb _); simpl; by rewrite IH.
Qed.

Lemma NoDup_filter_string (p : string -> bool) (l : list string) :
  NoDup l -> NoDup (List.filter p l).
Proof.
  induction 1 as [|x l Hx Hnd IH]; simpl; [constructor|].
  destruct (p x); [|done]. constructor; [|done].
  rewrite list_elem_of_In, filter_In, <- list_elem_of_In. tauto.
Qed.

Lemma addDataTable_NoDup childDataTables dataTable :
  NoDup (map DataTableRef.dataTableId childDataTables) ->
  NoDup (map DataTableRef.dataTableId (addDataTable childDataTables dataTable)).
Proof.
  intros Hnd. rewrite addDataTable_ids. apply NoDup_app. split; [|split].
  - by apply NoDup_filter_string.
  - intros id Hin ->%list_elem_of_singleton.
    apply list_elem_of_In, filter_In in Hin as [_ Hne].
    by rewrite String.eqb_refl in Hne.
  - apply NoDup_singleton.
Qed.

(** X18. However often and in whatever order views register, the registry
    holds each identifier once, so that a reload refreshes each registered
    view exactly once; the identifiers it holds are those registered; and a
    view that registers again moves to the end of the registry. *)
Theorem registry_holds_each_view_once (dataTables : list DataTableRef.t) :
  NoDup (map DataTableRef.dataTableId (registerAll dataTables))
  /\ (forall id, id ∈ map DataTableRef.dataTableId (registerAll dataTables)
                 <-> id ∈ map DataTableRef.dataTableId dataTables)
  /\ reloadDataTables (registerAll dataTables)
     = (map Refresh (map DataTableRef.dataTableId (registerAll dataTables)), Resolved tt)
  /\ (forall dataTable,
        List.last (map DataTableRef.dataTableId
                     (addDataTable (registerAll dataTables) dataTable)) ""
        = DataTableRef.dataTableId dataTable).
Proof.
  unfold registerAll. split; [|split; [|split]].
  - induction dataTables as [|d l IH] using rev_ind; [constructor|].
    rewrite foldl_snoc. by apply addDataTable_NoDup.
  - induction dataTables as [|d l IH] using rev_ind; [done|].
    intros id. rewrite foldl_snoc, addDataTable_ids, map_app, !elem_of_app.
    rewrite <- IH. simpl. rewrite list_elem_of_singleton.
    rewrite list_elem_of_In, filter_In, <- list_elem_of_In, negb_true_iff,
      String.eqb_neq.
    destruct (decide (id = DataTableRef.dataTableId d)); tauto.
  - rewrite reloadDataTables_eq. unfold refreshes. by rewrite map_map.
  - intros dataTable. by rewrite addDataTable_ids, last_last.
Qed.

Lemma NoDup_addRequiredField requiredFields fieldName :
  NoDup requiredFields -> NoDup (addRequiredField requiredFields fieldName).
Proof.
  intros Hnd. unfold addRequiredField, includes.
  case_bool_decide as Hin; [done|].
  apply NoDup_app. split; [done|]. split; [|apply NoDup_singleton].
  by intros x Hx ->%list_elem_of_singleton.
Qed.

(** X19. The required-field overrides behave as a set: adding a name that
    is there changes nothing, the list never holds a name twice (from a
    list that did not), removing takes the name out altogether, and adding
    then removing a name that was not there gives the list back. *)
Theorem required_overrides_are_a_set (requiredFields : list string) (fieldName : string) :
  addRequiredField (addRequiredField requiredFields fieldName) fieldName
  = addRequiredField requiredFields fieldName
  /\ (NoDup requiredFields ->
      NoDup (addRequiredField requiredFields fieldName)
      /\ NoDup (removeRequiredField requiredFields fieldName))
  /\ (fieldName ∉ removeRequiredField requiredFields fieldName)
  /\ (forall x, x ∈ addRequiredField requiredFields fieldName
                <-> x = fieldName \/ x ∈ requiredFields)
  /\ (fieldName ∉ requiredFields ->
      removeRequiredField (addRequiredField requiredFields fieldName) fieldName
      = requiredFields).
Proof.
  split; [|split; [|split; [|split]]].
  - unfold addRequiredField at 1.
    assert (includes (addRequiredField requiredFields fieldName) fieldName = true) as ->;
      [|done].
    by rewrite includes_addRequiredField, String.eqb_refl, orb_true_r.
  - intros Hnd. split; [by apply NoDup_addRequiredField|by apply NoDup_filter_string].
  - unfold removeRequiredField.
    rewrite list_elem_of_In, filter_In, String.eqb_refl. by intros [_ ?].
  - intros x.
    rewrite <- (bool_decide_eq_true (x ∈ addRequiredField requiredFields fieldName)).
    change (bool_decide (x ∈ addRequiredField requiredFields fieldName))
      with (includes (addRequiredField requiredFields fieldName) x).
    rewrite includes_addRequiredField, orb_true_iff, String.eqb_eq.
    unfold includes. rewrite bool_decide_eq_true. tauto.
  - intros Hnot. unfold addRequiredField, includes.
    rewrite bool_decide_eq_false_2 by done.
    unfold removeRequiredField. rewrite List.filter_app. simpl.
    rewrite String.eqb_refl. simpl. rewrite app_nil_r.
    induction requiredFields as [|x l IH]; simpl; [done|].
    apply not_elem_of_cons in Hnot as [Hne Hnot].
    destruct (String.eqb_spec x fieldName) as [->|_]; [done|].
    simpl. by rewrite IH.
Qed.

Lemma preSaveListeners_other_name i events eventName callback sd p :
  eventName ≠ "PRE_SAVE" ->
  preSaveListeners i (events ++ [FBEvent.mk eventName callback]) sd p
  = preSaveListeners i events sd p.
Proof.
  intros Hne%String.eqb_neq. revert i.
  induction events as [|e events IH]; intros i; simpl.
  - by rewrite Hne.
  - rewrite IH. done.
Qed.

Lemma preSaveListeners_app i before after sd p :
  (forall e, e ∈ before -> FBEvent.eventName e = "PRE_SAVE" ->
             FBEvent.callback e [Obj sd; Obj p] ≠ Bool false) ->
  preSaveListeners i (before ++ after) sd p
  = (preSaveCalls i before sd p
       ++ trace (preSaveListeners (i + length before) after sd p),
     result (preSaveListeners (i + length before) after sd p)).
Proof.
  revert i. induction before as [|e before IH]; intros i Hpass; simpl.
  - rewrite Nat.add_0_r. by destruct (preSaveListeners i after sd p).
  - assert (preSaveListeners (S i) (before ++ after) sd p
            = (preSaveCalls (S i) before sd p
                 ++ trace (preSaveListeners (i + S (length before)) after sd p),
               result (preSaveListeners (i + S (length before)) after sd p))) as Hrest.
    { rewrite IH, Nat.add_succ_comm; [done|].
      intros e' He'. apply Hpass. by right. }
    destruct (String.eqb _ _) eqn:Hn; [|done].
    assert (isFalse (FBEvent.callback e [Obj sd; Obj p]) = false) as ->.
    { apply String.eqb_eq in Hn.
      pose proof (Hpass e (list_elem_of_here _ _) Hn) as Hne.
      destruct (FBEvent.callback e _) as [| |[|]| | |]; done. }
    rewrite Hrest. unfold emit. by rewrite bind_pair.
Qed.

(** X20. Registration is append-only: a [PRE_SAVE] listener registered
    with [on] is called after all those registered before it, at the
    position it was given, and cancels the save when it returns false; the
    calls of the earlier listeners are as they were.  A listener registered
    under another name is never called by the loop before the save. *)
Theorem listener_registered_last_is_called_last (eventListeners : list FBEvent.t)
    (eventName : string) (callback : list any -> any) (sd p : obj) :
  (eventName ≠ "PRE_SAVE" ->
   preSaveListeners 0 (on eventListeners eventName callback) sd p
   = preSaveListeners 0 eventListeners sd p)
  /\ ((forall e, e ∈ eventListeners -> FBEvent.eventName e = "PRE_SAVE" ->
                 FBEvent.callback e [Obj sd; Obj p] ≠ Bool false) ->
      preSaveListeners 0 (on eventListeners "PRE_SAVE" callback) sd p
      = (preSaveCalls 0 eventListeners sd p
           ++ [Call (Listener (length eventListeners)) [Obj sd; Obj p]]
           ++ (if isFalse (callback [Obj sd; Obj p])
               then [Dispatch SUBMIT_CANCELLED] else []),
         Resolved (negb (isFalse (callback [Obj sd; Obj p]))))).
Proof.
  unfold on. split.
  - apply preSaveListeners_other_name.
  - intros Hpass. rewrite preSaveListeners_app by done. simpl.
    by destruct (isFalse _).
Qed.

(** ** Loads that complete *)

Section LoadRuns.

Variable props : Props.t.
Variable state : State.t.
Variable snapshotQueue : list Snapshot.
Variable childDataTables : list DataTableRef.t.
Variable authRequest : AuthRequest.t.
Variable getTablePermissions : string -> TablePermissions.t.
Variable now : Z.
Variable toISOString : Z -> string.

Local Abbreviation load :=
  (onLoad props state snapshotQueue childDataTables authRequest getTablePermissions
     now toISOString).
Local Abbreviation start :=
  (startInitialLoad props state now toISOString).
Local Abbreviation drain :=
  (if bool_decide (0 < length snapshotQueue)%nat
   then drainQueue props state snapshotQueue now toISOString
   else ret tt).

(** The permission to create that a load publishes. *)
Local Abbreviation mayCreate :=
  (match Props.canCreate props with
   | Some false => false
   | _ => negb (String.eqb (TablePermissions.create
                              (getTablePermissions (Props.tableName props))) "NONE")
   end).

(** The permission to update that a load publishes, for the flag [flag]
    of the record. *)
Local Abbreviation mayUpdate flag :=
  (match Props.canUpdate props with
   | Some false => Bool false
   | _ => flag
   end).

(** A load from the record fetch on, when the permission flag of the
    snapshot of the caller can be read. *)
Lemma onLoad_completes options metadata fetched snapshot missingRecord flag flag' data :
  Props.tableName props ≠ "" ->
  result (resolveMetadata props authRequest) = Resolved metadata ->
  fetchRecord props state authRequest options
  = (fetched, Resolved (Some (snapshot, missingRecord, flag))) ->
  match Props.snapshot props with
  | SRecord o => member (get o ui_info) "canUpdate"
  | _ => ret flag
  end = ret flag' ->
  result (getInitialData props now toISOString metadata snapshot) = Resolved data ->
  load options
  = (trace (start options)
       ++ trace (resolveMetadata props authRequest)
       ++ fetched
       ++ trace (getInitialData props now toISOString metadata snapshot)
       ++ [GetTablePermissions (Props.tableName props)]
       ++ (if OnLoadOptions.refreshDatatables options
           then refreshes childDataTables else [])
       ++ [Dispatch (INITIAL_LOAD_COMPLETE
                       (LoadComplete.mk metadata snapshot data (mayUpdate flag') mayCreate
                          (CanRead.mk (negb missingRecord)
                             (if missingRecord
                              then missingRecordMessage props else ""))))]
       ++ trace drain,
     Resolved tt).
Proof.
  intros Hname Hmd Hfetch Hflag Hdata.
  assert (result drain = Resolved tt) as Hdrain.
  { case_bool_decide; [apply drainQueue_resolved|done]. }
  unfold onLoad. apply String.eqb_neq in Hname. rewrite Hname.
  rewrite (bind_resolved _ _ _ (startInitialLoad_resolved _ _ _ _ options)).
  rewrite (bind_resolved _ _ _ Hmd).
  rewrite Hfetch, bind_pair. cbv beta iota. unfold completeLoad.
  rewrite Hflag, bind_ret.
  rewrite (bind_resolved _ _ _ Hdata).
  rewrite (bind_resolved (emit _) _ tt eq_refl).
  assert ((if OnLoadOptions.refreshDatatables options
           then reloadDataTables childDataTables else ret tt)
          = (if OnLoadOptions.refreshDatatables options
             then refreshes childDataTables else [], Resolved tt)) as ->.
  { destruct (OnLoadOptions.refreshDatatables options);
      [apply reloadDataTables_eq|done]. }
  rewrite bind_pair.
  rewrite (bind_resolved (dispatch _) _ tt eq_refl).
  rewrite Hdrain.
  repeat first [ progress change (trace (?t, _)) with t
               | progress change (result (_, ?r)) with r ].
  reflexivity.
Qed.

Lemma member_readable v k :
  is_nullish v = false ->
  member v k = ret (match v with Obj o => get o k | _ => Undefined end).
Proof. by destruct v. Qed.

Lemma fetchRecord_skipped options :
  OnLoadOptions.refresh options = false ->
  present (Props.snapshot props) = true \/ OnLoadOptions.id options = None ->
  fetchRecord props state authRequest options
  = ret (Some (Props.snapshot props, false, Bool false)).
Proof.
  intros Hrefresh Hskip. unfold fetchRecord. rewrite Hrefresh, orb_false_r.
  destruct Hskip as [-> | ->]; [done|].
  by rewrite andb_false_r.
Qed.

(** X21. A load whose caller supplies no snapshot ([props.snapshot] null
    or undefined) and that fetches and finds the record publishes the first
    row as the snapshot, the buffer synthesized from it, canRead true with an
    empty message, the update flag of the row (false when the caller fixed
    canUpdate to false) and the permission to create (any grant but NONE,
    unless the caller fixed canCreate to false).  The dependent views are
    refreshed, when asked for, after the permissions are read and before the
    completion is dispatched. *)
Theorem load_of_found_record options dataResp row rows :
  Props.tableName props ≠ "" ->
  fetches props state options ->
  present (Props.snapshot props) = false ->
  AuthRequest.read authRequest (readRequest props state options) = Some dataResp ->
  ReadResponse.succeeded dataResp = true ->
  ReadResponse.results dataResp = Some (row :: rows) ->
  is_nullish (get row ui_info) = false ->
  exists metadata data,
    result (resolveMetadata props authRequest) = Resolved metadata
    /\ result (getInitialData props now toISOString metadata (SRecord row)) = Resolved data
    /\ load options
       = (trace (start options)
            ++ trace (resolveMetadata props authRequest)
            ++ [Read (readRequest props state options)]
            ++ trace (getInitialData props now toISOString metadata (SRecord row))
            ++ [GetTablePermissions (Props.tableName props)]
            ++ (if OnLoadOptions.refreshDatatables options
                then refreshes childDataTables else [])
            ++ [Dispatch (INITIAL_LOAD_COMPLETE
                            (LoadComplete.mk metadata (SRecord row) data
                               (mayUpdate (match get row ui_info with
                                           | Obj o => get o "canUpdate"
                                           | _ => Undefined
                                           end))
                               mayCreate (CanRead.mk true "")))]
            ++ trace drain,
          Resolved tt).
Proof.
  intros Hname Hfetch Hprops Hresp Hok Hrows Hinfo.
  destruct (resolveMetadata_total props authRequest) as [metadata Hmd].
  destruct (getInitialData_total props now toISOString metadata (SRecord row))
    as [data Hdata].
  exists metadata, data. split; [done|]. split; [done|].
  apply (onLoad_completes options metadata _ (SRecord row) false
           (match get row ui_info with Obj o => get o "canUpdate" | _ => Undefined end));
    try done.
  - rewrite fetchRecord_request, Hresp, Hok, Hrows by done. simpl.
    rewrite (member_readable _ _ Hinfo), bind_ret.
    unfold emit. by rewrite bind_pair.
  - by destruct (Props.snapshot props).
Qed.

(** X22. A load that is not a refresh and whose caller supplies the
    snapshot reads nothing from the data service, whatever identifier it
    was given: it publishes the snapshot of the caller, the buffer
    synthesized from it and the update flag of that snapshot (false when the
    caller fixed canUpdate to false), with canRead true. *)
Theorem load_with_caller_snapshot options (o : obj) :
  Props.tableName props ≠ "" ->
  OnLoadOptions.refresh options = false ->
  Props.snapshot props = SRecord o ->
  is_nullish (get o ui_info) = false ->
  exists metadata data,
    result (resolveMetadata props authRequest) = Resolved metadata
    /\ result (getInitialData props now toISOString metadata (SRecord o)) = Resolved data
    /\ load options
       = (trace (start options)
            ++ trace (resolveMetadata props authRequest)
            ++ trace (getInitialData props now toISOString metadata (SRecord o))
            ++ [GetTablePermissions (Props.tableName props)]
            ++ (if OnLoadOptions.refreshDatatables options
                then refreshes childDataTables else [])
            ++ [Dispatch (INITIAL_LOAD_COMPLETE
                            (LoadComplete.mk metadata (SRecord o) data
                               (mayUpdate (match get o ui_info with
                                           | Obj i => get i "canUpdate"
                                           | _ => Undefined
                                           end))
                               mayCreate (CanRead.mk true "")))]
            ++ trace drain,
          Resolved tt).
Proof.
  intros Hname Hrefresh Hprops Hinfo.
  destruct (resolveMetadata_total props authRequest) as [metadata Hmd].
  destruct (getInitialData_total props now toISOString metadata (SRecord o))
    as [data Hdata].
  exists metadata, data. split; [done|]. split; [done|].
  rewrite (onLoad_completes options metadata [] (SRecord o) false (Bool false)
             (match get o ui_info with Obj i => get i "canUpdate" | _ => Undefined end)
             data); try done.
  - rewrite fetchRecord_skipped, Hprops; [done..|]. left. by rewrite Hprops.
  - rewrite Hprops. by apply member_readable.
Qed.

(** X23. The load of a form for a new record (no snapshot from the
    caller, no identifier, not a refresh) reads nothing from the data
    service and publishes no snapshot, the buffer of the create path,
    canRead true, and canUpdate false: the update flag of a create form is
    off whatever the caller fixed. *)
Theorem load_of_create_form options :
  Props.tableName props ≠ "" ->
  OnLoadOptions.refresh options = false ->
  OnLoadOptions.id options = None ->
  Props.snapshot props = SUndefined ->
  exists metadata data,
    result (resolveMetadata props authRequest) = Resolved metadata
    /\ result (getInitialData props now toISOString metadata SUndefined) = Resolved data
    /\ load options
       = (trace (start options)
            ++ trace (resolveMetadata props authRequest)
            ++ trace (getInitialData props now toISOString metadata SUndefined)
            ++ [GetTablePermissions (Props.tableName props)]
            ++ (if OnLoadOptions.refreshDatatables options
                then refreshes childDataTables else [])
            ++ [Dispatch (INITIAL_LOAD_COMPLETE
                            (LoadComplete.mk metadata SUndefined data (Bool false)
                               mayCreate (CanRead.mk true "")))]
            ++ trace drain,
          Resolved tt).
Proof.
  intros Hname Hrefresh Hid Hprops.
  destruct (resolveMetadata_total props authRequest) as [metadata Hmd].
  destruct (getInitialData_total props now toISOString metadata SUndefined)
    as [data Hdata].
  exists metadata, data. split; [done|]. split; [done|].
  rewrite (onLoad_completes options metadata [] SUndefined false (Bool false)
             (Bool false) data); try done.
  - by destruct (Props.canUpdate props) as [[|]|].
  - rewrite fetchRecord_skipped, Hprops; [done..|]. by right.
  - by rewrite Hprops.
Qed.

(** X24. A load that is not a refresh and whose caller supplies a
    snapshot without the permission flags (no [_ui_info_], or a null one)
    rejects with a TypeError after the schema is resolved: it has dispatched
    the start of the load and nothing else, and the container stays
    loading. *)
Theorem load_rejects_on_snapshot_without_flags options (o : obj) :
  Props.tableName props ≠ "" ->
  OnLoadOptions.refresh options = false ->
  Props.snapshot props = SRecord o ->
  is_nullish (get o ui_info) = true ->
  load options
  = (trace (start options) ++ trace (resolveMetadata props authRequest),
     Rejected "TypeError")
  /\ (exists data forceIsLoading,
        dispatched (trace (load options))
        = [START_INITIAL_LOAD (Props.tableName props) data forceIsLoading])
  /\ State.phase (reduce state (trace (load options))) = Phase.LOADING.
Proof.
  intros Hname Hrefresh Hprops Hinfo.
  destruct (resolveMetadata_total props authRequest) as [metadata Hmd].
  assert (load options
          = (trace (start options) ++ trace (resolveMetadata props authRequest),
             Rejected "TypeError")) as Hrun.
  { unfold onLoad. apply String.eqb_neq in Hname. rewrite Hname.
    rewrite (bind_resolved _ _ _ (startInitialLoad_resolved _ _ _ _ options)).
    rewrite (bind_resolved _ _ _ Hmd).
    rewrite fetchRecord_skipped, bind_ret; [|done|left; by rewrite Hprops].
    cbv beta iota. unfold completeLoad. rewrite Hprops.
    assert (member (get o ui_info) "canUpdate" = throw "TypeError") as ->
      by (by destruct (get o ui_info)).
    unfold bind, throw; simpl. by rewrite app_nil_r. }
  rewrite Hrun. split; [done|].
  change (trace (?t, _)) with t.
  destruct (dispatched_startInitialLoad props state now toISOString options)
    as (data & force & Hstart).
  rewrite Hrefresh in Hstart.
  assert (dispatched (trace (start options) ++ trace (resolveMetadata props authRequest))
          = [START_INITIAL_LOAD (Props.tableName props) data force]) as Hd
    by (by rewrite dispatched_app, dispatched_resolveMetadata, Hstart).
  split; [by exists data, force|].
  unfold reduce. by rewrite Hd.
Qed.

(** X25. A reload of a container whose state has no snapshot (undefined
    or null) throws a TypeError when the identifier is read off it, before
    anything is done; a refresh load started on such a state rejects after
    the schema is resolved, without a read or a dispatch. *)
Theorem reload_without_snapshot_throws (reloadDataTables : bool) options :
  present (State.snapshot state) = false ->
  reload props state snapshotQueue childDataTables authRequest getTablePermissions
    now toISOString reloadDataTables
  = ([], Rejected "TypeError")
  /\ (Props.tableName props ≠ "" ->
      OnLoadOptions.refresh options = true ->
      load options = (trace (resolveMetadata props authRequest), Rejected "TypeError")
      /\ dispatched (trace (load options)) = []).
Proof.
  intros Hsnapshot.
  assert (forall k, snapshotMember (State.snapshot state) k = throw "TypeError") as Hthrow
    by (intros k; by destruct (State.snapshot state)).
  split; [unfold reload; by rewrite Hthrow|].
  intros Hname Hrefresh.
  destruct (resolveMetadata_total props authRequest) as [metadata Hmd].
  assert (load options
          = (trace (resolveMetadata props authRequest), Rejected "TypeError")) as Hrun.
  { unfold onLoad. apply String.eqb_neq in Hname. rewrite Hname.
    unfold startInitialLoad. rewrite Hrefresh. simpl negb. cbv iota.
    rewrite bind_ret, (bind_resolved _ _ _ Hmd).
    unfold fetchRecord. rewrite Hrefresh, orb_true_r, Hthrow.
    unfold bind, throw; simpl. by rewrite app_nil_r. }
  rewrite Hrun. split; [done|]. apply dispatched_resolveMetadata.
Qed.

(** X26. The effect on the queue assigns the most recent entry and only
    that one, and empties the queue: the entries queued before it are
    discarded without being assigned.  It does so only in a render whose
    state has completed a load; otherwise it leaves the queue alone. *)
Theorem queue_effect_assigns_most_recent (queue : list Snapshot) (snapshot : Snapshot) :
  is_Some (State.metadata state) ->
  (exists data,
      result (getInitialData props now toISOString (State.metadata state) snapshot)
      = Resolved data
      /\ dispatched (trace (snapshotQueueEffect props state (queue ++ [snapshot])
                              now toISOString true))
         = [SET_DATA_TO_EDIT (DataToEdit.mk data snapshot (Props.canUpdate props) false)]
      /\ queueAfter (queue ++ [snapshot])
           (trace (snapshotQueueEffect props state (queue ++ [snapshot])
                     now toISOString true))
         = [])
  /\ snapshotQueueEffect props state (queue ++ [snapshot]) now toISOString false
     = ret tt.
Proof.
  intros Hmd. split.
  - destruct (drainQueue_schema_known props state queue snapshot now toISOString Hmd)
      as (data & Hdata & Hd & Hq).
    exists data. split; [done|].
    unfold snapshotQueueEffect. rewrite andb_true_r.
    rewrite bool_decide_eq_true_2; [done|].
    rewrite length_app. simpl. lia.
  - unfold snapshotQueueEffect. by rewrite andb_false_r.
Qed.

(** X27. With the schema known, assigning [null] as the snapshot blanks
    the buffer (the buffer dispatched is undefined, nothing is synthesized)
    while assigning [undefined] turns the form into a create form with the
    buffer of the create path; neither queues anything. *)
Theorem setSnapshot_without_record (forceShowLoading : option bool) :
  is_Some (State.metadata state) ->
  setSnapshot props state now toISOString SNull forceShowLoading
  = ([Dispatch (SET_DATA_TO_EDIT
                  (DataToEdit.mk None SNull (Props.canUpdate props)
                     (default false forceShowLoading)))],
     Resolved tt)
  /\ exists data,
       result (getInitialData props now toISOString (State.metadata state) SUndefined)
       = Resolved (Some data)
       /\ dispatched (trace (setSnapshot props state now toISOString SUndefined
                               forceShowLoading))
          = [SET_DATA_TO_EDIT
               (DataToEdit.mk (Some data) SUndefined (Props.canUpdate props)
                  (default false forceShowLoading))]
       /\ queueAfter snapshotQueue
            (trace (setSnapshot props state now toISOString SUndefined forceShowLoading))
          = snapshotQueue.
Proof.
  intros [md Hmd]. unfold setSnapshot. rewrite Hmd.
  split; [unfold getInitialData; by rewrite bind_ret|].
  eexists. split; [apply getInitialData_create|].
  rewrite (bind_resolved _ _ _ (getInitialData_create props now toISOString md)).
  change (trace (?t, _)) with t. split.
  - rewrite dispatched_app.
    rewrite (dispatched_getInitialData props now toISOString (Some md) SUndefined).
    done.
  - unfold queueAfter. rewrite foldl_app. simpl.
    assert (forall t q, (forall e, e ∈ t -> queueStep q e = q) -> foldl queueStep q t = q)
      as Hkeep.
    { intros t q. induction t as [|e t IH]; simpl; [done|].
      intros He. rewrite (He e) by apply list_elem_of_here.
      apply IH. intros e' He'. apply He. by right. }
    apply Hkeep. intros e He.
    destruct (getInitialData_labels props now toISOString (Some md) SUndefined e He)
      as (? & ? & ? & ? & ->).
    done.
Qed.

End LoadRuns.

(** ** The properties on the Widget form *)

Lemma create_buffer_caller_defaults_witness :
  let props :=
    Props.mk "Widget" None None
      (Some [FieldValue.mk "Name" (Str "Bolt"); FieldValue.mk "Name" (Str "Nut")])
      SUndefined None None None false None in
  exists buffer : obj,
    result (getInitialData props exampleNow exampleToISOString (Some widgetMetadata)
              SUndefined)
    = Resolved (Some buffer)
    /\ buffer !! "Name" = Some (Str "Nut").
Proof.
  intros props.
  destruct (create_buffer_caller_defaults props exampleNow exampleToISOString
              widgetMetadata _ eq_refl) as (buffer & Hbuffer & Hlast & _).
  exists buffer. split; [exact Hbuffer|].
  apply (Hlast [FieldValue.mk "Name" (Str "Bolt")] (FieldValue.mk "Name" (Str "Nut")) []);
    [reflexivity|].
  apply not_elem_of_nil.
Defined.

Lemma update_buffer_lookup_default_witness :
  let props :=
    Props.mk "Widget" None None (Some [FieldValue.mk "OwnerId" (Str "u1")])
      SUndefined None None None false None in
  exists buffer : obj,
    result (getInitialData props exampleNow exampleToISOString (Some widgetMetadata)
              (SRecord widgetRow))
    = Resolved (Some buffer)
    /\ buffer !! "OwnerId" = Some (Str "u1").
Proof.
  intros props.
  destruct (update_buffer_lookup_default props exampleNow exampleToISOString
              widgetMetadata widgetRow (exampleField "OwnerId" "Lookup" true false))
    as (buffer & Hbuffer & Hdefault & _).
  - compute_done.
  - apply list_elem_of_In. simpl. auto 10.
  - discriminate.
  - reflexivity.
  - left. reflexivity.
  - exists buffer. split; [exact Hbuffer|exact Hdefault].
Defined.

Lemma synthesis_only_fetches_default_labels_witness :
  let props :=
    Props.mk "Widget" None None (Some [FieldValue.mk "OwnerId" (Str "u1")])
      SUndefined None None None false None in
  exists md field defaults d,
    Some widgetMetadata = Some md
    /\ field ∈ Metadata.fields md
    /\ Field.type field = "Lookup"
    /\ Props.defaults props = Some defaults
    /\ d ∈ defaults
    /\ FieldValue.field d = Field.name field
    /\ GetLookupLabel "OwnerId" "" "" (Str "u1")
       = GetLookupLabel (Field.name field) (Field.lookupTable field)
           (Field.lookupTableNameField field) (FieldValue.value d).
Proof.
  intros props.
  apply (synthesis_only_fetches_default_labels props exampleNow exampleToISOString
           (Some widgetMetadata) SUndefined).
  apply list_elem_of_In. vm_compute. left. reflexivity.
Defined.

Lemma validation_messages_name_checked_fields_witness :
  exists md field,
    State.metadata (readyState SUndefined widgetDefaults []) = Some md
    /\ field ∈ Metadata.fields md
    /\ ValidationMessage.field nameRequired = Field.name field
    /\ Field.name field ∉ auditFields.
Proof.
  apply (validation_messages_name_checked_fields
           (readyState SUndefined widgetDefaults []) [] exampleGuid [nameRequired]).
  - apply list_elem_of_In. vm_compute. left. reflexivity.
  - apply list_elem_of_here.
Defined.

Lemma required_reference_reported_twice_witness :
  let field := exampleField "OwnerId" "Lookup" true false in
  fieldMessages ["OwnerId"] exampleGuid field Null
  = [isRequiredMessage field; isRequiredMessage field].
Proof.
  intros field.
  apply (required_reference_reported_twice ["OwnerId"] exampleGuid field Null).
  - left. reflexivity.
  - vm_compute. reflexivity.
  - reflexivity.
  - intros Hin%list_elem_of_In. simpl in Hin.
    destruct Hin as [Hin|[Hin|[]]]; discriminate Hin.
Defined.

Lemma required_override_round_trip_witness :
  let field := exampleField "Price" "Decimal" false false in
  isRequiredMessage field
    ∈ fieldMessages (addRequiredField [] "Price") exampleGuid field (Str "")
  /\ isRequiredMessage field
       ∉ fieldMessages (removeRequiredField (addRequiredField [] "Price") "Price")
           exampleGuid field (Str "").
Proof.
  intros field.
  destruct (required_override_round_trip [] exampleGuid field (Str "")) as [Hadd Hremove].
  - intros Hin%list_elem_of_In. simpl in Hin.
    destruct Hin as [Hin|[Hin|[]]]; discriminate Hin.
  - right. reflexivity.
  - split; [exact Hadd|]. apply Hremove; [reflexivity|].
    right. split; discriminate.
Defined.

Lemma save_runs_to_completion_witness :
  let data := <["Name" := Str "Widget"]> widgetDefaults in
  let run :=
    onSave (exampleProps "Widget" SUndefined) (readyState SUndefined data [])
      [DataTableRef.mk "parts"]
      [FBEvent.mk "PRE_SAVE" (fun _ => Bool true);
       FBEvent.mk "POST_SAVE" (fun _ => Undefined)]
      [] (exampleService None (Some (ExecuteResponse.mk true (Obj widgetRow))))
      exampleGuid "create" "update" None (Some (proceedWith ∅)) true in
  result run = Resolved tt
  /\ dispatched (trace run) = [SET_IS_LOADING; SUBMIT_COMPLETE].
Proof.
  intros data run. unfold run.
  rewrite (save_runs_to_completion (exampleProps "Widget" SUndefined)
             (readyState SUndefined data []) [DataTableRef.mk "parts"]
             [FBEvent.mk "PRE_SAVE" (fun _ => Bool true);
              FBEvent.mk "POST_SAVE" (fun _ => Undefined)]
             [] (exampleService None (Some (ExecuteResponse.mk true (Obj widgetRow))))
             exampleGuid "create" "update" None (Some (proceedWith ∅)) true).
  - split; reflexivity.
  - exact I.
  - vm_compute. reflexivity.
  - exact I.
  - intros e He _. apply list_elem_of_In in He. simpl in He.
    destruct He as [<-|[<-|[]]]; discriminate.
  - reflexivity.
  - left. reflexivity.
Defined.

Lemma save_rejects_on_unreadable_response_witness :
  let data := <["Name" := Str "Widget"]> widgetDefaults in
  let state := readyState SUndefined data [] in
  let run :=
    onSave (exampleProps "Widget" SUndefined) state [DataTableRef.mk "parts"] [] []
      (exampleService None (Some (ExecuteResponse.mk true Null)))
      exampleGuid "create" "update" None None true in
  result run = Rejected "TypeError"
  /\ State.phase (reduce state (trace run)) = Phase.SUBMITTING.
Proof.
  intros data state run.
  destruct (save_rejects_on_unreadable_response (exampleProps "Widget" SUndefined) state
              [DataTableRef.mk "parts"] [] []
              (exampleService None (Some (ExecuteResponse.mk true Null)))
              exampleGuid "create" "update" None None true Null)
    as (Hrun & _ & Hphase).
  - exact I.
  - vm_compute. reflexivity.
  - exact I.
  - intros e He. by apply elem_of_nil in He.
  - exact I.
  - reflexivity.
  - reflexivity.
  - reflexivity.
  - split; [|exact Hphase]. unfold run. by rewrite Hrun.
Defined.

Lemma save_stops_at_failed_validation_witness :
  exists messages,
    messages ≠ []
    /\ onSave (exampleProps "Widget" SUndefined) (readyState SUndefined widgetDefaults [])
         [DataTableRef.mk "parts"] exampleListeners []
         (exampleService None None) exampleGuid "create" "update" None None true
       = ([Dispatch (SET_VALIDATION_MESSAGES messages)], Resolved tt).
Proof.
  apply (save_stops_at_failed_validation (exampleProps "Widget" SUndefined)
           (readyState SUndefined widgetDefaults []) [DataTableRef.mk "parts"]
           exampleListeners [] (exampleService None None) exampleGuid
           "create" "update" None None true).
  - exact I.
  - vm_compute. reflexivity.
Defined.

Lemma instance_hook_cancels_before_listeners_witness :
  let data := <["Name" := Str "Widget"]> widgetDefaults in
  onSave (Props.mk "Widget" None None None SUndefined None None (Some stop) false None)
    (readyState SUndefined data []) [DataTableRef.mk "parts"] exampleListeners []
    (exampleService None None) exampleGuid "create" "update" None None true
  = ([Dispatch SET_IS_LOADING; Call OnPreSave [Obj data]; Dispatch SUBMIT_CANCELLED],
     Resolved tt).
Proof.
  intros data.
  apply (instance_hook_cancels_before_listeners
           (Props.mk "Widget" None None None SUndefined None None (Some stop) false None)
           (readyState SUndefined data []) [DataTableRef.mk "parts"] exampleListeners []
           (exampleService None None) exampleGuid "create" "update" None None true stop).
  - exact I.
  - vm_compute. reflexivity.
  - reflexivity.
  - reflexivity.
Defined.

Lemma call_hook_cancels_after_listeners_witness :
  let data := <["Name" := Str "Widget"]> widgetDefaults in
  onSave (exampleProps "Widget" SUndefined) (readyState SUndefined data [])
    [DataTableRef.mk "parts"] [FBEvent.mk "PRE_SAVE" (fun _ => Bool true)] []
    (exampleService None None) exampleGuid "create" "update" None (Some stop) true
  = ([Dispatch SET_IS_LOADING;
      Call (Listener 0) [Obj data; Obj ∅];
      Call PreSaveHook [Obj data];
      Dispatch SUBMIT_CANCELLED],
     Resolved tt).
Proof.
  intros data.
  rewrite (call_hook_cancels_after_listeners (exampleProps "Widget" SUndefined)
             (readyState SUndefined data []) [DataTableRef.mk "parts"]
             [FBEvent.mk "PRE_SAVE" (fun _ => Bool true)] []
             (exampleService None None) exampleGuid "create" "update" None stop true).
  - reflexivity.
  - exact I.
  - vm_compute. reflexivity.
  - exact I.
  - intros e He _. apply list_elem_of_In in He. simpl in He.
    destruct He as [<-|[]]; discriminate.
  - reflexivity.
Defined.

Lemma save_before_schema_is_not_validated_witness :
  exists request,
    Execute request
      ∈ trace (onSave (exampleProps "Widget" SUndefined) initialState [] [] []
                 (exampleService None None) exampleGuid "create" "update"
                 None None false)
    /\ ExecuteRequest.tableName request = None
    /\ ExecuteRequest.fields request = Some ∅.
Proof.
  destruct (save_before_schema_is_not_validated (exampleProps "Widget" SUndefined)
              initialState [] [] [] (exampleService None None) exampleGuid
              "create" "update" None None false) as [_ Hrequest].
  - reflexivity.
  - exact I.
  - exact I.
  - intros e He. by apply elem_of_nil in He.
  - exact I.
  - exact Hrequest.
Defined.

Lemma validation_without_buffer_throws_witness :
  let state :=
    State.mk Phase.READY (Some widgetMetadata) SUndefined None [] [] (Bool true) true
      (CanRead.mk true "") false in
  onValidate state [] exampleGuid = ([], Rejected "TypeError").
Proof.
  intros state.
  destruct (validation_without_buffer_throws (exampleProps "Widget" SUndefined) state
              [] [] [] (exampleService None None) exampleGuid "create" "update"
              widgetMetadata None None false) as [Hvalidate _].
  - reflexivity.
  - discriminate.
  - reflexivity.
  - exact Hvalidate.
Defined.

Lemma load_of_found_record_witness :
  let service := exampleService (Some (ReadResponse.mk true (Some [widgetRow]))) None in
  let run :=
    onLoad (exampleProps "Widget" SUndefined) initialState [] [DataTableRef.mk "parts"]
      service examplePermissions exampleNow exampleToISOString (mountOptions (Some "w1")) in
  result run = Resolved tt
  /\ State.snapshot (reduce initialState (trace run)) = SRecord widgetRow.
Proof.
  intros service run.
  destruct (load_of_found_record (exampleProps "Widget" SUndefined) initialState []
              [DataTableRef.mk "parts"] service examplePermissions exampleNow
              exampleToISOString (mountOptions (Some "w1"))
              (ReadResponse.mk true (Some [widgetRow])) widgetRow [])
    as (metadata & data & _ & _ & Hrun).
  - discriminate.
  - left. repeat split. by exists "w1".
  - reflexivity.
  - reflexivity.
  - reflexivity.
  - reflexivity.
  - vm_compute. reflexivity.
  - split; [unfold run; by rewrite Hrun|]. vm_compute. reflexivity.
Defined.

Lemma load_with_caller_snapshot_witness :
  let run :=
    onLoad (exampleProps "Widget" (SRecord widgetRow)) initialState []
      [DataTableRef.mk "parts"] (exampleService None None) examplePermissions
      exampleNow exampleToISOString (mountOptions (Some "w1")) in
  result run = Resolved tt
  /\ State.snapshot (reduce initialState (trace run)) = SRecord widgetRow.
Proof.
  intros run.
  destruct (load_with_caller_snapshot (exampleProps "Widget" (SRecord widgetRow))
              initialState [] [DataTableRef.mk "parts"] (exampleService None None)
              examplePermissions exampleNow exampleToISOString (mountOptions (Some "w1"))
              widgetRow)
    as (metadata & data & _ & _ & Hrun).
  - discriminate.
  - reflexivity.
  - reflexivity.
  - vm_compute. reflexivity.
  - split; [unfold run; by rewrite Hrun|]. vm_compute. reflexivity.
Defined.

Lemma load_of_create_form_witness :
  let run :=
    onLoad (exampleProps "Widget" SUndefined) initialState [] [DataTableRef.mk "parts"]
      (exampleService None None) examplePermissions exampleNow exampleToISOString
      (mountOptions None) in
  result run = Resolved tt
  /\ State.canUpdate (reduce initialState (trace run)) = Bool false.
Proof.
  intros run.
  destruct (load_of_create_form (exampleProps "Widget" SUndefined) initialState []
              [DataTableRef.mk "parts"] (exampleService None None) examplePermissions
              exampleNow exampleToISOString (mountOptions None))
    as (metadata & data & _ & _ & Hrun).
  - discriminate.
  - reflexivity.
  - reflexivity.
  - reflexivity.
  - split; [unfold run; by rewrite Hrun|]. vm_compute. reflexivity.
Defined.

Lemma load_rejects_on_snapshot_without_flags_witness :
  let run :=
    onLoad (exampleProps "Widget" (SRecord (<["Name" := Str "A"]> ∅))) initialState []
      [] (exampleService None None) examplePermissions exampleNow exampleToISOString
      (mountOptions None) in
  result run = Rejected "TypeError"
  /\ State.phase (reduce initialState (trace run)) = Phase.LOADING.
Proof.
  intros run.
  destruct (load_rejects_on_snapshot_without_flags
              (exampleProps "Widget" (SRecord (<["Name" := Str "A"]> ∅))) initialState []
              [] (exampleService None None) examplePermissions exampleNow
              exampleToISOString (mountOptions None) (<["Name" := Str "A"]> ∅))
    as (Hrun & _ & Hphase).
  - discriminate.
  - reflexivity.
  - reflexivity.
  - vm_compute. reflexivity.
  - split; [|exact Hphase]. unfold run. by rewrite Hrun.
Defined.

Lemma reload_without_snapshot_throws_witness :
  reload (exampleProps "Widget" SUndefined) initialState [] [] (exampleService None None)
    examplePermissions exampleNow exampleToISOString true
  = ([], Rejected "TypeError").
Proof.
  apply (reload_without_snapshot_throws (exampleProps "Widget" SUndefined) initialState
           [] [] (exampleService None None) examplePermissions exampleNow
           exampleToISOString true refreshOptions).
  reflexivity.
Defined.

Lemma queue_effect_assigns_most_recent_witness :
  let props := exampleProps "Widget" SUndefined in
  let state := readyState SUndefined widgetDefaults [] in
  exists data,
    dispatched (trace (snapshotQueueEffect props state [SNull; SRecord widgetRow]
                         exampleNow exampleToISOString true))
    = [SET_DATA_TO_EDIT (DataToEdit.mk data (SRecord widgetRow) None false)].
Proof.
  intros props state.
  destruct (queue_effect_assigns_most_recent props state exampleNow exampleToISOString
              [SNull] (SRecord widgetRow)) as [(data & _ & Hdispatched & _) _].
  - by exists widgetMetadata.
  - exists data. exact Hdispatched.
Defined.

Lemma setSnapshot_without_record_witness :
  setSnapshot (exampleProps "Widget" SUndefined) (readyState SUndefined widgetDefaults [])
    exampleNow exampleToISOString SNull (Some true)
  = ([Dispatch (SET_DATA_TO_EDIT (DataToEdit.mk None SNull None true))], Resolved tt).
Proof.
  destruct (setSnapshot_without_record (exampleProps "Widget" SUndefined)
              (readyState SUndefined widgetDefaults []) [] exampleNow exampleToISOString
              (Some true)) as [Hnull _].
  - by exists widgetMetadata.
  - exact Hnull.
Defined.
